(** * The GnuTLS/libgcrypt block cipher transform of xmlsec (src/gnutls/ciphers.c)

    A shallow embedding of the streaming CBC transform: the three private
    phases [xmlSecGnuTLSBlockCipherCtxInit], [xmlSecGnuTLSBlockCipherCtxUpdate]
    and [xmlSecGnuTLSBlockCipherCtxFinal], the klass methods built on them
    ([..Initialize], [..Finalize], [..SetKeyReq], [..SetKey], [..Execute]),
    and the properties the specification states about them.

    Conventions of the embedding.
    - A C function is a computation over the machine state that either falls
      through to its next statement or executes [return(r)]; state changes made
      before a [return(-1)] stay, as they do behind the C pointers.
    - [int] values that the code only compares with zero (flags, return codes)
      are [Z]; [size_t] quantities are sizes of buffers held in memory and are
      [nat]: every subtraction of the source sits behind the comparison that
      keeps it from wrapping, and the model repeats those comparisons.
    - Bytes are [Byte.byte]; a buffer is its whole storage (as long as its
      capacity) together with its logical size. *)

From Stdlib Require Import ZArith NArith Lia String.
From Stdlib Require Import Strings.Byte.
From stdpp Require Import base tactics option list.

Local Open Scope nat_scope.

(** ** Bytes *)

Abbreviation byte := Byte.byte.

(** Conversion of an integer to [unsigned char]: reduction modulo 256. *)
Definition byte_of_nat (n : nat) : byte :=
  match Byte.of_nat (n mod 256) with
  | Some b => b
  | None => x00
  end.

Definition byte_xor (a b : byte) : byte :=
  match Byte.of_N (N.lxor (Byte.to_N a) (Byte.to_N b)) with
  | Some c => c
  | None => x00
  end.

Fixpoint xor_bytes (a b : list byte) : list byte :=
  match a, b with
  | x :: a', y :: b' => byte_xor x y :: xor_bytes a' b'
  | _, _ => []
  end.

(** Raw memory: reading [n] bytes at offset [off] of a region, and storing
    bytes at an offset.  A store never changes the length of the region; what
    would fall behind its end is dropped (the bounds the source keeps are the
    subject of [gcry_call_in_bounds] below). *)
Definition mem_read (off n : nat) (mem : list byte) : list byte :=
  take n (drop off mem).

Definition mem_write (off : nat) (bytes mem : list byte) : list byte :=
  take (length mem) (take off mem ++ bytes ++ drop (off + length bytes) mem).

(** ** The growable byte buffer

    Modelled from the spec: the buffer implementation ([xmlSecBufferGetSize],
    [xmlSecBufferGetData], [xmlSecBufferSetMaxSize], [xmlSecBufferSetSize],
    [xmlSecBufferRemoveHead]) is not part of the sources; the header only
    declares the structure with its [data], [size] and [maxSize] members.
    The operations follow section 4.A of the specification. *)

Record xmlSecBuffer : Type := mkBuffer {
  buf_data : list byte;   (* the storage; maxSize is its length *)
  buf_size : nat          (* the logical size *)
}.

Definition buf_capacity (b : xmlSecBuffer) : nat := length (buf_data b).

Definition buf_wf (b : xmlSecBuffer) : Prop := buf_size b <= length (buf_data b).

(** The logical contents, bytes [0, size). *)
Definition buf_bytes (b : xmlSecBuffer) : list byte := take (buf_size b) (buf_data b).

Definition empty_buffer : xmlSecBuffer := mkBuffer [] 0.

(** What the platform contributes to the buffer: whether the allocator grants
    a region of a given length, how much room the growth strategy adds on top
    of a request, and the contents of fresh memory. *)
Record Allocator : Type := mkAllocator {
  alloc_ok : nat -> bool;
  alloc_slack : nat -> nat;
  alloc_junk : byte
}.

(** Modelled from the spec: [reserve(n)], "ensure capacity >= n; on growth,
    contents [0, size) preserved.  Fails with OutOfMemory".  [None] is the
    failure. *)
Definition buf_reserve (al : Allocator) (n : nat) (b : xmlSecBuffer) : option xmlSecBuffer :=
  if decide (n <= length (buf_data b)) then Some b
  else
    let cap := n + alloc_slack al n in
    if alloc_ok al cap
    then Some (mkBuffer (buf_data b ++ replicate (cap - length (buf_data b)) (alloc_junk al))
                        (buf_size b))
    else None.

(** Modelled from the spec: [set_size(n)], "precondition n <= capacity; bytes
    in [old_size, n) are unspecified (caller writes them).  Fails if
    n > capacity and reserve fails".  The storage is left as it is, so bytes a
    caller stored behind the old size before the call are the new contents. *)
Definition buf_set_size (al : Allocator) (n : nat) (b : xmlSecBuffer) : option xmlSecBuffer :=
  match buf_reserve al n b with
  | Some b' => Some (mkBuffer (buf_data b') n)
  | None => None
  end.

(** Modelled from the spec: [remove_head(n)], "precondition pos + n <= size;
    shifts tail left; size shrinks by n; capacity unchanged".  The only error
    section 4.A allows is an allocation failure, and section 9 adds that
    "remove_head of an already-empty buffer is a no-op"; so the operation
    always succeeds and removes what there is when asked for more.  The tail
    is moved to the front of the storage, whose other bytes stay. *)
Definition buf_remove_head (n : nat) (b : xmlSecBuffer) : xmlSecBuffer :=
  let k := n `min` buf_size b in
  mkBuffer (take (buf_size b - k) (drop k (buf_data b)) ++ drop (buf_size b - k) (buf_data b))
           (buf_size b - k).


(** ** The cipher provider (libgcrypt)

    libgcrypt is an external library.  Its enumerations are given with the
    members the transform uses; block and key lengths are those of the table
    in section 4.D of the specification. *)

Inductive gcry_cipher_algos : Type :=
| GCRY_CIPHER_NONE      (* the value 0 *)
| GCRY_CIPHER_3DES
| GCRY_CIPHER_AES128
| GCRY_CIPHER_AES192
| GCRY_CIPHER_AES256.

Inductive gcry_cipher_modes : Type :=
| GCRY_CIPHER_MODE_NONE (* the value 0 *)
| GCRY_CIPHER_MODE_CBC.

#[global] Instance gcry_cipher_algos_eq_dec : EqDecision gcry_cipher_algos.
Proof. solve_decision. Defined.

Definition gcry_cipher_get_algo_blklen (algo : gcry_cipher_algos) : nat :=
  match algo with
  | GCRY_CIPHER_NONE => 0
  | GCRY_CIPHER_3DES => 8
  | GCRY_CIPHER_AES128 | GCRY_CIPHER_AES192 | GCRY_CIPHER_AES256 => 16
  end.

Definition gcry_cipher_get_algo_keylen (algo : gcry_cipher_algos) : nat :=
  match algo with
  | GCRY_CIPHER_NONE => 0
  | GCRY_CIPHER_3DES => 24
  | GCRY_CIPHER_AES128 => 16
  | GCRY_CIPHER_AES192 => 24
  | GCRY_CIPHER_AES256 => 32
  end.

(** The state behind a [GcryCipherHd]: algorithm and mode the handle was
    opened with, the key, and the CBC chaining value (the IV until the first
    block has gone through). *)
Record gcry_cipher_handle : Type := mkHandle {
  hd_algo : gcry_cipher_algos;
  hd_mode : gcry_cipher_modes;
  hd_key : list byte;
  hd_iv : list byte
}.

(** The parts of the provider and of the platform the model leaves open: the
    block primitive of each algorithm under a key, in both directions; which
    algorithms [gcry_cipher_open] can open; the keys [gcry_cipher_setkey]
    refuses; the bytes the random generator delivers, in the order they are
    drawn; and the allocator behind the buffers. *)
Record Provider : Type := mkProvider {
  blk_encrypt : gcry_cipher_algos -> list byte -> list byte -> list byte;
  blk_decrypt : gcry_cipher_algos -> list byte -> list byte -> list byte;
  cipher_available : gcry_cipher_algos -> bool;
  key_refused : gcry_cipher_algos -> list byte -> bool;
  random_byte : nat -> byte;
  allocator : Allocator
}.

(** CBC over [n] blocks of [B] bytes (glossary of the specification: "each
    plaintext block is XORed with the previous ciphertext block before
    encryption; the IV seeds the first block").  Both directions return the
    processed bytes and the chaining value left in the session. *)
Fixpoint cbc_encrypt (E : list byte -> list byte) (B n : nat) (iv data : list byte)
  : list byte * list byte :=
  match n with
  | 0 => ([], iv)
  | S n' =>
      let c := E (xor_bytes (take B data) iv) in
      let '(cs, iv') := cbc_encrypt E B n' c (drop B data) in
      (c ++ cs, iv')
  end.

Fixpoint cbc_decrypt (D : list byte -> list byte) (B n : nat) (iv data : list byte)
  : list byte * list byte :=
  match n with
  | 0 => ([], iv)
  | S n' =>
      let c := take B data in
      let p := xor_bytes (D c) iv in
      let '(ps, iv') := cbc_decrypt D B n' c (drop B data) in
      (p ++ ps, iv')
  end.

(** The source tests provider results against zero only. *)
Definition GCRYERR_SUCCESS : Z := 0.
Definition GCRYERR_INV_ARG : Z := 45.
Definition GCRYERR_INV_KEYLEN : Z := 44.
Definition GCRYERR_WEAK_KEY : Z := 43.
Definition GCRYERR_INV_LENGTH : Z := 139.
Definition GCRYERR_TOO_SHORT : Z := 200.

(** One call of [gcry_cipher_encrypt] or [gcry_cipher_decrypt] as the provider
    sees it: the output region (offset into the output buffer and declared
    capacity), the input length, and the capacities of the two buffers at the
    time of the call. *)
Record gcry_call : Type := mkCall {
  call_encrypt : bool;
  call_out_off : nat;
  call_out_cap : nat;
  call_in_len : nat;
  call_out_maxSize : nat;
  call_in_maxSize : nat
}.

(** The declared output region lies inside the output buffer. *)
Definition gcry_call_in_bounds (c : gcry_call) : bool :=
  bool_decide (call_out_off c + call_out_cap c <= call_out_maxSize c).

(** ** Errors *)

Inductive xmlSecErrorsReason : Type :=
| XMLSEC_ERRORS_R_XMLSEC_FAILED
| XMLSEC_ERRORS_R_MALLOC_FAILED
| XMLSEC_ERRORS_R_CRYPTO_FAILED
| XMLSEC_ERRORS_R_INVALID_DATA
| XMLSEC_ERRORS_R_INVALID_TRANSFORM
| XMLSEC_ERRORS_R_INVALID_KEY_SIZE
| XMLSEC_ERRORS_R_INVALID_STATUS
| XMLSEC_ERRORS_R_ASSERTION.

(** The arguments of one [xmlSecError] call: the object (the transform name),
    the subject (the function that failed, or NULL), the reason and the
    message format. *)
Record xmlSecErrorReport : Type := mkReport {
  errorObject : option string;
  errorSubject : option string;
  errorReason : xmlSecErrorsReason;
  errorMsg : string
}.

Definition XMLSEC_ERRORS_NO_MESSAGE : string := " ".

(** ** The transform *)

Inductive xmlSecKeyDataId : Type :=
| xmlSecGnuTLSKeyDataDesId
| xmlSecGnuTLSKeyDataAesId.

#[global] Instance xmlSecKeyDataId_eq_dec : EqDecision xmlSecKeyDataId.
Proof. solve_decision. Defined.

(** A key: the id of its key data and the buffer of its binary value (NULL
    when there is none). *)
Record xmlSecKey : Type := mkKey {
  key_id : xmlSecKeyDataId;
  key_value : option xmlSecBuffer
}.

(** A key request, as [xmlSecGnuTLSBlockCipherSetKeyReq] fills it in: the key
    data wanted, its type and its usage.  [xmlSecKeyDataTypeOther] and
    [xmlSecKeyUsageOther] stand for the values of the two C types the
    transform never assigns. *)
Inductive xmlSecKeyDataType : Type :=
| xmlSecKeyDataTypeSymmetric
| xmlSecKeyDataTypeOther.

Inductive xmlSecKeyUsage : Type :=
| xmlSecKeyUsageEncrypt
| xmlSecKeyUsageDecrypt
| xmlSecKeyUsageOther.

Record xmlSecKeyReq : Type := mkKeyReq {
  keyReq_keyId : option xmlSecKeyDataId;
  keyReq_keyType : xmlSecKeyDataType;
  keyReq_keyUsage : xmlSecKeyUsage
}.

(** The klass of a transform: the four of this file, and any other. *)
Inductive xmlSecTransformId : Type :=
| xmlSecGnuTLSTransformDes3CbcId
| xmlSecGnuTLSTransformAes128CbcId
| xmlSecGnuTLSTransformAes192CbcId
| xmlSecGnuTLSTransformAes256CbcId
| xmlSecTransformIdOther.

(** The status of a transform; [xmlSecTransformStatusOther] stands for every
    value of the C enumeration besides the three the transform uses. *)
Inductive xmlSecTransformStatus : Type :=
| xmlSecTransformStatusNone
| xmlSecTransformStatusWorking
| xmlSecTransformStatusFinished
| xmlSecTransformStatusOther.

#[global] Instance xmlSecTransformStatus_eq_dec : EqDecision xmlSecTransformStatus.
Proof. solve_decision. Defined.

Record xmlSecGnuTLSBlockCipherCtx : Type := mkCtx {
  cipher : gcry_cipher_algos;
  mode : gcry_cipher_modes;
  cipherCtx : option gcry_cipher_handle;
  keyId : option xmlSecKeyDataId;
  keyInitialized : Z;
  ctxInitialized : Z
}.

(** [memset(ctx, 0, sizeof(xmlSecGnuTLSBlockCipherCtx))] *)
Definition zero_ctx : xmlSecGnuTLSBlockCipherCtx :=
  mkCtx GCRY_CIPHER_NONE GCRY_CIPHER_MODE_NONE None None 0 0.

(** The transform context handed through by the driver; the transform only
    tests the pointer. *)
Definition xmlSecTransformCtx : Type := unit.

(** The machine state: the members of [xmlSecTransform] the file uses, the
    block cipher context located behind the structure, and the three traces
    the model keeps: the [xmlSecError] reports (latest first), the number of
    random bytes drawn, and the provider's cipher calls (latest first). *)
Record Machine : Type := mkMachine {
  t_id : xmlSecTransformId;
  t_encode : Z;
  t_status : xmlSecTransformStatus;
  t_inBuf : xmlSecBuffer;
  t_outBuf : xmlSecBuffer;
  t_ctx : xmlSecGnuTLSBlockCipherCtx;
  errors : list xmlSecErrorReport;
  random_drawn : nat;
  gcry_calls : list gcry_call
}.

Definition set_status (s : xmlSecTransformStatus) (m : Machine) : Machine :=
  mkMachine (t_id m) (t_encode m) s (t_inBuf m) (t_outBuf m) (t_ctx m)
            (errors m) (random_drawn m) (gcry_calls m).
Definition set_inBuf (b : xmlSecBuffer) (m : Machine) : Machine :=
  mkMachine (t_id m) (t_encode m) (t_status m) b (t_outBuf m) (t_ctx m)
            (errors m) (random_drawn m) (gcry_calls m).
Definition set_outBuf (b : xmlSecBuffer) (m : Machine) : Machine :=
  mkMachine (t_id m) (t_encode m) (t_status m) (t_inBuf m) b (t_ctx m)
            (errors m) (random_drawn m) (gcry_calls m).
Definition set_ctx (c : xmlSecGnuTLSBlockCipherCtx) (m : Machine) : Machine :=
  mkMachine (t_id m) (t_encode m) (t_status m) (t_inBuf m) (t_outBuf m) c
            (errors m) (random_drawn m) (gcry_calls m).
Definition set_errors (e : list xmlSecErrorReport) (m : Machine) : Machine :=
  mkMachine (t_id m) (t_encode m) (t_status m) (t_inBuf m) (t_outBuf m) (t_ctx m)
            e (random_drawn m) (gcry_calls m).
Definition set_random_drawn (n : nat) (m : Machine) : Machine :=
  mkMachine (t_id m) (t_encode m) (t_status m) (t_inBuf m) (t_outBuf m) (t_ctx m)
            (errors m) n (gcry_calls m).
Definition set_gcry_calls (l : list gcry_call) (m : Machine) : Machine :=
  mkMachine (t_id m) (t_encode m) (t_status m) (t_inBuf m) (t_outBuf m) (t_ctx m)
            (errors m) (random_drawn m) l.

Definition set_cipherCtx (h : option gcry_cipher_handle) (c : xmlSecGnuTLSBlockCipherCtx)
  : xmlSecGnuTLSBlockCipherCtx :=
  mkCtx (cipher c) (mode c) h (keyId c) (keyInitialized c) (ctxInitialized c).
Definition set_keyInitialized (v : Z) (c : xmlSecGnuTLSBlockCipherCtx)
  : xmlSecGnuTLSBlockCipherCtx :=
  mkCtx (cipher c) (mode c) (cipherCtx c) (keyId c) v (ctxInitialized c).
Definition set_ctxInitialized (v : Z) (c : xmlSecGnuTLSBlockCipherCtx)
  : xmlSecGnuTLSBlockCipherCtx :=
  mkCtx (cipher c) (mode c) (cipherCtx c) (keyId c) (keyInitialized c) v.

(** The two buffer pointers [in = &(transform->inBuf)] and
    [out = &(transform->outBuf)]. *)
Inductive xmlSecBufferPtr : Type := in_ | out_.

Definition deref (p : xmlSecBufferPtr) (m : Machine) : xmlSecBuffer :=
  match p with in_ => t_inBuf m | out_ => t_outBuf m end.

Definition assign (p : xmlSecBufferPtr) (b : xmlSecBuffer) (m : Machine) : Machine :=
  match p with in_ => set_inBuf b m | out_ => set_outBuf b m end.

(** ** Computations

    A statement either falls through with a value or returns from the
    enclosing function. *)
Inductive outcome (A : Type) : Type :=
| Next (a : A)
| Return (r : Z).
Arguments Next {A} a.
Arguments Return {A} r.

Definition M (A : Type) : Type := Machine -> outcome A * Machine.

#[global] Instance M_ret : MRet M := fun A a m => (Next a, m).
#[global] Instance M_bind : MBind M := fun A B k c m =>
  match c m with
  | (Next a, m') => k a m'
  | (Return r, m') => (Return r, m')
  end.

(** [return(r);] *)
Definition creturn {A : Type} (r : Z) : M A := fun m => (Return r, m).

(** Calling a function: its return value is the value of the call. *)
Definition call (body : M Z) : M Z := fun m =>
  match body m with
  | (Next r, m') | (Return r, m') => (Next r, m')
  end.

(** Running a function from a state: return value and final state. *)
Definition run (body : M Z) (m : Machine) : Z * Machine :=
  match body m with
  | (Next r, m') | (Return r, m') => (r, m')
  end.

Definition skip : M unit := mret tt.
Definition get : M Machine := fun m => (Next m, m).
Definition modify (f : Machine -> Machine) : M unit := fun m => (Next tt, f m).

Definition xmlSecError (obj subj : option string) (reason : xmlSecErrorsReason)
    (msg : string) : M unit :=
  modify (fun m => set_errors (mkReport obj subj reason msg :: errors m) m).

(** Modelled from the spec: the assertion macro of errors.h is not part of the
    sources.  As its uses show, a failed [xmlSecAssert2(p, ret)] reports the
    assertion and returns [ret] from the enclosing function. *)
Definition xmlSecAssert2 (p : bool) (expr : string) (ret : Z) : M unit :=
  if p then skip
  else (xmlSecError None (Some expr) XMLSEC_ERRORS_R_ASSERTION XMLSEC_ERRORS_NO_MESSAGE;;
        creturn ret).

(** The name of a failed function as the subject of a report. *)
Definition fn (name : string) : option string := Some name.

Definition nonnull {A : Type} (p : option A) : bool :=
  match p with Some _ => true | None => false end.

(** C truth of an [int]. *)
Definition truth (x : Z) : bool := negb (x =? 0)%Z.

Section Transform.

Variable P : Provider.

(** ** The buffer interface, on buffer pointers *)

Definition xmlSecBufferGetSize (buf : xmlSecBufferPtr) : M nat :=
  fun m => (Next (buf_size (deref buf m)), m).

(** [xmlSecBufferGetData(buf) != NULL]: a buffer has storage once it has
    capacity. *)
Definition xmlSecBufferHasData (buf : xmlSecBufferPtr) : M bool :=
  fun m => (Next (bool_decide (0 < buf_capacity (deref buf m))), m).

Definition xmlSecBufferSetMaxSize (buf : xmlSecBufferPtr) (n : nat) : M Z :=
  fun m =>
    match buf_reserve (allocator P) n (deref buf m) with
    | Some b => (Next 0%Z, assign buf b m)
    | None =>
        (Next (-1)%Z,
         set_errors (mkReport None (fn "xmlSecBufferSetMaxSize")
                              XMLSEC_ERRORS_R_MALLOC_FAILED XMLSEC_ERRORS_NO_MESSAGE
                     :: errors m) m)
    end.

Definition xmlSecBufferSetSize (buf : xmlSecBufferPtr) (n : nat) : M Z :=
  fun m =>
    match buf_set_size (allocator P) n (deref buf m) with
    | Some b => (Next 0%Z, assign buf b m)
    | None =>
        (Next (-1)%Z,
         set_errors (mkReport None (fn "xmlSecBufferSetSize")
                              XMLSEC_ERRORS_R_MALLOC_FAILED XMLSEC_ERRORS_NO_MESSAGE
                     :: errors m) m)
    end.

Definition xmlSecBufferRemoveHead (buf : xmlSecBufferPtr) (n : nat) : M Z :=
  fun m => (Next 0%Z, assign buf (buf_remove_head n (deref buf m)) m).

(** [p[i] = b] and [p[i]] where [p = xmlSecBufferGetData(buf) + off]. *)
Definition store_byte (buf : xmlSecBufferPtr) (i : nat) (b : byte) : M unit :=
  modify (fun m =>
    let bf := deref buf m in assign buf (mkBuffer (<[i := b]> (buf_data bf)) (buf_size bf)) m).

Definition load_byte (buf : xmlSecBufferPtr) (i : nat) : M byte :=
  fun m => (Next (default x00 (buf_data (deref buf m) !! i)), m).

(** ** The provider interface, on the session of the context

    Modelled from the spec: the table of section 4.B gives, for each
    operation, when it fails.  A pointer argument is a buffer pointer and an
    offset into its storage. *)

(** [gcry_randomize(xmlSecBufferGetData(buf) + off, n, GCRY_STRONG_RANDOM)] *)
Definition gcry_randomize (buf : xmlSecBufferPtr) (off n : nat) : M unit :=
  modify (fun m =>
    let bytes := map (random_byte P) (seq (random_drawn m) n) in
    let bf := deref buf m in
    set_random_drawn (random_drawn m + n)
      (assign buf (mkBuffer (mem_write off bytes (buf_data bf)) (buf_size bf)) m)).

(** [gcry_cipher_open(cipher, mode, GCRY_CIPHER_SECURE)]: a fresh session
    with no key and a zero chaining value, or NULL. *)
Definition gcry_cipher_open (algo : gcry_cipher_algos) (md : gcry_cipher_modes)
  : option gcry_cipher_handle :=
  if cipher_available P algo
  then Some (mkHandle algo md [] (replicate (gcry_cipher_get_algo_blklen algo) x00))
  else None.

(** [gcry_cipher_setkey(ctx->cipherCtx, key, keylen)] with the key bytes
    already read. *)
Definition gcry_cipher_setkey (key : list byte) (keylen : nat) : M Z :=
  fun m =>
    match cipherCtx (t_ctx m) with
    | None => (Next GCRYERR_INV_ARG, m)
    | Some h =>
        if negb (bool_decide (keylen = gcry_cipher_get_algo_keylen (hd_algo h)))
        then (Next GCRYERR_INV_KEYLEN, m)
        else if key_refused P (hd_algo h) (take keylen key)
        then (Next GCRYERR_WEAK_KEY, m)
        else (Next GCRYERR_SUCCESS,
              set_ctx (set_cipherCtx
                         (Some (mkHandle (hd_algo h) (hd_mode h) (take keylen key) (hd_iv h)))
                         (t_ctx m)) m)
    end.

(** [gcry_cipher_setiv(ctx->cipherCtx, xmlSecBufferGetData(buf) + off, ivlen)] *)
Definition gcry_cipher_setiv (buf : xmlSecBufferPtr) (off ivlen : nat) : M Z :=
  fun m =>
    match cipherCtx (t_ctx m) with
    | None => (Next GCRYERR_INV_ARG, m)
    | Some h =>
        if negb (bool_decide (ivlen = gcry_cipher_get_algo_blklen (hd_algo h)))
        then (Next GCRYERR_INV_LENGTH, m)
        else (Next GCRYERR_SUCCESS,
              set_ctx (set_cipherCtx
                         (Some (mkHandle (hd_algo h) (hd_mode h) (hd_key h)
                                         (mem_read off ivlen (buf_data (deref buf m)))))
                         (t_ctx m)) m)
    end.

(** [gcry_cipher_encrypt] and [gcry_cipher_decrypt]
    [(ctx->cipherCtx, xmlSecBufferGetData(obuf) + off, outsize,
      xmlSecBufferGetData(ibuf), inlen)].  The call is recorded, then refused
    when [inlen] is not a multiple of the block length or exceeds [outsize];
    otherwise [inlen] bytes are processed in CBC mode and stored at the
    output pointer, and the chaining value of the session moves on. *)
Definition gcry_cipher_crypt (enc : bool) (obuf : xmlSecBufferPtr) (off outsize : nat)
    (ibuf : xmlSecBufferPtr) (inlen : nat) : M Z :=
  fun m =>
    let m := set_gcry_calls
               (mkCall enc off outsize inlen
                       (buf_capacity (deref obuf m)) (buf_capacity (deref ibuf m))
                :: gcry_calls m) m in
    match cipherCtx (t_ctx m) with
    | None => (Next GCRYERR_INV_ARG, m)
    | Some h =>
        let B := gcry_cipher_get_algo_blklen (hd_algo h) in
        if negb (bool_decide (0 < B /\ inlen mod B = 0))
        then (Next GCRYERR_INV_LENGTH, m)
        else if negb (bool_decide (inlen <= outsize))
        then (Next GCRYERR_TOO_SHORT, m)
        else
          let input := mem_read 0 inlen (buf_data (deref ibuf m)) in
          let '(output, iv') :=
            if enc
            then cbc_encrypt (blk_encrypt P (hd_algo h) (hd_key h)) B (inlen / B) (hd_iv h) input
            else cbc_decrypt (blk_decrypt P (hd_algo h) (hd_key h)) B (inlen / B) (hd_iv h) input in
          let ob := deref obuf m in
          (Next GCRYERR_SUCCESS,
           set_ctx (set_cipherCtx (Some (mkHandle (hd_algo h) (hd_mode h) (hd_key h) iv'))
                                  (t_ctx m))
             (assign obuf (mkBuffer (mem_write off output (buf_data ob)) (buf_size ob)) m))
    end.

Definition gcry_cipher_encrypt := gcry_cipher_crypt true.
Definition gcry_cipher_decrypt := gcry_cipher_crypt false.

Definition gcry_cipher_close : M unit :=
  modify (fun m => set_ctx (set_cipherCtx None (t_ctx m)) m).

(** ** Internal GnuTLS block cipher CTX: the three phases

    The assertions on [ctx], [in] and [out] being non-NULL always hold: the
    three point into the transform. *)

Definition get_ctx : M xmlSecGnuTLSBlockCipherCtx := fun m => (Next (t_ctx m), m).

Definition xmlSecGnuTLSBlockCipherCtxInit (encrypt : Z) (cipherName : option string)
    (transformCtx : option xmlSecTransformCtx) : M Z :=
  ctx ← get_ctx;
  xmlSecAssert2 (bool_decide (cipher ctx <> GCRY_CIPHER_NONE)) "ctx->cipher != 0" (-1);;
  xmlSecAssert2 (nonnull (cipherCtx ctx)) "ctx->cipherCtx != NULL" (-1);;
  xmlSecAssert2 (truth (keyInitialized ctx)) "ctx->keyInitialized != 0" (-1);;
  xmlSecAssert2 (ctxInitialized ctx =? 0)%Z "ctx->ctxInitialized == 0" (-1);;
  xmlSecAssert2 (nonnull transformCtx) "transformCtx != NULL" (-1);;
  (* iv len == block len *)
  let blockLen := gcry_cipher_get_algo_blklen (cipher ctx) in
  xmlSecAssert2 (bool_decide (0 < blockLen)) "blockLen > 0" (-1);;
  (if truth encrypt then
     (* allocate space for IV *)
     outSize ← xmlSecBufferGetSize out_;
     ret ← xmlSecBufferSetSize out_ (outSize + blockLen);
     (if (ret <? 0)%Z then
        xmlSecError cipherName (fn "xmlSecBufferSetSize")
                    XMLSEC_ERRORS_R_XMLSEC_FAILED "size=%d";;
        creturn (-1)
      else skip);;
     (* generate and use random iv *)
     gcry_randomize out_ outSize blockLen;;
     ret ← gcry_cipher_setiv out_ outSize blockLen;
     (if truth ret then
        xmlSecError cipherName (fn "gcry_cipher_setiv")
                    XMLSEC_ERRORS_R_CRYPTO_FAILED "ret=%d";;
        creturn (-1)
      else skip)
   else
     (* if we don't have enough data, exit and hope that
        we'll have iv next time *)
     inSize ← xmlSecBufferGetSize in_;
     (if bool_decide (inSize < blockLen) then creturn 0 else skip);;
     hasData ← xmlSecBufferHasData in_;
     xmlSecAssert2 hasData "xmlSecBufferGetData(in) != NULL" (-1);;
     (* set iv *)
     ret ← gcry_cipher_setiv in_ 0 blockLen;
     (if truth ret then
        xmlSecError cipherName (fn "gcry_cipher_setiv")
                    XMLSEC_ERRORS_R_CRYPTO_FAILED "ret=%d";;
        creturn (-1)
      else skip);;
     (* and remove from input *)
     ret ← xmlSecBufferRemoveHead in_ blockLen;
     (if (ret <? 0)%Z then
        xmlSecError cipherName (fn "xmlSecBufferRemoveHead")
                    XMLSEC_ERRORS_R_XMLSEC_FAILED "size=%d";;
        creturn (-1)
      else skip));;
  modify (fun m => set_ctx (set_ctxInitialized 0 (t_ctx m)) m);;   (* ctx->ctxInitialized = 0; *)
  creturn 0.

Definition xmlSecGnuTLSBlockCipherCtxUpdate (encrypt : Z) (cipherName : option string)
    (transformCtx : option xmlSecTransformCtx) : M Z :=
  ctx ← get_ctx;
  xmlSecAssert2 (bool_decide (cipher ctx <> GCRY_CIPHER_NONE)) "ctx->cipher != 0" (-1);;
  xmlSecAssert2 (nonnull (cipherCtx ctx)) "ctx->cipherCtx != NULL" (-1);;
  xmlSecAssert2 (truth (ctxInitialized ctx)) "ctx->ctxInitialized != 0" (-1);;
  xmlSecAssert2 (nonnull transformCtx) "transformCtx != NULL" (-1);;
  let blockLen := gcry_cipher_get_algo_blklen (cipher ctx) in
  xmlSecAssert2 (bool_decide (0 < blockLen)) "blockLen > 0" (-1);;
  inSize ← xmlSecBufferGetSize in_;
  outSize ← xmlSecBufferGetSize out_;
  (if bool_decide (inSize < blockLen) then creturn 0 else skip);;
  let inBlocks :=
    if truth encrypt then inSize / blockLen
    else
      (* we want to have the last block in the input buffer
         for padding check *)
      (inSize - 1) / blockLen in
  let inSize := inBlocks * blockLen in
  (* we write out the input size plus may be one block *)
  ret ← xmlSecBufferSetMaxSize out_ (outSize + inSize + blockLen);
  (if (ret <? 0)%Z then
     xmlSecError cipherName (fn "xmlSecBufferSetMaxSize")
                 XMLSEC_ERRORS_R_XMLSEC_FAILED "size=%d";;
     creturn (-1)
   else skip);;
  (if truth encrypt then
     ret ← gcry_cipher_encrypt out_ outSize (inSize + blockLen) in_ inSize;
     (if truth ret then
        xmlSecError cipherName (fn "gcry_cipher_encrypt")
                    XMLSEC_ERRORS_R_CRYPTO_FAILED "ret=%d";;
        creturn (-1)
      else skip)
   else
     ret ← gcry_cipher_decrypt out_ outSize (inSize + blockLen) in_ inSize;
     (if truth ret then
        xmlSecError cipherName (fn "gcry_cipher_decrypt")
                    XMLSEC_ERRORS_R_CRYPTO_FAILED "ret=%d";;
        creturn (-1)
      else skip));;
  (* set correct output buffer size *)
  ret ← xmlSecBufferSetSize out_ (outSize + inSize);
  (if (ret <? 0)%Z then
     xmlSecError cipherName (fn "xmlSecBufferSetSize")
                 XMLSEC_ERRORS_R_XMLSEC_FAILED "size=%d";;
     creturn (-1)
   else skip);;
  (* remove the processed block from input *)
  ret ← xmlSecBufferRemoveHead in_ inSize;
  (if (ret <? 0)%Z then
     xmlSecError cipherName (fn "xmlSecBufferRemoveHead")
                 XMLSEC_ERRORS_R_XMLSEC_FAILED "size=%d";;
     creturn (-1)
   else skip);;
  creturn 0.

(** The closing statements of [xmlSecGnuTLSBlockCipherCtxFinal]: set the
    output size, remove the processed block from the input.  The source has
    this text twice in a row; the second copy differs in the message format of
    its first report only, which is the parameter [fmt]. *)
Definition Final_set_size_remove_head (cipherName : option string) (fmt : string)
    (outSize outLen inSize : nat) : M unit :=
  (* set correct output buffer size *)
  ret ← xmlSecBufferSetSize out_ (outSize + outLen);
  (if (ret <? 0)%Z then
     xmlSecError cipherName (fn "xmlSecBufferSetSize")
                 XMLSEC_ERRORS_R_XMLSEC_FAILED fmt;;
     creturn (-1)
   else skip);;
  (* remove the processed block from input *)
  ret ← xmlSecBufferRemoveHead in_ inSize;
  (if (ret <? 0)%Z then
     xmlSecError cipherName (fn "xmlSecBufferRemoveHead")
                 XMLSEC_ERRORS_R_XMLSEC_FAILED "size=%d";;
     creturn (-1)
   else skip).

Definition xmlSecGnuTLSBlockCipherCtxFinal (encrypt : Z) (cipherName : option string)
    (transformCtx : option xmlSecTransformCtx) : M Z :=
  ctx ← get_ctx;
  xmlSecAssert2 (bool_decide (cipher ctx <> GCRY_CIPHER_NONE)) "ctx->cipher != 0" (-1);;
  xmlSecAssert2 (nonnull (cipherCtx ctx)) "ctx->cipherCtx != NULL" (-1);;
  xmlSecAssert2 (truth (ctxInitialized ctx)) "ctx->ctxInitialized != 0" (-1);;
  xmlSecAssert2 (nonnull transformCtx) "transformCtx != NULL" (-1);;
  let blockLen := gcry_cipher_get_algo_blklen (cipher ctx) in
  xmlSecAssert2 (bool_decide (0 < blockLen)) "blockLen > 0" (-1);;
  inSize ← xmlSecBufferGetSize in_;
  outSize ← xmlSecBufferGetSize out_;
  inSize ←
    (if truth encrypt then
       xmlSecAssert2 (bool_decide (inSize < blockLen)) "inSize < (size_t)blockLen" (-1);;
       (* create padding *)
       ret ← xmlSecBufferSetMaxSize in_ blockLen;
       (if (ret <? 0)%Z then
          xmlSecError cipherName (fn "xmlSecBufferSetMaxSize")
                      XMLSEC_ERRORS_R_XMLSEC_FAILED "size=%d";;
          creturn (-1)
        else skip);;
       (* create random padding *)
       (if bool_decide (inSize + 1 < blockLen) then
          gcry_randomize in_ inSize (blockLen - inSize - 1)
        else skip);;
       store_byte in_ (blockLen - 1) (byte_of_nat (blockLen - inSize));;
       mret blockLen                                  (* inSize = blockLen; *)
     else
       (if negb (bool_decide (inSize = blockLen)) then
          xmlSecError cipherName None XMLSEC_ERRORS_R_INVALID_DATA "data=%d;block=%d";;
          creturn (-1)
        else skip);;
       mret inSize);
  (* process last block *)
  ret ← xmlSecBufferSetMaxSize out_ (outSize + 2 * blockLen);
  (if (ret <? 0)%Z then
     xmlSecError cipherName (fn "xmlSecBufferSetMaxSize")
                 XMLSEC_ERRORS_R_XMLSEC_FAILED "size=%d";;
     creturn (-1)
   else skip);;
  (if truth encrypt then
     ret ← gcry_cipher_encrypt out_ outSize (inSize + blockLen) in_ inSize;
     (if truth ret then
        xmlSecError cipherName (fn "gcry_cipher_encrypt")
                    XMLSEC_ERRORS_R_CRYPTO_FAILED "ret=%d";;
        creturn (-1)
      else skip)
   else
     ret ← gcry_cipher_decrypt out_ outSize (inSize + blockLen) in_ inSize;
     (if truth ret then
        xmlSecError cipherName (fn "gcry_cipher_decrypt")
                    XMLSEC_ERRORS_R_CRYPTO_FAILED "ret=%d";;
        creturn (-1)
      else skip));;
  outLen ←
    (if (encrypt =? 0)%Z then
       (* check padding *)
       pad ← load_byte out_ (outSize + (blockLen - 1));
       (if bool_decide (inSize < Byte.to_nat pad) then
          xmlSecError cipherName None XMLSEC_ERRORS_R_INVALID_DATA "padding=%d;buffer=%d";;
          creturn (-1)
        else skip);;
       mret (inSize - Byte.to_nat pad)
     else mret inSize);
  Final_set_size_remove_head cipherName "size=%d" outSize outLen inSize;;
  Final_set_size_remove_head cipherName "%d" outSize outLen inSize;;
  creturn 0.

(** ** Block cipher transforms: the klass methods *)

Definition xmlSecGnuTLSBlockCipherCheckId (id : xmlSecTransformId) : bool :=
  match id with
  | xmlSecGnuTLSTransformDes3CbcId
  | xmlSecGnuTLSTransformAes128CbcId
  | xmlSecGnuTLSTransformAes192CbcId
  | xmlSecGnuTLSTransformAes256CbcId => true
  | xmlSecTransformIdOther => false
  end.

(** [xmlSecTransformCheckSize(transform, xmlSecGnuTLSBlockCipherSize)]: the
    four klasses of this file declare that very object size. *)
Definition xmlSecTransformCheckSize (id : xmlSecTransformId) : bool :=
  xmlSecGnuTLSBlockCipherCheckId id.

(** Modelled from the spec: the name constants are not part of the sources;
    these are the names of the table in section 4.D. *)
Definition xmlSecTransformGetName (id : xmlSecTransformId) : option string :=
  match id with
  | xmlSecGnuTLSTransformDes3CbcId => Some "3DES-CBC"%string
  | xmlSecGnuTLSTransformAes128CbcId => Some "AES-128-CBC"%string
  | xmlSecGnuTLSTransformAes192CbcId => Some "AES-192-CBC"%string
  | xmlSecGnuTLSTransformAes256CbcId => Some "AES-256-CBC"%string
  | xmlSecTransformIdOther => None
  end.

Definition select_cipher (c : gcry_cipher_algos) (md : gcry_cipher_modes)
    (k : xmlSecKeyDataId) : M unit :=
  modify (fun m =>
    let ctx := t_ctx m in
    set_ctx (mkCtx c md (cipherCtx ctx) (Some k) (keyInitialized ctx) (ctxInitialized ctx)) m).

Definition xmlSecGnuTLSBlockCipherInitialize : M Z :=
  t ← get;
  xmlSecAssert2 (xmlSecGnuTLSBlockCipherCheckId (t_id t))
                "xmlSecGnuTLSBlockCipherCheckId(transform)" (-1);;
  xmlSecAssert2 (xmlSecTransformCheckSize (t_id t))
                "xmlSecTransformCheckSize(transform, xmlSecGnuTLSBlockCipherSize)" (-1);;
  modify (set_ctx zero_ctx);;
  match t_id t with
  | xmlSecGnuTLSTransformDes3CbcId =>
      select_cipher GCRY_CIPHER_3DES GCRY_CIPHER_MODE_CBC xmlSecGnuTLSKeyDataDesId
  | xmlSecGnuTLSTransformAes128CbcId =>
      select_cipher GCRY_CIPHER_AES128 GCRY_CIPHER_MODE_CBC xmlSecGnuTLSKeyDataAesId
  | xmlSecGnuTLSTransformAes192CbcId =>
      select_cipher GCRY_CIPHER_AES192 GCRY_CIPHER_MODE_CBC xmlSecGnuTLSKeyDataAesId
  | xmlSecGnuTLSTransformAes256CbcId =>
      select_cipher GCRY_CIPHER_AES256 GCRY_CIPHER_MODE_CBC xmlSecGnuTLSKeyDataAesId
  | xmlSecTransformIdOther =>
      xmlSecError (xmlSecTransformGetName (t_id t)) None
                  XMLSEC_ERRORS_R_INVALID_TRANSFORM XMLSEC_ERRORS_NO_MESSAGE;;
      creturn (-1)
  end;;
  ctx ← get_ctx;
  (* we are paranoid *)
  modify (fun m => set_ctx (set_cipherCtx (gcry_cipher_open (cipher ctx) (mode ctx)) (t_ctx m)) m);;
  ctx ← get_ctx;
  (if negb (nonnull (cipherCtx ctx)) then
     xmlSecError (xmlSecTransformGetName (t_id t)) (fn "gcry_cipher_open")
                 XMLSEC_ERRORS_R_CRYPTO_FAILED XMLSEC_ERRORS_NO_MESSAGE;;
     creturn (-1)
   else skip);;
  creturn 0.

(** A [void] function: its [return;] carries the value 0, which [run] drops
    for the caller. *)
Definition xmlSecGnuTLSBlockCipherFinalize : M Z :=
  t ← get;
  xmlSecAssert2 (xmlSecGnuTLSBlockCipherCheckId (t_id t))
                "xmlSecGnuTLSBlockCipherCheckId(transform)" 0;;
  xmlSecAssert2 (xmlSecTransformCheckSize (t_id t))
                "xmlSecTransformCheckSize(transform, xmlSecGnuTLSBlockCipherSize)" 0;;
  ctx ← get_ctx;
  (if nonnull (cipherCtx ctx) then gcry_cipher_close else skip);;
  modify (set_ctx zero_ctx);;
  creturn 0.

(** [xmlSecGnuTLSBlockCipherSetKeyReq(transform, keyReq)] writes the request
    through the pointer [keyReq].  The body yields the request as its
    assignments leave it; the function returns its code together with what
    [keyReq] points to afterwards, which is the request as it was when an
    assertion returned early. *)
Definition SetKeyReq_body (keyReq : option xmlSecKeyReq) : M xmlSecKeyReq :=
  t ← get;
  xmlSecAssert2 (xmlSecGnuTLSBlockCipherCheckId (t_id t))
                "xmlSecGnuTLSBlockCipherCheckId(transform)" (-1);;
  xmlSecAssert2 (xmlSecTransformCheckSize (t_id t))
                "xmlSecTransformCheckSize(transform, xmlSecGnuTLSBlockCipherSize)" (-1);;
  match keyReq with
  | None =>
      xmlSecAssert2 false "keyReq != NULL" (-1);; creturn (-1)
  | Some req =>
      ctx ← get_ctx;
      xmlSecAssert2 (nonnull (keyId ctx)) "ctx->keyId != NULL" (-1);;
      let req := mkKeyReq (keyId ctx) (keyReq_keyType req) (keyReq_keyUsage req) in
      let req := mkKeyReq (keyReq_keyId req) xmlSecKeyDataTypeSymmetric (keyReq_keyUsage req) in
      let req :=
        if truth (t_encode t)
        then mkKeyReq (keyReq_keyId req) (keyReq_keyType req) xmlSecKeyUsageEncrypt
        else mkKeyReq (keyReq_keyId req) (keyReq_keyType req) xmlSecKeyUsageDecrypt in
      mret req
  end.

Definition xmlSecGnuTLSBlockCipherSetKeyReq (keyReq : option xmlSecKeyReq) (m : Machine)
  : Z * option xmlSecKeyReq * Machine :=
  match SetKeyReq_body keyReq m with
  | (Next req, m') => (0%Z, Some req, m')            (* return(0); *)
  | (Return r, m') => (r, keyReq, m')
  end.

Definition xmlSecKeyCheckId (key : xmlSecKey) (id : option xmlSecKeyDataId) : bool :=
  bool_decide (Some (key_id key) = id).

Definition xmlSecGnuTLSBlockCipherSetKey (key : option xmlSecKey) : M Z :=
  t ← get;
  xmlSecAssert2 (xmlSecGnuTLSBlockCipherCheckId (t_id t))
                "xmlSecGnuTLSBlockCipherCheckId(transform)" (-1);;
  xmlSecAssert2 (xmlSecTransformCheckSize (t_id t))
                "xmlSecTransformCheckSize(transform, xmlSecGnuTLSBlockCipherSize)" (-1);;
  match key with
  | None =>
      xmlSecAssert2 false "key != NULL" (-1);; creturn (-1)
  | Some key =>
      ctx ← get_ctx;
      xmlSecAssert2 (nonnull (cipherCtx ctx)) "ctx->cipherCtx != NULL" (-1);;
      xmlSecAssert2 (bool_decide (cipher ctx <> GCRY_CIPHER_NONE)) "ctx->cipher != 0" (-1);;
      xmlSecAssert2 (keyInitialized ctx =? 0)%Z "ctx->keyInitialized == 0" (-1);;
      xmlSecAssert2 (nonnull (keyId ctx)) "ctx->keyId != NULL" (-1);;
      xmlSecAssert2 (xmlSecKeyCheckId key (keyId ctx)) "xmlSecKeyCheckId(key, ctx->keyId)" (-1);;
      let keySize := gcry_cipher_get_algo_keylen (cipher ctx) in
      xmlSecAssert2 (bool_decide (0 < keySize)) "keySize > 0" (-1);;
      match key_value key with
      | None =>
          xmlSecAssert2 false "buffer != NULL" (-1);; creturn (-1)
      | Some buffer =>
          (if bool_decide (buf_size buffer < keySize) then
             xmlSecError (xmlSecTransformGetName (t_id t)) None
                         XMLSEC_ERRORS_R_INVALID_KEY_SIZE "keySize=%d;expected=%d";;
             creturn (-1)
           else skip);;
          xmlSecAssert2 (bool_decide (0 < buf_capacity buffer))
                        "xmlSecBufferGetData(buffer) != NULL" (-1);;
          ret ← gcry_cipher_setkey (buf_data buffer) keySize;
          (if truth ret then
             xmlSecError (xmlSecTransformGetName (t_id t)) (fn "gcry_cipher_setkey")
                         XMLSEC_ERRORS_R_CRYPTO_FAILED "ret=%d";;
             creturn (-1)
           else skip);;
          modify (fun m => set_ctx (set_keyInitialized 1 (t_ctx m)) m);;
          creturn 0
      end
  end.

Definition get_status : M xmlSecTransformStatus := fun m => (Next (t_status m), m).

Definition xmlSecGnuTLSBlockCipherExecute (last : Z)
    (transformCtx : option xmlSecTransformCtx) : M Z :=
  t ← get;
  xmlSecAssert2 (xmlSecGnuTLSBlockCipherCheckId (t_id t))
                "xmlSecGnuTLSBlockCipherCheckId(transform)" (-1);;
  xmlSecAssert2 (xmlSecTransformCheckSize (t_id t))
                "xmlSecTransformCheckSize(transform, xmlSecGnuTLSBlockCipherSize)" (-1);;
  xmlSecAssert2 (nonnull transformCtx) "transformCtx != NULL" (-1);;
  let name := xmlSecTransformGetName (t_id t) in
  status ← get_status;
  (if bool_decide (status = xmlSecTransformStatusNone) then
     modify (set_status xmlSecTransformStatusWorking)
   else skip);;
  status ← get_status;
  (if bool_decide (status = xmlSecTransformStatusWorking) then
     ctx ← get_ctx;
     (if (ctxInitialized ctx =? 0)%Z then
        ret ← call (xmlSecGnuTLSBlockCipherCtxInit (t_encode t) name transformCtx);
        (if (ret <? 0)%Z then
           xmlSecError name (fn "xmlSecGnuTLSBlockCipherCtxInit")
                       XMLSEC_ERRORS_R_XMLSEC_FAILED XMLSEC_ERRORS_NO_MESSAGE;;
           creturn (-1)
         else skip)
      else skip);;
     ctx ← get_ctx;
     (if (ctxInitialized ctx =? 0)%Z && truth last then
        xmlSecError name None XMLSEC_ERRORS_R_INVALID_DATA
                    "not enough data to initialize transform";;
        creturn (-1)
      else skip);;
     ctx ← get_ctx;
     (if truth (ctxInitialized ctx) then
        ret ← call (xmlSecGnuTLSBlockCipherCtxUpdate (t_encode t) name transformCtx);
        (if (ret <? 0)%Z then
           xmlSecError name (fn "xmlSecGnuTLSBlockCipherCtxUpdate")
                       XMLSEC_ERRORS_R_XMLSEC_FAILED XMLSEC_ERRORS_NO_MESSAGE;;
           creturn (-1)
         else skip)
      else skip);;
     (if truth last then
        ret ← call (xmlSecGnuTLSBlockCipherCtxFinal (t_encode t) name transformCtx);
        (if (ret <? 0)%Z then
           xmlSecError name (fn "xmlSecGnuTLSBlockCipherCtxFinal")
                       XMLSEC_ERRORS_R_XMLSEC_FAILED XMLSEC_ERRORS_NO_MESSAGE;;
           creturn (-1)
         else skip);;
        modify (set_status xmlSecTransformStatusFinished)
      else skip)
   else if bool_decide (status = xmlSecTransformStatusFinished) then
     (* the only way we can get here is if there is no input *)
     inSize ← xmlSecBufferGetSize in_;
     xmlSecAssert2 (bool_decide (inSize = 0)) "xmlSecBufferGetSize(in) == 0" (-1)
   else if bool_decide (status = xmlSecTransformStatusNone) then
     (* the only way we can get here is if there is no enough data in the input *)
     xmlSecAssert2 (last =? 0)%Z "last == 0" (-1)
   else
     xmlSecError name None XMLSEC_ERRORS_R_INVALID_STATUS "status=%d";;
     creturn (-1));;
  creturn 0.

(** ** The driver

    Modelled from the spec: the transform-chain driver that creates the
    transform and calls its methods is not part of the sources.  Section 6
    ("Driver contract") has it call Initialize once, fix the direction before
    any Execute, supply the key, then repeatedly append bytes to the input
    buffer and call Execute, draining the output buffer between calls, with
    [last] set on the final chunk; and call Finalize. *)

(** A transform as created: zeroed, with the klass and the direction set. *)
Definition new_transform (id : xmlSecTransformId) (encode : Z) : Machine :=
  mkMachine id encode xmlSecTransformStatusNone empty_buffer empty_buffer zero_ctx [] 0 [].

(** Modelled from the spec: [append(bytes)], "grow as needed". *)
Definition buf_append (al : Allocator) (bytes : list byte) (b : xmlSecBuffer)
  : option xmlSecBuffer :=
  match buf_set_size al (buf_size b + length bytes) b with
  | Some b' => Some (mkBuffer (mem_write (buf_size b) bytes (buf_data b')) (buf_size b'))
  | None => None
  end.

Inductive driver_step : Type :=
| DriverInitialize
| DriverSetKey (key : option xmlSecKey)
| DriverAppend (bytes : list byte)
| DriverExecute (last : Z) (transformCtx : option xmlSecTransformCtx)
| DriverDrain (n : nat)
| DriverFinalize.

Definition driver_run (m : Machine) (s : driver_step) : Machine :=
  match s with
  | DriverInitialize => snd (run xmlSecGnuTLSBlockCipherInitialize m)
  | DriverSetKey key => snd (run (xmlSecGnuTLSBlockCipherSetKey key) m)
  | DriverAppend bytes =>
      match buf_append (allocator P) bytes (t_inBuf m) with
      | Some b => set_inBuf b m
      | None => m
      end
  | DriverExecute last transformCtx =>
      snd (run (xmlSecGnuTLSBlockCipherExecute last transformCtx) m)
  | DriverDrain n => set_outBuf (buf_remove_head n (t_outBuf m)) m
  | DriverFinalize => snd (run xmlSecGnuTLSBlockCipherFinalize m)
  end.

(** The states a transform can be in: those the driver reaches from a new
    transform by any sequence of its steps. *)
Definition drive (id : xmlSecTransformId) (encode : Z) (steps : list driver_step) : Machine :=
  foldl driver_run (new_transform id encode) steps.

(** A whole stream through the pipeline: append a chunk, call Execute, and so
    on, with [last] set for the final chunk; the result is the output when
    every call succeeded. *)
Definition push_execute (bytes : list byte) (last : Z) (m : Machine) : option Machine :=
  match buf_append (allocator P) bytes (t_inBuf m) with
  | None => None
  | Some b =>
      let '(ret, m') := run (xmlSecGnuTLSBlockCipherExecute last (Some tt)) (set_inBuf b m) in
      if (ret <? 0)%Z then None else Some m'
  end.

Fixpoint feed (chunks : list (list byte)) (final : list byte) (m : Machine) : option Machine :=
  match chunks with
  | [] => push_execute final 1 m
  | c :: cs =>
      match push_execute c 0 m with
      | Some m' => feed cs final m'
      | None => None
      end
  end.

Definition transform_stream (id : xmlSecTransformId) (encode : Z) (key : xmlSecKey)
    (chunks : list (list byte)) (final : list byte) : option (list byte) :=
  let '(r1, m1) := run xmlSecGnuTLSBlockCipherInitialize (new_transform id encode) in
  if (r1 <? 0)%Z then None
  else
    let '(r2, m2) := run (xmlSecGnuTLSBlockCipherSetKey (Some key)) m1 in
    if (r2 <? 0)%Z then None
    else
      match feed chunks final m2 with
      | Some m => Some (buf_bytes (t_outBuf m))
      | None => None
      end.

(** Encrypt a plaintext given in chunks, then decrypt the ciphertext. *)
Definition round_trip (id : xmlSecTransformId) (key : xmlSecKey)
    (chunks : list (list byte)) (final : list byte) : option (list byte) :=
  match transform_stream id 1 key chunks final with
  | Some ciphertext => transform_stream id 0 key [] ciphertext
  | None => None
  end.

(** The state before the one and only Execute call of a one-shot encryption:
    initialized, key set, the whole plaintext in the input buffer. *)
Definition encrypt_ready (id : xmlSecTransformId) (key : xmlSecKey) (plaintext : list byte)
  : Machine :=
  drive id 1 [DriverInitialize; DriverSetKey (Some key); DriverAppend plaintext].

End Transform.

(** The block length of a klass, and the ciphertext length the specification
    promises for a plaintext of [n] bytes: the IV and the padded blocks,
    [B + B * ceil((n + 1) / B)]. *)
Definition klass_block_len (id : xmlSecTransformId) : nat :=
  match id with
  | xmlSecGnuTLSTransformDes3CbcId => 8
  | xmlSecGnuTLSTransformAes128CbcId
  | xmlSecGnuTLSTransformAes192CbcId
  | xmlSecGnuTLSTransformAes256CbcId => 16
  | xmlSecTransformIdOther => 0
  end.

(** The cipher and the key data of a klass, as the branches of
    [xmlSecGnuTLSBlockCipherInitialize] assign them. *)
Definition klass_cipher (id : xmlSecTransformId) : gcry_cipher_algos :=
  match id with
  | xmlSecGnuTLSTransformDes3CbcId => GCRY_CIPHER_3DES
  | xmlSecGnuTLSTransformAes128CbcId => GCRY_CIPHER_AES128
  | xmlSecGnuTLSTransformAes192CbcId => GCRY_CIPHER_AES192
  | xmlSecGnuTLSTransformAes256CbcId => GCRY_CIPHER_AES256
  | xmlSecTransformIdOther => GCRY_CIPHER_NONE
  end.

Definition klass_keyId (id : xmlSecTransformId) : option xmlSecKeyDataId :=
  match id with
  | xmlSecGnuTLSTransformDes3CbcId => Some xmlSecGnuTLSKeyDataDesId
  | xmlSecGnuTLSTransformAes128CbcId
  | xmlSecGnuTLSTransformAes192CbcId
  | xmlSecGnuTLSTransformAes256CbcId => Some xmlSecGnuTLSKeyDataAesId
  | xmlSecTransformIdOther => None
  end.

Definition ceil_div (a b : nat) : nat := (a + (b - 1)) / b.

Definition ciphertext_len (B n : nat) : nat := B + B * ceil_div (n + 1) B.

(** ** A concrete provider

    Used to run the model on concrete inputs: the block primitive is XOR with
    the leading key bytes (its own inverse), every algorithm is available, no
    key is refused, the random bytes count upwards, and the allocator grants
    every request and doubles it. *)

Definition xor_allocator : Allocator := mkAllocator (fun _ => true) (fun n => n) x00.

Definition xor_provider : Provider :=
  mkProvider (fun _ key blk => xor_bytes blk key)
             (fun _ key blk => xor_bytes blk key)
             (fun _ => true)
             (fun _ _ => false)
             (fun i => byte_of_nat (i + 1))
             xor_allocator.

(** A provider whose allocator grants nothing. *)
Definition starved_provider : Provider :=
  mkProvider (fun _ key blk => xor_bytes blk key)
             (fun _ key blk => xor_bytes blk key)
             (fun _ => true)
             (fun _ _ => false)
             (fun i => byte_of_nat (i + 1))
             (mkAllocator (fun _ => false) (fun n => n) x00).

Definition buffer_of (bytes : list byte) : xmlSecBuffer := mkBuffer bytes (length bytes).

(** The all-zero AES-128 key of scenario S1. *)
Definition aes128_zero_key : xmlSecKey :=
  mkKey xmlSecGnuTLSKeyDataAesId (Some (buffer_of (replicate 16 x00))).

(** An AES-128 transform with session and key in place, in the given
    direction, with the given status, framing flag and input. *)
Definition aes128_machine (encode : Z) (status : xmlSecTransformStatus) (initialized : Z)
    (input : list byte) : Machine :=
  mkMachine xmlSecGnuTLSTransformAes128CbcId encode status
            (buffer_of input) empty_buffer
            (mkCtx GCRY_CIPHER_AES128 GCRY_CIPHER_MODE_CBC
                   (Some (mkHandle GCRY_CIPHER_AES128 GCRY_CIPHER_MODE_CBC
                                   (replicate 16 x00) (replicate 16 x00)))
                   (Some xmlSecGnuTLSKeyDataAesId) 1 initialized)
            [] 0 [].

(** The two reports Execute files when the framing cannot be set up. *)
Definition not_enough_data_report (id : xmlSecTransformId) : xmlSecErrorReport :=
  mkReport (xmlSecTransformGetName id) None XMLSEC_ERRORS_R_INVALID_DATA
           "not enough data to initialize transform".

Definition Init_failed_report (id : xmlSecTransformId) : xmlSecErrorReport :=
  mkReport (xmlSecTransformGetName id) (fn "xmlSecGnuTLSBlockCipherCtxInit")
           XMLSEC_ERRORS_R_XMLSEC_FAILED XMLSEC_ERRORS_NO_MESSAGE.

(** The provider calls made between two states, latest first. *)
Definition new_calls_of (before after : list gcry_call) : list gcry_call :=
  take (length after - length before) after.

Definition new_calls (m m' : Machine) : list gcry_call :=
  new_calls_of (gcry_calls m) (gcry_calls m').

(** The byte at the end of the block stored behind [outSize] bytes of output:
    the padding length Final reads in decrypt direction. *)
Definition padding_byte (outSize B : nat) (m' : Machine) : nat :=
  Byte.to_nat (default x00 (buf_data (t_outBuf m') !! (outSize + (B - 1)))).

(** A transform on which the framing flag has never been set: the flag is
    clear, the status is None or Working, and the provider has not been asked
    to encrypt or decrypt anything. *)
Definition never_framed (m : Machine) : Prop :=
  ctxInitialized (t_ctx m) = 0%Z
  /\ (t_status m = xmlSecTransformStatusNone \/ t_status m = xmlSecTransformStatusWorking)
  /\ gcry_calls m = [].

(** The state with the framing flag set, as Update and Final assert it to be
    on entry. *)
Definition mark_initialized (m : Machine) : Machine :=
  set_ctx (set_ctxInitialized 1 (t_ctx m)) m.

(** A marker the proofs leave on a reservation whose consequences have been
    recorded. *)
Definition reserved {A : Prop} (H : A) : Prop := True.

(** ** Notions the further properties are stated with *)

(** The report of a failed assertion. *)
Definition assertion_report (expr : string) : xmlSecErrorReport :=
  mkReport None (Some expr) XMLSEC_ERRORS_R_ASSERTION XMLSEC_ERRORS_NO_MESSAGE.

(** The conditions under which [xmlSecGnuTLSBlockCipherSetKey] loads a key:
    those of its assertions and checks, and those under which the provider
    takes the key. *)
Definition key_accepted (P : Provider) (m : Machine) (key : option xmlSecKey) : Prop :=
  let ctx := t_ctx m in
  let keySize := gcry_cipher_get_algo_keylen (cipher ctx) in
  exists k h buffer,
    key = Some k /\ cipherCtx ctx = Some h /\ key_value k = Some buffer
    /\ xmlSecGnuTLSBlockCipherCheckId (t_id m) = true
    /\ cipher ctx <> GCRY_CIPHER_NONE
    /\ keyInitialized ctx = 0%Z
    /\ keyId ctx = Some (key_id k)
    /\ keySize <= buf_size buffer
    /\ 0 < buf_capacity buffer
    /\ keySize = gcry_cipher_get_algo_keylen (hd_algo h)
    /\ key_refused P (hd_algo h) (take keySize (buf_data buffer)) = false.

(** What every phase keeps of a session: its presence, algorithm, mode and
    key.  Only the chaining value moves. *)
Definition session_kept (before after : option gcry_cipher_handle) : Prop :=
  match before, after with
  | Some h, Some h' =>
      hd_algo h' = hd_algo h /\ hd_mode h' = hd_mode h /\ hd_key h' = hd_key h
  | None, None => True
  | _, _ => False
  end.

(** What the proofs about bytes ask of the provider's block primitive under
    a key: blocks go to blocks of the same length, and decryption undoes
    encryption. *)
Definition block_shape (P : Provider) (algo : gcry_cipher_algos) (key : list byte) : Prop :=
  forall blk,
    length blk = gcry_cipher_get_algo_blklen algo ->
    length (blk_encrypt P algo key blk) = gcry_cipher_get_algo_blklen algo
    /\ length (blk_decrypt P algo key blk) = gcry_cipher_get_algo_blklen algo.

Definition block_inverse (P : Provider) (algo : gcry_cipher_algos) (key : list byte) : Prop :=
  forall blk,
    length blk = gcry_cipher_get_algo_blklen algo ->
    blk_decrypt P algo key (blk_encrypt P algo key blk) = blk.

(** The provider's CBC pass over [n] blocks in the direction [enc], under the
    key and chaining value of a session. *)
Definition session_cbc (P : Provider) (enc : bool) (h : gcry_cipher_handle) (n : nat)
    (data : list byte) : list byte * list byte :=
  let B := gcry_cipher_get_algo_blklen (hd_algo h) in
  if enc
  then cbc_encrypt (blk_encrypt P (hd_algo h) (hd_key h)) B n (hd_iv h) data
  else cbc_decrypt (blk_decrypt P (hd_algo h) (hd_key h)) B n (hd_iv h) data.

(** A session as Initialize, SetKey and the phases leave it: opened for the
    cipher of the context, with a chaining value of one block. *)
Definition session_of (ctx : xmlSecGnuTLSBlockCipherCtx) (h : gcry_cipher_handle) : Prop :=
  cipherCtx ctx = Some h /\ hd_algo h = cipher ctx
  /\ length (hd_iv h) = gcry_cipher_get_algo_blklen (cipher ctx).

(** The block [xmlSecGnuTLSBlockCipherCtxFinal] makes of the last bytes of
    the plaintext: the input that is left, random bytes, and in the last
    place the number of bytes added. *)
Definition padded_block (P : Provider) (m : Machine) : list byte :=
  let B := gcry_cipher_get_algo_blklen (cipher (t_ctx m)) in
  let n := buf_size (t_inBuf m) in
  buf_bytes (t_inBuf m)
  ++ map (random_byte P) (seq (random_drawn m) (B - n - 1))
  ++ [byte_of_nat (B - n)].

(** A transform that Initialize and SetKey have set up, with its session:
    cipher, key and session in place, the framing flag clear, and buffers
    whose size is within their capacity. *)
Definition ready (m : Machine) (h : gcry_cipher_handle) : Prop :=
  session_of (t_ctx m) h
  /\ cipher (t_ctx m) <> GCRY_CIPHER_NONE
  /\ keyInitialized (t_ctx m) <> 0%Z /\ ctxInitialized (t_ctx m) = 0%Z
  /\ buf_wf (t_inBuf m) /\ buf_wf (t_outBuf m).

(** The three phases in the order of a final Execute call, with the framing
    flag set by hand once Init has returned 0, as Update and Final assert it
    to be.  The code itself never sets the flag. *)
Definition framed_pipeline (P : Provider) (encrypt : Z) (m : Machine) : option Machine :=
  let '(r1, m1) := run (xmlSecGnuTLSBlockCipherCtxInit P encrypt None (Some tt)) m in
  if (r1 <? 0)%Z then None
  else
    let '(r2, m2) :=
      run (xmlSecGnuTLSBlockCipherCtxUpdate P encrypt None (Some tt)) (mark_initialized m1) in
    if (r2 <? 0)%Z then None
    else
      let '(r3, m3) := run (xmlSecGnuTLSBlockCipherCtxFinal P encrypt None (Some tt)) m2 in
      if (r3 <? 0)%Z then None else Some m3.

(** The session of [aes128_machine]. *)
Definition aes128_session : gcry_cipher_handle :=
  mkHandle GCRY_CIPHER_AES128 GCRY_CIPHER_MODE_CBC (replicate 16 x00) (replicate 16 x00).

(** The ciphertext the framed pipeline makes of twenty bytes [x41] under the
    XOR provider and the all-zero key. *)
Definition framed_example_ciphertext : list byte :=
  Eval vm_compute in
    match framed_pipeline xor_provider 1
            (aes128_machine 1 xmlSecTransformStatusWorking 0 (replicate 20 x41)) with
    | Some me' => buf_bytes (t_outBuf me')
    | None => []
    end.

(** * Properties *)

(** ** The buffer operations *)

Lemma buf_reserve_capacity al n b b' :
  buf_reserve al n b = Some b' -> n <= length (buf_data b').
Proof.
  unfold buf_reserve. case_decide as Hn.
  - intros [= <-]. exact Hn.
  - destruct (alloc_ok al _); [|discriminate].
    intros [= <-]. simpl. rewrite length_app, length_replicate. lia.
Qed.

Lemma buf_reserve_size al n b b' :
  buf_reserve al n b = Some b' -> buf_size b' = buf_size b.
Proof.
  unfold buf_reserve. case_decide; [intros [= <-]; reflexivity|].
  destruct (alloc_ok al _); [|discriminate]. intros [= <-]. reflexivity.
Qed.

Lemma buf_reserve_grows al n b b' :
  buf_reserve al n b = Some b' -> length (buf_data b) <= length (buf_data b').
Proof.
  unfold buf_reserve. case_decide; [intros [= <-]; reflexivity|].
  destruct (alloc_ok al _); [|discriminate].
  intros [= <-]. simpl. rewrite length_app. lia.
Qed.

Lemma buf_reserve_fits al n b :
  n <= length (buf_data b) -> buf_reserve al n b = Some b.
Proof. intros Hn. unfold buf_reserve. case_decide; [reflexivity|lia]. Qed.

Lemma buf_set_size_size al n b b' :
  buf_set_size al n b = Some b' -> buf_size b' = n.
Proof.
  unfold buf_set_size. destruct (buf_reserve al n b); [|discriminate].
  intros [= <-]. reflexivity.
Qed.

Lemma buf_set_size_capacity al n b b' :
  buf_set_size al n b = Some b' -> length (buf_data b) <= length (buf_data b').
Proof.
  unfold buf_set_size. destruct (buf_reserve al n b) eqn:E; [|discriminate].
  intros [= <-]. simpl. eapply buf_reserve_grows, E.
Qed.

Lemma buf_set_size_same al b : buf_wf b -> buf_set_size al (buf_size b) b = Some b.
Proof.
  intros Hwf. unfold buf_set_size. rewrite buf_reserve_fits by exact Hwf.
  destruct b; reflexivity.
Qed.

Lemma buf_remove_head_size n b : buf_size (buf_remove_head n b) = buf_size b - n.
Proof. unfold buf_remove_head. simpl. lia. Qed.

Lemma buf_remove_head_capacity n b :
  buf_wf b -> length (buf_data (buf_remove_head n b)) = length (buf_data b).
Proof.
  unfold buf_wf, buf_remove_head. intros Hwf. simpl.
  rewrite length_app, length_take, !length_drop. lia.
Qed.

Lemma buf_remove_head_empty n b : buf_size b = 0 -> buf_remove_head n b = b.
Proof.
  intros Hz. unfold buf_remove_head. rewrite Hz.
  replace (n `min` 0) with 0 by lia. simpl. rewrite drop_0.
  destruct b; simpl in *; subst; reflexivity.
Qed.

Lemma buf_remove_head_bytes n b :
  buf_wf b -> buf_bytes (buf_remove_head n b) = drop n (buf_bytes b).
Proof.
  unfold buf_wf, buf_bytes, buf_remove_head. intros Hwf. simpl.
  destruct (decide (n <= buf_size b)) as [Hle|Hgt].
  - replace (n `min` buf_size b) with n by lia.
    rewrite take_app_le by (rewrite length_take, length_drop; lia).
    rewrite take_take. replace (_ `min` _) with (buf_size b - n) by lia.
    symmetry. apply skipn_firstn_comm.
  - replace (n `min` buf_size b) with (buf_size b) by lia.
    rewrite Nat.sub_diag. simpl.
    symmetry. apply drop_ge. rewrite length_take. lia.
Qed.

Lemma length_mem_write off bytes mem : length (mem_write off bytes mem) = length mem.
Proof.
  unfold mem_write. rewrite length_take, !length_app, length_take, length_drop. lia.
Qed.

Lemma buf_set_size_fits al n b :
  n <= length (buf_data b) -> buf_set_size al n b = Some (mkBuffer (buf_data b) n).
Proof. intros Hn. unfold buf_set_size. rewrite buf_reserve_fits by exact Hn. reflexivity. Qed.

#[local] Arguments mem_write : simpl never.
#[local] Arguments mem_read : simpl never.
#[local] Arguments cbc_encrypt : simpl never.
#[local] Arguments cbc_decrypt : simpl never.
#[local] Arguments buf_reserve : simpl never.
#[local] Arguments buf_set_size : simpl never.
#[local] Arguments buf_remove_head : simpl never.
#[local] Arguments Nat.div : simpl never.
#[local] Arguments Nat.modulo : simpl never.

(** ** Symbolic execution of the computations *)

(** Turn the recorded outcomes of the tests of a path into propositions. *)
Ltac tests :=
  unfold truth in *;
  repeat match goal with
  | H : negb _ = true |- _ => apply negb_true_iff in H
  | H : negb _ = false |- _ => apply negb_false_iff in H
  | H : bool_decide _ = true |- _ => apply bool_decide_eq_true in H
  | H : bool_decide _ = false |- _ => apply bool_decide_eq_false in H
  | H : (_ =? _)%Z = true |- _ => apply Z.eqb_eq in H
  | H : (_ =? _)%Z = false |- _ => apply Z.eqb_neq in H
  | H : (_ <? _)%Z = true |- _ => apply Z.ltb_lt in H
  | H : (_ <? _)%Z = false |- _ => apply Z.ltb_ge in H
  | H : _ && _ = true |- _ => apply andb_true_iff in H as [? ?]
  end.

(** The size and capacity a granted [set_size] or [reserve] leaves. *)
Ltac sizes :=
  repeat match goal with
  | H : buf_set_size _ _ _ = Some _ |- _ =>
      pose proof (buf_set_size_size _ _ _ _ H);
      pose proof (buf_set_size_capacity _ _ _ _ H); clear H
  | H : buf_reserve _ _ _ = Some _ |- _ =>
      pose proof (buf_reserve_size _ _ _ _ H);
      pose proof (buf_reserve_capacity _ _ _ _ H);
      pose proof (buf_reserve_grows _ _ _ _ H); clear H
  end.


(** Statement by statement: the first statement of a sequence is run on the
    state, the rest of the body stays as it is. *)
Lemma bind_eq {A B : Type} (c : M A) (k : A -> M B) (m : Machine) :
  (c ≫= k) m =
  match c m with
  | (Next a, m1) => k a m1
  | (Return r, m1) => (Return r, m1)
  end.
Proof. reflexivity. Qed.

Lemma call_inv (body : M Z) (m : Machine) (o : outcome Z) (m1 : Machine) :
  call body m = (o, m1) -> exists r, o = Next r /\ run body m = (r, m1).
Proof.
  unfold call, run. destruct (body m) as [[a|r] m2]; intros [= <- <-]; eauto.
Qed.

Ltac head_of t :=
  lazymatch t with
  | ?f _ => head_of f
  | _ => t
  end.

Ltac test_atom b :=
  lazymatch b with
  | negb ?c => test_atom c
  | andb ?c _ => test_atom c
  | orb ?c _ => test_atom c
  | nonnull ?o => o
  | _ => b
  end.

(** Close a path whose recorded tests contradict each other on their face. *)
Ltac prune :=
  try solve [ match goal with
              | Hb : _ = true |- _ => cbn in Hb; discriminate Hb
              | Hb : _ = false |- _ => cbn in Hb; discriminate Hb
              | Hb : _ = Some _ |- _ => cbn in Hb; discriminate Hb
              | Hb : _ = None |- _ => cbn in Hb; discriminate Hb
              end ].

Ltac ev E :=
  cbv beta iota zeta in E;
  lazymatch type of E with
  | (_, _) = _ => cbn in E; injection E as <- <-
  | mbind ?k ?c ?m = _ =>
      rewrite (bind_eq c k m) in E;
      let E2 := fresh "E" in
      let o2 := fresh "o" in
      let m2 := fresh "m" in
      destruct (c m) as [o2 m2] eqn:E2;
      ev E2;
      ev E
  | (if ?b then _ else _) _ = _ => ev_test b E
  | (if ?b then _ else _) = _ => ev_test b E
  | (match ?x with _ => _ end) _ = _ => ev_test x E
  | (match ?x with _ => _ end) = _ => ev_test x E
  | call _ _ = _ =>
      let r := fresh "r" in
      apply call_inv in E as (r & -> & E)
  | run _ _ = _ => idtac
  | ?lhs = _ => let h := head_of lhs in unfold h in E; ev E
  end
with ev_test b E :=
  let b' := eval cbn in b in
  change b with b' in E;
  let a := test_atom b' in
  first [ match goal with Hb : a = _ |- _ => rewrite Hb in E end
        | destruct a eqn:?; prune ];
  cbn [negb andb orb nonnull] in E;
  ev E.

Ltac hide_strings H :=
  repeat match type of H with
  | context [String ?a ?s] => let x := fresh "str" in set (x := String a s) in H
  end.

Ltac exec_run H :=
  lazymatch type of H with
  | run ?body ?m = _ => let h := head_of body in unfold h in H
  end;
  hide_strings H;
  lazymatch type of H with
  | run ?body ?m = _ =>
      unfold run in H;
      let E := fresh "E" in
      let o := fresh "o" in
      let m1 := fresh "m" in
      destruct (body m) as [o m1] eqn:E;
      ev E;
      cbv beta iota in H; injection H as <- <-
  end.

(** A [set_size] within the capacity leaves the storage alone. *)
Ltac fits :=
  repeat match goal with
  | H : buf_reserve _ _ _ = Some _ |- _ =>
      lazymatch goal with
      | _ : reserved H |- _ => fail
      | _ => pose proof (buf_reserve_capacity _ _ _ _ H);
             pose proof (buf_reserve_grows _ _ _ _ H);
             pose proof (buf_reserve_size _ _ _ _ H);
             assert (reserved H) by exact I
      end
  | H : buf_set_size _ _ _ = _ |- _ =>
      rewrite buf_set_size_fits in H by (simpl; rewrite ?length_mem_write, ?length_insert; lia);
      simplify_eq/=
  end.

Lemma blklen_pos (c : gcry_cipher_algos) :
  c <> GCRY_CIPHER_NONE -> 0 < gcry_cipher_get_algo_blklen c.
Proof. destruct c; simpl; intros H; try lia. congruence. Qed.

(** A path on which the block length assertion failed for a real cipher. *)
Ltac no_block :=
  try (exfalso;
       match goal with
       | H : ~ 0 < gcry_cipher_get_algo_blklen _ |- _ => apply H, blklen_pos; assumption
       end).

Section Phases.
Variable P : Provider.

(** What [xmlSecGnuTLSBlockCipherCtxInit] does to the state. *)
Lemma Init_effect encrypt name tctx m r m' :
  run (xmlSecGnuTLSBlockCipherCtxInit P encrypt name tctx) m = (r, m') ->
  let B := gcry_cipher_get_algo_blklen (cipher (t_ctx m)) in
  (t_id m' = t_id m /\ t_encode m' = t_encode m /\ t_status m' = t_status m
   /\ gcry_calls m' = gcry_calls m /\ cipher (t_ctx m') = cipher (t_ctx m))
  /\ (r = 0%Z \/ r = (-1)%Z)
  /\ (r = 0%Z -> ctxInitialized (t_ctx m') = 0%Z /\ errors m' = errors m)
  /\ (ctxInitialized (t_ctx m) = 0%Z -> ctxInitialized (t_ctx m') = 0%Z)
  /\ (buf_size (t_outBuf m') = buf_size (t_outBuf m)
      \/ buf_size (t_outBuf m') = buf_size (t_outBuf m) + B)
  /\ (r = 0%Z -> truth encrypt = true ->
      buf_size (t_outBuf m') = buf_size (t_outBuf m) + B /\ t_inBuf m' = t_inBuf m)
  /\ (r = 0%Z -> truth encrypt = false -> B <= buf_size (t_inBuf m) ->
      buf_size (t_inBuf m') = buf_size (t_inBuf m) - B /\ t_outBuf m' = t_outBuf m)
  /\ (truth encrypt = false -> buf_size (t_inBuf m) < B ->
      cipher (t_ctx m) <> GCRY_CIPHER_NONE -> nonnull (cipherCtx (t_ctx m)) = true ->
      keyInitialized (t_ctx m) <> 0%Z -> ctxInitialized (t_ctx m) = 0%Z ->
      nonnull tctx = true ->
      r = 0%Z /\ m' = m).
Proof.
  intros H; cbv zeta. exec_run H. all: tests; sizes.
  all: simpl; rewrite ?buf_remove_head_size.
  all: repeat split; try done; try lia; auto.
Qed.

(** What [xmlSecGnuTLSBlockCipherCtxUpdate] does to the state. *)
Lemma Update_effect encrypt name tctx m r m' :
  run (xmlSecGnuTLSBlockCipherCtxUpdate P encrypt name tctx) m = (r, m') ->
  let B := gcry_cipher_get_algo_blklen (cipher (t_ctx m)) in
  let inSize := buf_size (t_inBuf m) in
  let outSize := buf_size (t_outBuf m) in
  let inBlocks := if truth encrypt then inSize / B else (inSize - 1) / B in
  (t_id m' = t_id m /\ t_encode m' = t_encode m /\ t_status m' = t_status m
   /\ ctxInitialized (t_ctx m') = ctxInitialized (t_ctx m)
   /\ cipher (t_ctx m') = cipher (t_ctx m))
  /\ (r = 0%Z \/ r = (-1)%Z)
  /\ (gcry_calls m' = gcry_calls m
      \/ exists co ci,
           gcry_calls m' =
             mkCall (truth encrypt) outSize (inBlocks * B + B) (inBlocks * B) co ci
             :: gcry_calls m
           /\ outSize + inBlocks * B + B <= co /\ B <= inSize)
  /\ (r = 0%Z -> 0 < B)
  /\ (r = 0%Z -> inSize < B -> m' = m)
  /\ (r = 0%Z -> B <= inSize ->
      buf_size (t_outBuf m') = outSize + inBlocks * B
      /\ buf_size (t_inBuf m') = inSize - inBlocks * B
      /\ exists co ci,
           gcry_calls m' =
             mkCall (truth encrypt) outSize (inBlocks * B + B) (inBlocks * B) co ci
             :: gcry_calls m).
Proof.
  intros H; cbv zeta. exec_run H. all: tests; sizes.
  all: simpl; rewrite ?buf_remove_head_size.
  all: unfold buf_capacity.
  all: repeat split; try done; try lia; auto.
  all: try (right; do 2 eexists; split; [reflexivity | lia]).
  all: try (do 2 eexists; reflexivity).
Qed.


(** What [xmlSecGnuTLSBlockCipherCtxFinal] does to the state.  [pad] is the
    byte at the end of the block the provider stored behind the old output
    size. *)
Lemma Final_effect encrypt name tctx m r m' :
  run (xmlSecGnuTLSBlockCipherCtxFinal P encrypt name tctx) m = (r, m') ->
  let B := gcry_cipher_get_algo_blklen (cipher (t_ctx m)) in
  let inSize := buf_size (t_inBuf m) in
  let outSize := buf_size (t_outBuf m) in
  let pad := Byte.to_nat (default x00 (buf_data (t_outBuf m') !! (outSize + (B - 1)))) in
  (t_id m' = t_id m /\ t_encode m' = t_encode m /\ t_status m' = t_status m
   /\ ctxInitialized (t_ctx m') = ctxInitialized (t_ctx m)
   /\ cipher (t_ctx m') = cipher (t_ctx m))
  /\ (r = 0%Z \/ r = (-1)%Z)
  /\ (gcry_calls m' = gcry_calls m
      \/ exists co ci,
           gcry_calls m' = mkCall (truth encrypt) outSize (B + B) B co ci :: gcry_calls m
           /\ outSize + 2 * B <= co)
  /\ (r = 0%Z ->
      buf_size (t_inBuf m') = 0
      /\ exists co ci,
           gcry_calls m' = mkCall (truth encrypt) outSize (B + B) B co ci :: gcry_calls m)
  /\ (r = 0%Z -> truth encrypt = true ->
      inSize < B /\ buf_size (t_outBuf m') = outSize + B)
  /\ (r = 0%Z -> truth encrypt = false ->
      inSize = B /\ pad <= B /\ buf_size (t_outBuf m') = outSize + (B - pad))
  /\ (truth encrypt = false -> inSize <> B ->
      cipher (t_ctx m) <> GCRY_CIPHER_NONE -> nonnull (cipherCtx (t_ctx m)) = true ->
      ctxInitialized (t_ctx m) <> 0%Z -> nonnull tctx = true ->
      r = (-1)%Z
      /\ errors m' = mkReport name None XMLSEC_ERRORS_R_INVALID_DATA "data=%d;block=%d"
                     :: errors m
      /\ gcry_calls m' = gcry_calls m).
Proof.
  intros H; cbv zeta. unfold Final_set_size_remove_head in H.
  exec_run H. all: tests; fits; sizes.
  all: unfold buf_capacity; simpl; rewrite ?buf_remove_head_size.
  all: try match goal with
           | H : buf_size (t_inBuf _) = gcry_cipher_get_algo_blklen _ |- _ => rewrite H
           end.
  all: repeat split; try done; try lia; auto.
  all: try (right; do 2 eexists; split; [reflexivity | lia]).
  all: try (do 2 eexists; reflexivity).
  all: no_block.
Qed.

(** The Final phase in decrypt direction on a whole block, with the session
    opened for the cipher of the context and the output reservation granted:
    the provider's plaintext block lands behind the old output size, and its
    last byte decides. *)
Lemma Final_decrypt_block name tctx m r m' :
  run (xmlSecGnuTLSBlockCipherCtxFinal P 0 name tctx) m = (r, m') ->
  let B := gcry_cipher_get_algo_blklen (cipher (t_ctx m)) in
  let outSize := buf_size (t_outBuf m) in
  let pad := Byte.to_nat (default x00 (buf_data (t_outBuf m') !! (outSize + (B - 1)))) in
  forall h out1,
  cipherCtx (t_ctx m) = Some h -> hd_algo h = cipher (t_ctx m) ->
  cipher (t_ctx m) <> GCRY_CIPHER_NONE -> ctxInitialized (t_ctx m) <> 0%Z ->
  nonnull tctx = true ->
  buf_size (t_inBuf m) = B ->
  buf_reserve (allocator P) (outSize + 2 * B) (t_outBuf m) = Some out1 ->
  buf_data (t_outBuf m') =
    mem_write outSize
      (fst (cbc_decrypt (blk_decrypt P (cipher (t_ctx m)) (hd_key h)) B 1 (hd_iv h)
                        (mem_read 0 B (buf_data (t_inBuf m)))))
      (buf_data out1)
  /\ (B < pad ->
      r = (-1)%Z
      /\ errors m' = mkReport name None XMLSEC_ERRORS_R_INVALID_DATA "padding=%d;buffer=%d"
                     :: errors m)
  /\ (pad <= B -> r = 0%Z).
Proof.
  intros H; cbv zeta. intros h out1 Hh Halgo Hcipher Hinit Htctx Hin Hres.
  remember (cbc_decrypt _ _ _ _ _) as dec eqn:Hdec.
  unfold Final_set_size_remove_head in H.
  exec_run H.
  all: pose proof (blklen_pos _ Hcipher) as Hpos.
  all: simpl in Hres.
  all: tests.
  all: try (exfalso; congruence).
  all: try (exfalso; lia).
  all: simplify_eq.
  all: fits.
  all: try match goal with
       | Hp : cbc_decrypt _ _ _ _ _ = _ |- _ =>
           rewrite ?Halgo, ?Hin in Hp; rewrite Nat.div_same in Hp by lia
       end.
  all: try (exfalso;
            match goal with
            | Hn : ~ (_ /\ _) |- _ =>
                apply Hn; rewrite ?Halgo, ?Hin; split; [lia | apply Nat.Div0.mod_same]
            end).
  all: try match goal with
           | Hp : cbc_decrypt _ _ _ _ _ = _ |- _ =>
               unfold cbc_decrypt in Hp; injection Hp as <- <-
           end.
  all: simpl.
  all: repeat split; try done; try lia.
Qed.

(** The closing statements of Final run a second time change nothing: once
    the first run has gone through on an input of at most [inSize] bytes, the
    output has its final size and the input is empty, and the second run
    falls through in the very same state. *)
Lemma Final_tail_twice name fmt fmt' outSize outLen inSize m m1 :
  buf_size (t_inBuf m) <= inSize ->
  Final_set_size_remove_head P name fmt outSize outLen inSize m = (Next tt, m1) ->
  Final_set_size_remove_head P name fmt' outSize outLen inSize m1 = (Next tt, m1)
  /\ buf_size (t_inBuf m1) = 0
  /\ buf_size (t_outBuf m1) = outSize + outLen.
Proof.
  intros Hin H. unfold Final_set_size_remove_head in *.
  unfold xmlSecBufferSetSize, xmlSecBufferRemoveHead, xmlSecError, modify, creturn, skip,
    mbind, M_bind, mret, M_ret, deref, assign in *.
  destruct (buf_set_size (allocator P) (outSize + outLen) (t_outBuf m)) as [b|] eqn:Hb;
    simpl in H; [|discriminate].
  injection H as <-. simpl.
  assert (buf_set_size (allocator P) (outSize + outLen) b = Some b) as ->.
  { unfold buf_set_size in Hb. destruct (buf_reserve _ _ _) as [b'|] eqn:Hr; [|discriminate].
    injection Hb as <-. apply buf_reserve_capacity in Hr.
    rewrite buf_set_size_fits by exact Hr. reflexivity. }
  simpl.
  rewrite (buf_remove_head_empty inSize (buf_remove_head inSize (t_inBuf m)))
    by (rewrite buf_remove_head_size; lia).
  apply buf_set_size_size in Hb.
  split; [reflexivity | split; [lia | exact Hb]].
Qed.

End Phases.

(** ** Execute *)

(** Bring in what is known about the phases a path has called. *)
Ltac phases :=
  repeat match goal with
  | E : run (xmlSecGnuTLSBlockCipherCtxInit _ _ _ _) _ = _ |- _ =>
      apply Init_effect in E; cbv zeta in E; simpl in E; destruct_and!
  | E : run (xmlSecGnuTLSBlockCipherCtxUpdate _ _ _ _) _ = _ |- _ =>
      apply Update_effect in E; cbv zeta in E; simpl in E; destruct_and!
  | E : run (xmlSecGnuTLSBlockCipherCtxFinal _ _ _ _) _ = _ |- _ =>
      apply Final_effect in E; cbv zeta in E; simpl in E; destruct_and!
  end.

(** Settle the return codes of the calls of a path and use what follows. *)
Ltac retcodes :=
  repeat match goal with
  | H : ?r = 0%Z \/ ?r = (-1)%Z |- _ =>
      destruct H; subst r; try (exfalso; lia)
  end;
  repeat match goal with
  | H : ?a = ?a -> _ |- _ => specialize (H eq_refl)
  | H : ?a <> ?a |- _ => destruct (H eq_refl)
  end;
  destruct_and?.

Section Execute.
Variable P : Provider.

Lemma Execute_effect last tctx m r m' :
  run (xmlSecGnuTLSBlockCipherExecute P last tctx) m = (r, m') ->
  (t_id m' = t_id m /\ t_encode m' = t_encode m /\ cipher (t_ctx m') = cipher (t_ctx m))
  /\ (r = 0%Z \/ r = (-1)%Z)
  /\ (r = (-1)%Z ->
      t_status m' =
        if xmlSecGnuTLSBlockCipherCheckId (t_id m) && nonnull tctx
           && bool_decide (t_status m = xmlSecTransformStatusNone)
        then xmlSecTransformStatusWorking else t_status m)
  /\ (t_status m' = xmlSecTransformStatusFinished ->
      t_status m = xmlSecTransformStatusFinished
      \/ (r = 0%Z /\ truth last = true /\ ctxInitialized (t_ctx m') <> 0%Z)).
Proof.
  intros H. exec_run H.
  all: phases.
  all: unfold xmlSecTransformCheckSize in *; try congruence.
  all: simpl; tests; retcodes.
  all: repeat split; intros; try done; try congruence; auto.
  all: try (right; repeat split; try done; congruence).
Qed.

(** Execute on a transform whose framing flag is clear: the flag stays clear,
    the provider is not called, the output grows by one block at most, and a
    final call fails. *)
Lemma Execute_uninitialized last tctx m r m' :
  run (xmlSecGnuTLSBlockCipherExecute P last tctx) m = (r, m') ->
  ctxInitialized (t_ctx m) = 0%Z ->
  let B := gcry_cipher_get_algo_blklen (cipher (t_ctx m)) in
  ctxInitialized (t_ctx m') = 0%Z
  /\ gcry_calls m' = gcry_calls m
  /\ (t_status m <> xmlSecTransformStatusFinished ->
      t_status m' <> xmlSecTransformStatusFinished)
  /\ (t_status m = xmlSecTransformStatusNone \/ t_status m = xmlSecTransformStatusWorking ->
      t_status m' = xmlSecTransformStatusNone \/ t_status m' = xmlSecTransformStatusWorking)
  /\ (buf_size (t_outBuf m') = buf_size (t_outBuf m)
      \/ buf_size (t_outBuf m') = buf_size (t_outBuf m) + B)
  /\ (truth last = true -> t_status m <> xmlSecTransformStatusFinished ->
      r = (-1)%Z
      /\ exists e rest,
           errors m' = e :: rest
           /\ (e = not_enough_data_report (t_id m) /\ rest = errors m
               \/ e = Init_failed_report (t_id m)
               \/ errorReason e = XMLSEC_ERRORS_R_ASSERTION
               \/ errorReason e = XMLSEC_ERRORS_R_INVALID_STATUS
                  /\ t_status m = xmlSecTransformStatusOther)).
Proof.
  intros H Hz; cbv zeta. exec_run H.
  all: phases.
  all: unfold xmlSecTransformCheckSize in *; try congruence.
  all: simpl; tests; retcodes.
  all: try congruence.
  all: repeat split; intros; try done; try congruence; auto.
  all: do 2 eexists; (split; [reflexivity|]).
  all: first [ left; split; [reflexivity | congruence]
             | right; left; reflexivity
             | right; right; left; reflexivity
             | right; right; right; split; [reflexivity|];
               destruct (t_status _); congruence ].
Qed.

(** Execute in decrypt direction on a transform set up by the driver (klass
    of this file, session, key, context pointer) that has not seen a whole
    block yet: a final call reports the missing data, any other call
    succeeds; either way the buffers stay as they are. *)
Lemma Execute_short_input last tctx m r m' :
  run (xmlSecGnuTLSBlockCipherExecute P last tctx) m = (r, m') ->
  truth (t_encode m) = false ->
  ctxInitialized (t_ctx m) = 0%Z ->
  buf_size (t_inBuf m) < gcry_cipher_get_algo_blklen (cipher (t_ctx m)) ->
  xmlSecGnuTLSBlockCipherCheckId (t_id m) = true ->
  nonnull tctx = true ->
  t_status m = xmlSecTransformStatusNone \/ t_status m = xmlSecTransformStatusWorking ->
  cipher (t_ctx m) <> GCRY_CIPHER_NONE ->
  nonnull (cipherCtx (t_ctx m)) = true ->
  keyInitialized (t_ctx m) <> 0%Z ->
  (truth last = true ->
   r = (-1)%Z /\ errors m' = not_enough_data_report (t_id m) :: errors m)
  /\ (truth last = false -> r = 0%Z /\ errors m' = errors m)
  /\ t_inBuf m' = t_inBuf m /\ t_outBuf m' = t_outBuf m /\ t_ctx m' = t_ctx m
  /\ t_status m' = xmlSecTransformStatusWorking.
Proof.
  intros H Henc Hz Hin Hid Htctx Hst Hc Hh Hk. exec_run H.
  all: phases.
  all: unfold xmlSecTransformCheckSize in *; try congruence.
  all: try (exfalso; destruct Hst; congruence).
  all: unfold truth in Henc.
  all: repeat match goal with
       | Hs : ?A -> _, Ha : ?A |- _ => specialize (Hs Ha)
       | Hs : true = true -> _ |- _ => specialize (Hs eq_refl)
       end.
  all: destruct_and?; simplify_eq/=.
  all: simpl; tests; retcodes.
  all: try congruence.
  all: try (exfalso; destruct Hst; congruence).
  all: repeat split; intros; try done; try congruence; auto.
Qed.
End Execute.

(** ** The other klass methods and the driver *)

Lemma klass_block_len_blklen (c : gcry_cipher_algos) (id : xmlSecTransformId) :
  (id = xmlSecGnuTLSTransformDes3CbcId /\ c = GCRY_CIPHER_3DES)
  \/ (id = xmlSecGnuTLSTransformAes128CbcId /\ c = GCRY_CIPHER_AES128)
  \/ (id = xmlSecGnuTLSTransformAes192CbcId /\ c = GCRY_CIPHER_AES192)
  \/ (id = xmlSecGnuTLSTransformAes256CbcId /\ c = GCRY_CIPHER_AES256) ->
  gcry_cipher_get_algo_blklen c = klass_block_len id.
Proof. intros [[-> ->]|[[-> ->]|[[-> ->]|[-> ->]]]]; reflexivity. Qed.

Section Driver.
Variable P : Provider.

Lemma Initialize_effect m r m' :
  run (xmlSecGnuTLSBlockCipherInitialize P) m = (r, m') ->
  t_id m' = t_id m /\ t_encode m' = t_encode m /\ t_status m' = t_status m
  /\ t_inBuf m' = t_inBuf m /\ t_outBuf m' = t_outBuf m
  /\ gcry_calls m' = gcry_calls m
  /\ (ctxInitialized (t_ctx m) = 0%Z -> ctxInitialized (t_ctx m') = 0%Z)
  /\ (xmlSecGnuTLSBlockCipherCheckId (t_id m) = true ->
      ctxInitialized (t_ctx m') = 0%Z
      /\ gcry_cipher_get_algo_blklen (cipher (t_ctx m')) = klass_block_len (t_id m)).
Proof.
  intros H. exec_run H.
  all: simpl; repeat split; intros; try done; try congruence.
  all: unfold xmlSecTransformCheckSize in *; congruence.
Qed.

Lemma SetKey_effect key m r m' :
  run (xmlSecGnuTLSBlockCipherSetKey P key) m = (r, m') ->
  t_id m' = t_id m /\ t_encode m' = t_encode m /\ t_status m' = t_status m
  /\ t_inBuf m' = t_inBuf m /\ t_outBuf m' = t_outBuf m
  /\ gcry_calls m' = gcry_calls m
  /\ ctxInitialized (t_ctx m') = ctxInitialized (t_ctx m)
  /\ cipher (t_ctx m') = cipher (t_ctx m).
Proof.
  intros H. exec_run H.
  all: simpl; repeat split; intros; try done; try congruence.
Qed.

Lemma Finalize_effect m r m' :
  run (xmlSecGnuTLSBlockCipherFinalize) m = (r, m') ->
  t_id m' = t_id m /\ t_encode m' = t_encode m /\ t_status m' = t_status m
  /\ t_inBuf m' = t_inBuf m /\ t_outBuf m' = t_outBuf m
  /\ gcry_calls m' = gcry_calls m
  /\ (ctxInitialized (t_ctx m) = 0%Z -> ctxInitialized (t_ctx m') = 0%Z).
Proof.
  intros H. exec_run H.
  all: simpl; repeat split; intros; try done; try congruence.
Qed.

(** No step of the driver sets the framing flag. *)
Lemma driver_run_never_framed m s :
  never_framed m -> never_framed (driver_run P m s).
Proof.
  unfold never_framed. intros (Hz & Hst & Hcalls).
  destruct s as [|key|bytes|last tctx|n|]; simpl.
  - destruct (run (xmlSecGnuTLSBlockCipherInitialize P) m) as [r m'] eqn:E.
    apply Initialize_effect in E. destruct_and!. simpl.
    repeat split; [auto | congruence | congruence].
  - destruct (run (xmlSecGnuTLSBlockCipherSetKey P key) m) as [r m'] eqn:E.
    apply SetKey_effect in E. destruct_and!. simpl.
    repeat split; congruence.
  - destruct (buf_append _ _ _); simpl; auto.
  - destruct (run (xmlSecGnuTLSBlockCipherExecute P last tctx) m) as [r m'] eqn:E.
    apply Execute_uninitialized in E; [|exact Hz]. cbv zeta in E. destruct_and!. simpl.
    repeat split; [assumption | auto | congruence].
  - auto.
  - destruct (run (xmlSecGnuTLSBlockCipherFinalize) m) as [r m'] eqn:E.
    apply Finalize_effect in E. destruct_and!. simpl.
    repeat split; [auto | congruence | congruence].
Qed.

Lemma foldl_never_framed steps m :
  never_framed m -> never_framed (foldl (driver_run P) m steps).
Proof.
  revert m. induction steps as [|s steps IH]; intros m Hm; simpl; [exact Hm|].
  apply IH, driver_run_never_framed, Hm.
Qed.

Lemma drive_never_framed id encode steps : never_framed (drive P id encode steps).
Proof. apply foldl_never_framed. repeat split; auto. Qed.

(** On such a transform no stream gets through: the final call fails. *)
Lemma push_execute_never_framed bytes m m' :
  never_framed m -> push_execute P bytes 0 m = Some m' -> never_framed m'.
Proof.
  unfold push_execute. intros Hm.
  destruct (buf_append _ _ _) as [b|]; [|discriminate].
  destruct (run _ _) as [r m1] eqn:E.
  destruct (r <? 0)%Z; [discriminate|]. intros [= <-].
  change m1 with (snd (r, m1)). rewrite <- E.
  apply (driver_run_never_framed (set_inBuf b m) (DriverExecute 0 (Some tt))).
  exact Hm.
Qed.

Lemma push_execute_last_fails bytes m :
  never_framed m -> push_execute P bytes 1 m = None.
Proof.
  unfold push_execute. intros (Hz & Hst & Hcalls).
  destruct (buf_append _ _ _) as [b|]; [|reflexivity].
  destruct (run _ _) as [r m1] eqn:E.
  apply Execute_uninitialized in E; [|exact Hz]. cbv zeta in E.
  destruct E as (_ & _ & _ & _ & _ & Hlast).
  destruct Hlast as [-> _]; [reflexivity | simpl; destruct Hst; congruence |].
  reflexivity.
Qed.

Lemma feed_fails chunks final m : never_framed m -> feed P chunks final m = None.
Proof.
  revert m. induction chunks as [|c chunks IH]; intros m Hm; simpl.
  - apply push_execute_last_fails, Hm.
  - destruct (push_execute P c 0 m) as [m'|] eqn:E; [|reflexivity].
    apply IH. eapply push_execute_never_framed; eassumption.
Qed.

Lemma transform_stream_fails id encode key chunks final :
  transform_stream P id encode key chunks final = None.
Proof.
  unfold transform_stream.
  destruct (run (xmlSecGnuTLSBlockCipherInitialize P) _) as [r1 m1] eqn:E1.
  destruct (r1 <? 0)%Z; [reflexivity|].
  destruct (run (xmlSecGnuTLSBlockCipherSetKey P (Some key)) m1) as [r2 m2] eqn:E2.
  destruct (r2 <? 0)%Z; [reflexivity|].
  rewrite feed_fails; [reflexivity|].
  change m2 with (snd (r2, m2)). rewrite <- E2.
  change m1 with (snd (r1, m1)). rewrite <- E1.
  apply (drive_never_framed id encode [DriverInitialize; DriverSetKey (Some key)]).
Qed.

(** The state before a one-shot encryption: nothing in the output yet, and
    the block length of the context is that of the klass. *)
Lemma encrypt_ready_state id key plaintext :
  let m := encrypt_ready P id key plaintext in
  never_framed m /\ buf_size (t_outBuf m) = 0 /\ t_id m = id
  /\ (xmlSecGnuTLSBlockCipherCheckId id = true ->
      gcry_cipher_get_algo_blklen (cipher (t_ctx m)) = klass_block_len id).
Proof.
  cbv zeta. split; [apply drive_never_framed|].
  unfold encrypt_ready, drive. simpl.
  destruct (run (xmlSecGnuTLSBlockCipherInitialize P) (new_transform id 1)) as [r1 m1] eqn:E1.
  apply Initialize_effect in E1. simpl in E1. destruct_and!. simpl.
  destruct (run (xmlSecGnuTLSBlockCipherSetKey P (Some key)) m1) as [r2 m2] eqn:E2.
  apply SetKey_effect in E2. destruct_and!. simpl.
  assert (t_outBuf m2 = empty_buffer) as Hout by congruence.
  destruct (buf_append _ _ _); simpl; rewrite Hout; simpl.
  all: repeat split; try congruence.
  all: intros Hid; match goal with Hk : _ = true -> _ |- _ => destruct (Hk Hid) end; congruence.
Qed.
End Driver.

(** ** The phases with the framing flag set by hand

    What Init, Update and Final add up to in encrypt direction when the flag
    is set after Init, as Update and Final assert it to be: the IV, the whole
    blocks and the padded block make the length the specification promises,
    and the input is used up. *)

Lemma ciphertext_len_blocks (B n : nat) :
  0 < B -> ciphertext_len B n = B + (n / B) * B + B.
Proof.
  intros HB. unfold ciphertext_len, ceil_div.
  replace (n + 1 + (B - 1)) with (n + 1 * B) by lia.
  rewrite Nat.div_add by lia. lia.
Qed.

Lemma phases_reach_promised_length (P : Provider) (name : option string)
    (tctx : option xmlSecTransformCtx) (m m1 m2 m3 : Machine) :
  run (xmlSecGnuTLSBlockCipherCtxInit P 1 name tctx) m = (0%Z, m1) ->
  run (xmlSecGnuTLSBlockCipherCtxUpdate P 1 name tctx) (mark_initialized m1) = (0%Z, m2) ->
  run (xmlSecGnuTLSBlockCipherCtxFinal P 1 name tctx) m2 = (0%Z, m3) ->
  buf_size (t_outBuf m3)
    = buf_size (t_outBuf m)
      + ciphertext_len (gcry_cipher_get_algo_blklen (cipher (t_ctx m)))
                       (buf_size (t_inBuf m))
  /\ buf_size (t_inBuf m3) = 0.
Proof.
  intros HI HU HF.
  apply Init_effect in HI. apply Update_effect in HU. apply Final_effect in HF.
  cbv zeta in HI, HU, HF. simpl in HU.
  destruct HI as ((_ & _ & _ & _ & Hc1) & _ & _ & _ & _ & Henc & _).
  destruct (Henc eq_refl eq_refl) as [Hout1 Hin1].
  destruct HU as ((_ & _ & _ & _ & Hc2) & _ & _ & Hpos & Hshort & Hlong).
  destruct HF as (_ & _ & _ & Hok & HencF & _).
  destruct (Hok eq_refl) as [Hin3 _]. destruct (HencF eq_refl eq_refl) as [Hlt Hout3].
  specialize (Hpos eq_refl).
  set (B := gcry_cipher_get_algo_blklen (cipher (t_ctx m))) in *.
  set (n := buf_size (t_inBuf m)) in *.
  assert (HB1 : gcry_cipher_get_algo_blklen (cipher (t_ctx m1)) = B)
    by (rewrite Hc1; reflexivity).
  assert (HB2 : gcry_cipher_get_algo_blklen (cipher (t_ctx m2)) = B)
    by (rewrite Hc2; exact HB1).
  assert (Hn1 : buf_size (t_inBuf m1) = n) by (rewrite Hin1; reflexivity).
  rewrite HB1 in Hpos. rewrite HB1, Hn1 in Hshort, Hlong. rewrite HB2 in Hout3.
  split; [|exact Hin3].
  rewrite ciphertext_len_blocks by exact Hpos.
  destruct (decide (n < B)) as [Hn|Hn].
  - rewrite (Hshort eq_refl Hn) in Hout3. simpl in Hout3.
    rewrite Nat.div_small by exact Hn. lia.
  - destruct Hlong as (Hout2 & _); [reflexivity | lia |]. lia.
Qed.

(** Twenty bytes through the three phases with the flag set after Init:
    IV, one whole block and the padded block, 48 bytes as the length law has
    it. *)
Example phases_on_twenty_bytes :
  let m := aes128_machine 1 xmlSecTransformStatusWorking 0 (replicate 20 x41) in
  let r1 := run (xmlSecGnuTLSBlockCipherCtxInit xor_provider 1 None (Some tt)) m in
  let r2 := run (xmlSecGnuTLSBlockCipherCtxUpdate xor_provider 1 None (Some tt))
                (mark_initialized (snd r1)) in
  let r3 := run (xmlSecGnuTLSBlockCipherCtxFinal xor_provider 1 None (Some tt)) (snd r2) in
  fst r1 = 0%Z /\ fst r2 = 0%Z /\ fst r3 = 0%Z
  /\ buf_size (t_outBuf (snd r3)) = 48
  /\ buf_size (t_inBuf (snd r3)) = 0
  /\ ciphertext_len 16 20 = 48.
Proof. vm_compute. repeat split. Qed.

(** * The claims of the specification *)

(** C1, round trip.  The specification promises that decrypting what the
    pipeline encrypted gives the plaintext back.  On the code no stream gets
    through the pipeline in either direction, however it is cut into chunks:
    the final Execute call fails, so there is no ciphertext to decrypt and
    the round trip never yields the plaintext. *)
Theorem round_trip_never_returns (P : Provider) (id : xmlSecTransformId) (key : xmlSecKey)
    (chunks : list (list byte)) (final : list byte) :
  transform_stream P id 1 key chunks final = None
  /\ round_trip P id key chunks final = None
  /\ round_trip P id key chunks final <> Some (concat chunks ++ final).
Proof.
  assert (round_trip P id key chunks final = None) as Hrt.
  { unfold round_trip. rewrite transform_stream_fails. reflexivity. }
  split; [apply transform_stream_fails|]. split; [exact Hrt|].
  rewrite Hrt. discriminate.
Qed.

(** C2, framing flag after Init.  The specification has a successful Init
    mark the framing as initialized.  On the code a successful Init, in
    either direction, leaves [ctx->ctxInitialized] at 0, that is false. *)
Theorem Init_leaves_framing_flag_clear (P : Provider) (encrypt : Z) (name : option string)
    (tctx : option xmlSecTransformCtx) (m m' : Machine) :
  run (xmlSecGnuTLSBlockCipherCtxInit P encrypt name tctx) m = (0%Z, m') ->
  ctxInitialized (t_ctx m') = 0%Z /\ truth (ctxInitialized (t_ctx m')) = false.
Proof.
  intros H. apply Init_effect in H. cbv zeta in H.
  destruct H as (_ & _ & Hz & _). destruct (Hz eq_refl) as [-> _]. auto.
Qed.

(** C3, final call with insufficient data.  A transform in decrypt direction
    that the driver has set up (klass of this file, session, key, context
    pointer; status None or Working), whose framing is not initialized and
    whose input holds less than a block: Execute with [last] set returns -1
    and reports invalid data, "not enough data to initialize transform";
    the same call without [last] returns 0.  *)
Theorem Execute_decrypt_short_input (P : Provider) (last : Z)
    (tctx : option xmlSecTransformCtx) (m : Machine) :
  truth (t_encode m) = false ->
  ctxInitialized (t_ctx m) = 0%Z ->
  buf_size (t_inBuf m) < gcry_cipher_get_algo_blklen (cipher (t_ctx m)) ->
  xmlSecGnuTLSBlockCipherCheckId (t_id m) = true ->
  nonnull tctx = true ->
  t_status m = xmlSecTransformStatusNone \/ t_status m = xmlSecTransformStatusWorking ->
  cipher (t_ctx m) <> GCRY_CIPHER_NONE ->
  nonnull (cipherCtx (t_ctx m)) = true ->
  keyInitialized (t_ctx m) <> 0%Z ->
  truth last = true ->
  (exists m1,
      run (xmlSecGnuTLSBlockCipherExecute P last tctx) m = ((-1)%Z, m1)
      /\ errors m1 = not_enough_data_report (t_id m) :: errors m
      /\ errorReason (not_enough_data_report (t_id m)) = XMLSEC_ERRORS_R_INVALID_DATA)
  /\ (exists m0,
      run (xmlSecGnuTLSBlockCipherExecute P 0 tctx) m = (0%Z, m0)
      /\ errors m0 = errors m
      /\ t_inBuf m0 = t_inBuf m /\ t_outBuf m0 = t_outBuf m).
Proof.
  intros Henc Hz Hin Hid Htctx Hst Hc Hh Hk Hlast. split.
  - destruct (run (xmlSecGnuTLSBlockCipherExecute P last tctx) m) as [r m1] eqn:E.
    destruct (Execute_short_input P last tctx m r m1 E Henc Hz Hin Hid Htctx Hst Hc Hh Hk)
      as (H1 & _ & _).
    destruct (H1 Hlast) as [-> He]. exists m1. auto.
  - destruct (run (xmlSecGnuTLSBlockCipherExecute P 0 tctx) m) as [r m0] eqn:E.
    destruct (Execute_short_input P 0 tctx m r m0 E Henc Hz Hin Hid Htctx Hst Hc Hh Hk)
      as (_ & H0 & Hi & Ho & _).
    destruct (H0 eq_refl) as [-> He]. exists m0. auto.
Qed.

(** C4, whole blocks in Update.  With at least a block of input, Update hands
    the provider exactly [n_blocks] whole blocks, [in_size / B] of them when
    encrypting and [(in_size - 1) / B] when decrypting, and when it returns 0
    the output has grown and the input has shrunk by [n_blocks * B] bytes; in
    decrypt direction between one byte and a block of input stay behind, a
    whole block when the input was a multiple of the block length. *)
Theorem Update_whole_blocks (P : Provider) (encrypt : Z) (name : option string)
    (tctx : option xmlSecTransformCtx) (m : Machine) (r : Z) (m' : Machine) :
  let B := gcry_cipher_get_algo_blklen (cipher (t_ctx m)) in
  let in_size := buf_size (t_inBuf m) in
  let out_size := buf_size (t_outBuf m) in
  let n_blocks := if truth encrypt then in_size / B else (in_size - 1) / B in
  B <= in_size ->
  run (xmlSecGnuTLSBlockCipherCtxUpdate P encrypt name tctx) m = (r, m') ->
  (gcry_calls m' = gcry_calls m
   \/ exists co ci,
        gcry_calls m' =
          mkCall (truth encrypt) out_size (n_blocks * B + B) (n_blocks * B) co ci
          :: gcry_calls m)
  /\ (r = 0%Z ->
      (exists co ci,
          gcry_calls m' =
            mkCall (truth encrypt) out_size (n_blocks * B + B) (n_blocks * B) co ci
            :: gcry_calls m)
      /\ buf_size (t_outBuf m') = out_size + n_blocks * B
      /\ buf_size (t_inBuf m') = in_size - n_blocks * B
      /\ n_blocks * B <= in_size
      /\ (truth encrypt = true -> buf_size (t_inBuf m') < B)
      /\ (truth encrypt = false ->
          1 <= buf_size (t_inBuf m') <= B
          /\ (in_size mod B = 0 -> buf_size (t_inBuf m') = B))).
Proof.
  cbv zeta. intros Hin H. apply Update_effect in H. cbv zeta in H.
  destruct H as (_ & _ & Hcalls & Hpos & _ & Hok). split.
  - destruct Hcalls as [Hc|(co & ci & Hc & _)]; [left; exact Hc | right; eauto].
  - intros ->. destruct (Hok eq_refl Hin) as (Hout & Hi & Hc).
    split; [exact Hc|]. split; [exact Hout|]. split; [exact Hi|].
    set (B := gcry_cipher_get_algo_blklen (cipher (t_ctx m))) in *.
    set (n := buf_size (t_inBuf m)) in *.
    assert (B <> 0) as HB by (specialize (Hpos eq_refl); lia).
    destruct (truth encrypt) eqn:Henc.
    + pose proof (Nat.div_mod_eq n B) as Hdm.
      pose proof (Nat.mod_upper_bound n B HB) as Hub.
      repeat split; intros; try discriminate; nia.
    + pose proof (Nat.div_mod_eq (n - 1) B) as Hdm.
      pose proof (Nat.mod_upper_bound (n - 1) B HB) as Hub.
      split; [nia|]. split; [intros; discriminate|]. intros _. split; [nia|].
      intros Hmod.
      assert (n = B * (n / B)) as Hn.
      { pose proof (Nat.div_mod_eq n B). lia. }
      assert ((n - 1) / B = n / B - 1) as Hq.
      { assert (1 <= n / B) by nia.
        symmetry. apply Nat.div_unique with (r := B - 1); nia. }
      rewrite Hi, Hq. nia.
Qed.

(** C5 as the code has it, padding check of Final in decrypt direction.  With
    the session opened for the cipher of the context: Final reports invalid
    data when the input is not exactly one block; otherwise, once the output
    reservation is granted, it has the provider decrypt the block behind the
    old output size, reads the padding length [p] from its last byte, reports
    invalid data when [p > B], and for every [p <= B], zero included,
    returns 0 with the output grown by [B - p] bytes and the input empty. *)
Theorem Final_decrypt_padding (P : Provider) (name : option string)
    (tctx : option xmlSecTransformCtx) (m : Machine) (r : Z) (m' : Machine)
    (h : gcry_cipher_handle) (out1 : xmlSecBuffer) :
  let B := gcry_cipher_get_algo_blklen (cipher (t_ctx m)) in
  let out_size := buf_size (t_outBuf m) in
  let p := padding_byte out_size B m' in
  cipher (t_ctx m) <> GCRY_CIPHER_NONE ->
  cipherCtx (t_ctx m) = Some h ->
  hd_algo h = cipher (t_ctx m) ->
  ctxInitialized (t_ctx m) <> 0%Z ->
  nonnull tctx = true ->
  run (xmlSecGnuTLSBlockCipherCtxFinal P 0 name tctx) m = (r, m') ->
  (buf_size (t_inBuf m) <> B ->
   r = (-1)%Z
   /\ errors m' = mkReport name None XMLSEC_ERRORS_R_INVALID_DATA "data=%d;block=%d"
                  :: errors m
   /\ gcry_calls m' = gcry_calls m)
  /\ (buf_size (t_inBuf m) = B ->
      buf_reserve (allocator P) (out_size + 2 * B) (t_outBuf m) = Some out1 ->
      buf_data (t_outBuf m') =
        mem_write out_size
          (fst (cbc_decrypt (blk_decrypt P (cipher (t_ctx m)) (hd_key h)) B 1 (hd_iv h)
                            (mem_read 0 B (buf_data (t_inBuf m)))))
          (buf_data out1)
      /\ (B < p ->
          r = (-1)%Z
          /\ errors m' = mkReport name None XMLSEC_ERRORS_R_INVALID_DATA
                                  "padding=%d;buffer=%d" :: errors m)
      /\ (p <= B ->
          r = 0%Z
          /\ buf_size (t_outBuf m') = out_size + (B - p)
          /\ buf_size (t_inBuf m') = 0)).
Proof.
  cbv zeta. intros Hc Hh Halgo Hinit Htctx H.
  pose proof (Final_effect P 0 name tctx m r m' H) as He. cbv zeta in He.
  destruct He as (_ & _ & _ & Hok & _ & Hdec & Hbad).
  split.
  - intros Hne. apply Hbad; auto. rewrite Hh. reflexivity.
  - intros Hin Hres.
    destruct (Final_decrypt_block P name tctx m r m' H h out1 Hh Halgo Hc Hinit Htctx Hin Hres)
      as (Hdata & Hgt & Hle).
    split; [exact Hdata|]. split; [exact Hgt|].
    intros Hp. unfold padding_byte in *. specialize (Hle Hp). subst r.
    destruct (Hdec eq_refl eq_refl) as (_ & _ & Hout).
    destruct (Hok eq_refl) as (Hi & _). auto.
Qed.

(** C6 as the code has it, status after a failed Execute.  A failing Execute
    leaves the status as it was, except that a transform of this file's
    klasses called with a context pointer leaves None behind: Execute moves
    it to Working before anything can fail. *)
Theorem Execute_failure_status (P : Provider) (last : Z) (tctx : option xmlSecTransformCtx)
    (m : Machine) (r : Z) (m' : Machine) :
  run (xmlSecGnuTLSBlockCipherExecute P last tctx) m = (r, m') ->
  (r < 0)%Z ->
  t_status m' =
    if xmlSecGnuTLSBlockCipherCheckId (t_id m) && nonnull tctx
       && bool_decide (t_status m = xmlSecTransformStatusNone)
    then xmlSecTransformStatusWorking
    else t_status m.
Proof.
  intros H Hr. apply Execute_effect in H. destruct H as (_ & Hcode & Hst & _).
  apply Hst. lia.
Qed.

(** C7, length law.  The specification promises [B + B * ceil((n + 1) / B)]
    bytes of ciphertext for [n] bytes of plaintext.  On the code the one
    Execute call of a one-shot encryption fails; no more than the IV block
    has reached the output by then, short of the promised length. *)
Theorem one_shot_encrypt_fails (P : Provider) (id : xmlSecTransformId) (key : xmlSecKey)
    (plaintext : list byte) (r : Z) (m' : Machine) :
  xmlSecGnuTLSBlockCipherCheckId id = true ->
  run (xmlSecGnuTLSBlockCipherExecute P 1 (Some tt)) (encrypt_ready P id key plaintext)
    = (r, m') ->
  r = (-1)%Z
  /\ buf_size (t_outBuf m') <= klass_block_len id
  /\ buf_size (t_outBuf m') < ciphertext_len (klass_block_len id) (length plaintext).
Proof.
  intros Hid H.
  destruct (encrypt_ready_state P id key plaintext) as ((Hz & Hst & _) & Hout & _ & HB).
  specialize (HB Hid).
  apply Execute_uninitialized in H; [|exact Hz]. cbv zeta in H.
  destruct H as (_ & _ & _ & _ & Hsize & Hlast).
  destruct Hlast as [-> _]; [reflexivity | destruct Hst; congruence |].
  rewrite HB, Hout in Hsize.
  assert (0 < klass_block_len id) as Hpos by (destruct id; simpl; try lia; discriminate).
  assert (1 <= ceil_div (length plaintext + 1) (klass_block_len id)) as Hceil.
  { unfold ceil_div. apply Nat.div_le_lower_bound; lia. }
  unfold ciphertext_len. split; [reflexivity|]. split; [lia|nia].
Qed.

(** C8, the doubled closing statements of Final.  Once the first "set output
    size, remove head" has gone through on an input of at most [inSize]
    bytes, the second run of the same statements succeeds and leaves the whole
    state, both buffers included, as it is: the input is already empty and
    the output already has the size [outSize + outLen].  So a successful
    Final ends with the input empty and the output grown by [outLen], which
    is a block when encrypting and [B - p] bytes when decrypting. *)
Theorem Final_closing_statements_idempotent (P : Provider) (name : option string)
    (fmt fmt' : string) (outSize outLen inSize : nat) (m0 m1 : Machine)
    (encrypt : Z) (tctx : option xmlSecTransformCtx) (m m' : Machine) :
  (buf_size (t_inBuf m0) <= inSize ->
   Final_set_size_remove_head P name fmt outSize outLen inSize m0 = (Next tt, m1) ->
   Final_set_size_remove_head P name fmt' outSize outLen inSize m1 = (Next tt, m1)
   /\ buf_size (t_inBuf m1) = 0
   /\ buf_size (t_outBuf m1) = outSize + outLen)
  /\ (run (xmlSecGnuTLSBlockCipherCtxFinal P encrypt name tctx) m = (0%Z, m') ->
      let B := gcry_cipher_get_algo_blklen (cipher (t_ctx m)) in
      let out_len :=
        if truth encrypt then B else B - padding_byte (buf_size (t_outBuf m)) B m' in
      buf_size (t_inBuf m') = 0
      /\ buf_size (t_outBuf m') = buf_size (t_outBuf m) + out_len).
Proof.
  split.
  - apply Final_tail_twice.
  - intros H. cbv zeta. apply Final_effect in H. cbv zeta in H.
    destruct H as (_ & _ & _ & Hok & Henc & Hdec & _).
    destruct (Hok eq_refl) as [Hin _]. split; [exact Hin|].
    destruct (truth encrypt) eqn:He.
    + apply Henc; reflexivity.
    + apply Hdec; reflexivity.
Qed.

(** C9, the final call always fails.  Whatever the driver has done with a
    transform since its creation (either direction, any key, any input, any
    calls): the framing flag is clear, the status is not Finished, and the
    provider has never been asked to encrypt or decrypt; an Execute call
    with [last] set returns -1 and leaves all that as it is.  The report it
    files is "not enough data to initialize transform", unless the entry
    assertions of Execute or the Init phase failed before. *)
Theorem final_Execute_always_fails (P : Provider) (id : xmlSecTransformId) (encode : Z)
    (steps : list driver_step) (last : Z) (tctx : option xmlSecTransformCtx)
    (r : Z) (m' : Machine) :
  truth last = true ->
  run (xmlSecGnuTLSBlockCipherExecute P last tctx) (drive P id encode steps) = (r, m') ->
  let m := drive P id encode steps in
  (ctxInitialized (t_ctx m) = 0%Z
   /\ t_status m <> xmlSecTransformStatusFinished
   /\ gcry_calls m = [])
  /\ r = (-1)%Z
  /\ ctxInitialized (t_ctx m') = 0%Z
  /\ t_status m' <> xmlSecTransformStatusFinished
  /\ gcry_calls m' = []
  /\ exists e rest,
       errors m' = e :: rest
       /\ (e = not_enough_data_report (t_id m) /\ rest = errors m
           \/ e = Init_failed_report (t_id m)
           \/ errorReason e = XMLSEC_ERRORS_R_ASSERTION).
Proof.
  intros Hlast H. cbv zeta.
  destruct (drive_never_framed P id encode steps) as (Hz & Hst & Hcalls).
  assert (t_status (drive P id encode steps) <> xmlSecTransformStatusFinished) as Hnf
    by (destruct Hst; congruence).
  apply Execute_uninitialized in H; [|exact Hz]. cbv zeta in H.
  destruct H as (Hz' & Hcalls' & Hnf' & _ & _ & Hfail).
  destruct (Hfail Hlast Hnf) as (-> & e & rest & He & Hcase).
  split; [auto|]. split; [reflexivity|]. split; [exact Hz'|]. split; [auto|].
  split; [congruence|].
  exists e, rest. split; [exact He|].
  destruct Hcase as [?|[?|[?|[_ Hother]]]]; auto.
  destruct Hst; congruence.
Qed.

(** C10, output region of the provider calls.  Each call Update or Final
    makes to the provider's encrypt or decrypt names an output region that
    starts at the old output size and has the capacity [inlen + B], and that
    region lies inside the output buffer as reserved at the time of the
    call; Final's call is for one block.  Each phase makes one call at
    most. *)
Theorem provider_output_region_in_bounds (P : Provider) (encrypt : Z) (name : option string)
    (tctx : option xmlSecTransformCtx) (m : Machine) :
  let B := gcry_cipher_get_algo_blklen (cipher (t_ctx m)) in
  let out_size := buf_size (t_outBuf m) in
  let after_Update := snd (run (xmlSecGnuTLSBlockCipherCtxUpdate P encrypt name tctx) m) in
  let after_Final := snd (run (xmlSecGnuTLSBlockCipherCtxFinal P encrypt name tctx) m) in
  Forall (fun c => gcry_call_in_bounds c = true
                   /\ call_out_off c = out_size
                   /\ call_out_cap c = call_in_len c + B
                   /\ out_size + call_in_len c + B <= call_out_maxSize c)
         (new_calls m after_Update)
  /\ Forall (fun c => gcry_call_in_bounds c = true
                      /\ call_out_off c = out_size
                      /\ call_in_len c = B
                      /\ call_out_cap c = call_in_len c + B
                      /\ out_size + 2 * B <= call_out_maxSize c)
            (new_calls m after_Final)
  /\ length (new_calls m after_Update) <= 1
  /\ length (new_calls m after_Final) <= 1.
Proof.
  cbv zeta.
  destruct (run (xmlSecGnuTLSBlockCipherCtxUpdate P encrypt name tctx) m) as [rU mU] eqn:EU.
  destruct (run (xmlSecGnuTLSBlockCipherCtxFinal P encrypt name tctx) m) as [rF mF] eqn:EF.
  apply Update_effect in EU. apply Final_effect in EF. cbv zeta in EU, EF. simpl.
  destruct EU as (_ & _ & HU & _). destruct EF as (_ & _ & HF & _).
  assert (forall c l, new_calls_of l (c :: l) = [c]) as Hone.
  { intros c l. unfold new_calls_of. simpl.
    replace (S (length l) - length l) with 1 by lia. reflexivity. }
  assert (forall l : list gcry_call, new_calls_of l l = []) as Hnone.
  { intros l. unfold new_calls_of. rewrite Nat.sub_diag. reflexivity. }
  unfold new_calls. fold (new_calls_of (gcry_calls m) (gcry_calls mU)).
  fold (new_calls_of (gcry_calls m) (gcry_calls mF)).
  destruct HU as [->|(co & ci & -> & Hcap & _)];
    destruct HF as [->|(co' & ci' & -> & Hcap')];
    rewrite ?Hone, ?Hnone; simpl.
  all: repeat split; try lia.
  all: repeat constructor; simpl; try apply bool_decide_eq_true; simpl; try lia.
Qed.

(** * The claims on concrete inputs *)

(** Init in encrypt direction on an AES-128 transform with its key set
    returns 0 and leaves the framing flag at 0. *)
Lemma Init_leaves_framing_flag_clear_witness :
  let m := aes128_machine 1 xmlSecTransformStatusWorking 0 [] in
  let m' := snd (run (xmlSecGnuTLSBlockCipherCtxInit xor_provider 1 None (Some tt)) m) in
  run (xmlSecGnuTLSBlockCipherCtxInit xor_provider 1 None (Some tt)) m = (0%Z, m')
  /\ ctxInitialized (t_ctx m') = 0%Z
  /\ truth (ctxInitialized (t_ctx m')) = false.
Proof.
  cbv zeta. split; [vm_compute; reflexivity|].
  apply (Init_leaves_framing_flag_clear xor_provider 1 None (Some tt)
           (aes128_machine 1 xmlSecTransformStatusWorking 0 [])).
  vm_compute; reflexivity.
Defined.

(** Two bytes of ciphertext on a fresh AES-128 decryption: the final call
    fails with the invalid-data report, the non-final call succeeds. *)
Lemma Execute_decrypt_short_input_witness :
  let m := aes128_machine 0 xmlSecTransformStatusNone 0 [x01; x02] in
  (exists m1,
      run (xmlSecGnuTLSBlockCipherExecute xor_provider 1 (Some tt)) m = ((-1)%Z, m1)
      /\ errors m1 = not_enough_data_report (t_id m) :: errors m
      /\ errorReason (not_enough_data_report (t_id m)) = XMLSEC_ERRORS_R_INVALID_DATA)
  /\ (exists m0,
      run (xmlSecGnuTLSBlockCipherExecute xor_provider 0 (Some tt)) m = (0%Z, m0)
      /\ errors m0 = errors m
      /\ t_inBuf m0 = t_inBuf m /\ t_outBuf m0 = t_outBuf m).
Proof.
  cbv zeta.
  apply (Execute_decrypt_short_input xor_provider 1 (Some tt)
           (aes128_machine 0 xmlSecTransformStatusNone 0 [x01; x02])).
  - vm_compute; reflexivity.
  - vm_compute; reflexivity.
  - simpl; lia.
  - vm_compute; reflexivity.
  - vm_compute; reflexivity.
  - left; vm_compute; reflexivity.
  - simpl; discriminate.
  - vm_compute; reflexivity.
  - simpl; lia.
  - vm_compute; reflexivity.
Defined.

(** Two blocks of ciphertext in Update, decrypt direction: one block goes
    to the provider, the other stays in the input. *)
Lemma Update_whole_blocks_witness :
  let m := aes128_machine 0 xmlSecTransformStatusWorking 1 (replicate 32 x01) in
  let m' := snd (run (xmlSecGnuTLSBlockCipherCtxUpdate xor_provider 0 None (Some tt)) m) in
  run (xmlSecGnuTLSBlockCipherCtxUpdate xor_provider 0 None (Some tt)) m = (0%Z, m')
  /\ buf_size (t_outBuf m') = 16
  /\ buf_size (t_inBuf m') = 16.
Proof.
  cbv zeta.
  assert (run (xmlSecGnuTLSBlockCipherCtxUpdate xor_provider 0 None (Some tt))
              (aes128_machine 0 xmlSecTransformStatusWorking 1 (replicate 32 x01))
          = (0%Z, snd (run (xmlSecGnuTLSBlockCipherCtxUpdate xor_provider 0 None (Some tt))
                           (aes128_machine 0 xmlSecTransformStatusWorking 1
                                           (replicate 32 x01)))))
    as Hrun by (vm_compute; reflexivity).
  split; [exact Hrun|].
  assert (gcry_cipher_get_algo_blklen
            (cipher (t_ctx (aes128_machine 0 xmlSecTransformStatusWorking 1
                                           (replicate 32 x01))))
          <= buf_size (t_inBuf (aes128_machine 0 xmlSecTransformStatusWorking 1
                                               (replicate 32 x01))))
    as Hin by (simpl; lia).
  destruct (Update_whole_blocks xor_provider 0 None (Some tt) _ _ _ Hin Hrun) as [_ Hok].
  destruct (Hok eq_refl) as (_ & Hout & Hi & _).
  split; [exact Hout | exact Hi].
Defined.

(** C5 as stated fails on the code: a block whose last plaintext byte is 0
    does not make Final fail; it returns 0 and emits the whole block. *)
Lemma Final_accepts_zero_padding :
  let m := aes128_machine 0 xmlSecTransformStatusWorking 1 (replicate 16 x00) in
  let result := run (xmlSecGnuTLSBlockCipherCtxFinal xor_provider 0 None (Some tt)) m in
  buf_size (t_inBuf m) = gcry_cipher_get_algo_blklen (cipher (t_ctx m))
  /\ padding_byte (buf_size (t_outBuf m)) 16 (snd result) = 0
  /\ fst result = 0%Z
  /\ errors (snd result) = []
  /\ buf_size (t_outBuf (snd result)) = 16.
Proof. vm_compute. repeat split. Qed.

(** A block ending in the byte 5: Final returns 0 and emits 11 bytes. *)
Lemma Final_decrypt_padding_witness :
  let m := aes128_machine 0 xmlSecTransformStatusWorking 1 (replicate 16 x05) in
  let m' := snd (run (xmlSecGnuTLSBlockCipherCtxFinal xor_provider 0 None (Some tt)) m) in
  run (xmlSecGnuTLSBlockCipherCtxFinal xor_provider 0 None (Some tt)) m = (0%Z, m')
  /\ padding_byte 0 16 m' = 5
  /\ buf_size (t_outBuf m') = 11
  /\ buf_size (t_inBuf m') = 0.
Proof.
  cbv zeta.
  set (m := aes128_machine 0 xmlSecTransformStatusWorking 1 (replicate 16 x05)).
  set (h := mkHandle GCRY_CIPHER_AES128 GCRY_CIPHER_MODE_CBC (replicate 16 x00)
                     (replicate 16 x00)).
  assert (run (xmlSecGnuTLSBlockCipherCtxFinal xor_provider 0 None (Some tt)) m
          = (0%Z, snd (run (xmlSecGnuTLSBlockCipherCtxFinal xor_provider 0 None (Some tt)) m)))
    as Hrun by (vm_compute; reflexivity).
  split; [exact Hrun|].
  assert (padding_byte 0 16
            (snd (run (xmlSecGnuTLSBlockCipherCtxFinal xor_provider 0 None (Some tt)) m)) = 5)
    as Hp by (vm_compute; reflexivity).
  split; [exact Hp|].
  assert (cipher (t_ctx m) <> GCRY_CIPHER_NONE) as H1 by (simpl; discriminate).
  assert (cipherCtx (t_ctx m) = Some h) as H2 by reflexivity.
  assert (hd_algo h = cipher (t_ctx m)) as H3 by reflexivity.
  assert (ctxInitialized (t_ctx m) <> 0%Z) as H4 by (simpl; lia).
  assert (nonnull (Some tt : option xmlSecTransformCtx) = true) as H5 by reflexivity.
  destruct (Final_decrypt_padding xor_provider None (Some tt) m 0%Z _ h
              (mkBuffer (replicate 64 x00) 0) H1 H2 H3 H4 H5 Hrun) as [_ Hblock].
  destruct Hblock as (_ & _ & Hle); [reflexivity | vm_compute; reflexivity |].
  change (padding_byte (buf_size (t_outBuf m))
            (gcry_cipher_get_algo_blklen (cipher (t_ctx m)))
            (snd (run (xmlSecGnuTLSBlockCipherCtxFinal xor_provider 0 None (Some tt)) m)))
    with (padding_byte 0 16
            (snd (run (xmlSecGnuTLSBlockCipherCtxFinal xor_provider 0 None (Some tt)) m)))
    in Hle.
  rewrite Hp in Hle.
  destruct Hle as (_ & Hout & Hin); [simpl; lia|].
  split; [exact Hout | exact Hin].
Defined.

(** C6 as stated fails on the code: the final call on a fresh decryption
    fails, and the status has moved from None to Working. *)
Lemma Execute_failure_moves_status :
  let m := aes128_machine 0 xmlSecTransformStatusNone 0 [] in
  let result := run (xmlSecGnuTLSBlockCipherExecute xor_provider 1 (Some tt)) m in
  (fst result < 0)%Z
  /\ t_status m = xmlSecTransformStatusNone
  /\ t_status (snd result) = xmlSecTransformStatusWorking
  /\ t_status (snd result) <> t_status m.
Proof. vm_compute. repeat split; discriminate. Qed.

(** The same call under the amended claim. *)
Lemma Execute_failure_status_witness :
  let m := aes128_machine 0 xmlSecTransformStatusNone 0 [] in
  let m' := snd (run (xmlSecGnuTLSBlockCipherExecute xor_provider 1 (Some tt)) m) in
  run (xmlSecGnuTLSBlockCipherExecute xor_provider 1 (Some tt)) m = ((-1)%Z, m')
  /\ t_status m' = xmlSecTransformStatusWorking.
Proof.
  cbv zeta.
  assert (run (xmlSecGnuTLSBlockCipherExecute xor_provider 1 (Some tt))
              (aes128_machine 0 xmlSecTransformStatusNone 0 [])
          = ((-1)%Z, snd (run (xmlSecGnuTLSBlockCipherExecute xor_provider 1 (Some tt))
                              (aes128_machine 0 xmlSecTransformStatusNone 0 []))))
    as Hrun by (vm_compute; reflexivity).
  split; [exact Hrun|].
  apply (Execute_failure_status xor_provider 1 (Some tt) _ _ _ Hrun). lia.
Defined.

(** Scenario S1, the empty plaintext under the zero AES-128 key: 32 bytes
    are promised, the call fails with the 16 bytes of the IV in the output. *)
Lemma one_shot_encrypt_fails_witness :
  let m := encrypt_ready xor_provider xmlSecGnuTLSTransformAes128CbcId aes128_zero_key [] in
  let m' := snd (run (xmlSecGnuTLSBlockCipherExecute xor_provider 1 (Some tt)) m) in
  run (xmlSecGnuTLSBlockCipherExecute xor_provider 1 (Some tt)) m = ((-1)%Z, m')
  /\ buf_size (t_outBuf m') = 16
  /\ ciphertext_len 16 0 = 32
  /\ buf_size (t_outBuf m') < ciphertext_len 16 0.
Proof.
  cbv zeta.
  assert (run (xmlSecGnuTLSBlockCipherExecute xor_provider 1 (Some tt))
              (encrypt_ready xor_provider xmlSecGnuTLSTransformAes128CbcId aes128_zero_key [])
          = ((-1)%Z,
             snd (run (xmlSecGnuTLSBlockCipherExecute xor_provider 1 (Some tt))
                      (encrypt_ready xor_provider xmlSecGnuTLSTransformAes128CbcId
                                     aes128_zero_key []))))
    as Hrun by (vm_compute; reflexivity).
  split; [exact Hrun|]. split; [vm_compute; reflexivity|]. split; [vm_compute; reflexivity|].
  apply (one_shot_encrypt_fails xor_provider xmlSecGnuTLSTransformAes128CbcId
           aes128_zero_key [] (-1)%Z _ eq_refl Hrun).
Defined.

(** Final on three bytes of plaintext: the closing statements run twice, and
    the transform ends with an empty input and one block of output. *)
Lemma Final_closing_statements_idempotent_witness :
  let m := aes128_machine 1 xmlSecTransformStatusWorking 1 [x01; x02; x03] in
  let m' := snd (run (xmlSecGnuTLSBlockCipherCtxFinal xor_provider 1 None (Some tt)) m) in
  let m1 := snd (Final_set_size_remove_head xor_provider None "size=%d" 0 16 16 m) in
  Final_set_size_remove_head xor_provider None "%d" 0 16 16 m1 = (Next tt, m1)
  /\ buf_size (t_inBuf m') = 0
  /\ buf_size (t_outBuf m') = 16.
Proof.
  cbv zeta.
  set (m := aes128_machine 1 xmlSecTransformStatusWorking 1 [x01; x02; x03]).
  destruct (Final_closing_statements_idempotent xor_provider None "size=%d" "%d" 0 16 16
              m (snd (Final_set_size_remove_head xor_provider None "size=%d" 0 16 16 m))
              1 (Some tt) m
              (snd (run (xmlSecGnuTLSBlockCipherCtxFinal xor_provider 1 None (Some tt)) m)))
    as [Htail Hfinal].
  destruct Htail as (Htwice & _ & _); [simpl; lia | vm_compute; reflexivity |].
  destruct Hfinal as (Hin & Hout); [vm_compute; reflexivity|].
  split; [exact Htwice|]. split; [exact Hin | exact Hout].
Defined.

(** An AES-128 encryption set up by the driver, one byte of plaintext pushed:
    the final call fails and the status stays short of Finished. *)
Lemma final_Execute_always_fails_witness :
  let steps := [DriverInitialize; DriverSetKey (Some aes128_zero_key); DriverAppend [x01]] in
  let m := drive xor_provider xmlSecGnuTLSTransformAes128CbcId 1 steps in
  let m' := snd (run (xmlSecGnuTLSBlockCipherExecute xor_provider 1 (Some tt)) m) in
  run (xmlSecGnuTLSBlockCipherExecute xor_provider 1 (Some tt)) m = ((-1)%Z, m')
  /\ ctxInitialized (t_ctx m') = 0%Z
  /\ t_status m' <> xmlSecTransformStatusFinished
  /\ gcry_calls m' = [].
Proof.
  cbv zeta.
  set (steps := [DriverInitialize; DriverSetKey (Some aes128_zero_key); DriverAppend [x01]]).
  assert (run (xmlSecGnuTLSBlockCipherExecute xor_provider 1 (Some tt))
              (drive xor_provider xmlSecGnuTLSTransformAes128CbcId 1 steps)
          = ((-1)%Z,
             snd (run (xmlSecGnuTLSBlockCipherExecute xor_provider 1 (Some tt))
                      (drive xor_provider xmlSecGnuTLSTransformAes128CbcId 1 steps))))
    as Hrun by (vm_compute; reflexivity).
  split; [exact Hrun|].
  destruct (final_Execute_always_fails xor_provider xmlSecGnuTLSTransformAes128CbcId 1 steps
              1 (Some tt) (-1)%Z _ eq_refl Hrun) as (_ & _ & Hz & Hst & Hcalls & _).
  split; [exact Hz|]. split; [exact Hst | exact Hcalls].
Defined.

(** * Further properties of the klass methods *)

(** ** Initialize, Finalize, SetKeyReq and SetKey, path by path *)

Lemma Initialize_run (P : Provider) (m : Machine) (r : Z) (m' : Machine) :
  run (xmlSecGnuTLSBlockCipherInitialize P) m = (r, m') ->
  let id := t_id m in
  let opened := gcry_cipher_open P (klass_cipher id) GCRY_CIPHER_MODE_CBC in
  if xmlSecGnuTLSBlockCipherCheckId id then
    m' = set_errors
           (if nonnull opened then errors m
            else mkReport (xmlSecTransformGetName id) (fn "gcry_cipher_open")
                          XMLSEC_ERRORS_R_CRYPTO_FAILED XMLSEC_ERRORS_NO_MESSAGE :: errors m)
           (set_ctx (mkCtx (klass_cipher id) GCRY_CIPHER_MODE_CBC opened (klass_keyId id) 0 0) m)
    /\ r = (if nonnull opened then 0 else -1)%Z
  else
    m' = set_errors (assertion_report "xmlSecGnuTLSBlockCipherCheckId(transform)" :: errors m) m
    /\ r = (-1)%Z.
Proof.
  intros H; cbv zeta. exec_run H.
  all: unfold xmlSecTransformCheckSize in *; try congruence.
  all: destruct m as [id enc st ib ob ctx errs rd calls]; simpl in *; subst.
  all: try discriminate.
  all: simpl in *.
  all: repeat match goal with H : _ = _ |- _ => rewrite H end; simpl.
  all: try (split; reflexivity).
Qed.

Lemma Finalize_run (m : Machine) (r : Z) (m' : Machine) :
  run xmlSecGnuTLSBlockCipherFinalize m = (r, m') ->
  r = 0%Z
  /\ m' = if xmlSecGnuTLSBlockCipherCheckId (t_id m)
          then set_ctx zero_ctx m
          else set_errors
                 (assertion_report "xmlSecGnuTLSBlockCipherCheckId(transform)" :: errors m) m.
Proof.
  intros H. exec_run H.
  all: unfold xmlSecTransformCheckSize in *; try congruence.
  all: destruct m as [id enc st ib ob ctx errs rd calls]; simpl in *; subst.
  all: repeat match goal with H : _ = _ |- _ => rewrite H end; simpl.
  all: try (split; reflexivity).
Qed.

Lemma SetKeyReq_run (keyReq : option xmlSecKeyReq) (m : Machine)
    (r : Z) (req' : option xmlSecKeyReq) (m' : Machine) :
  xmlSecGnuTLSBlockCipherSetKeyReq keyReq m = (r, req', m') ->
  (r = 0%Z
   /\ xmlSecGnuTLSBlockCipherCheckId (t_id m) = true
   /\ nonnull keyReq = true /\ nonnull (keyId (t_ctx m)) = true
   /\ req' = Some (mkKeyReq (keyId (t_ctx m)) xmlSecKeyDataTypeSymmetric
                            (if truth (t_encode m) then xmlSecKeyUsageEncrypt
                             else xmlSecKeyUsageDecrypt))
   /\ m' = m)
  \/ (r = (-1)%Z
      /\ (xmlSecGnuTLSBlockCipherCheckId (t_id m) = false
          \/ nonnull keyReq = false \/ nonnull (keyId (t_ctx m)) = false)
      /\ req' = keyReq
      /\ exists expr, m' = set_errors (assertion_report expr :: errors m) m).
Proof.
  unfold xmlSecGnuTLSBlockCipherSetKeyReq. intros H.
  destruct (SetKeyReq_body keyReq m) as [o m1] eqn:E.
  unfold SetKeyReq_body in E. hide_strings E. ev E.
  all: unfold xmlSecTransformCheckSize in *; try congruence.
  all: cbv beta iota in H; injection H as <- <- <-.
  all: destruct m as [id enc st ib ob ctx errs rd calls]; simpl in *; subst.
  all: first [ left; repeat split; try done;
               repeat match goal with H : _ = _ |- _ => rewrite H end;
               try destruct (truth _); reflexivity
             | right; repeat split; auto; eexists; reflexivity ].
Qed.
Lemma SetKey_run (P : Provider) (key : option xmlSecKey) (m : Machine) (r : Z) (m' : Machine) :
  run (xmlSecGnuTLSBlockCipherSetKey P key) m = (r, m') ->
  (r = 0%Z /\ key_accepted P m key
   /\ exists k h buffer,
        key = Some k /\ cipherCtx (t_ctx m) = Some h /\ key_value k = Some buffer
        /\ m' = set_ctx (mkCtx (cipher (t_ctx m)) (mode (t_ctx m))
                               (Some (mkHandle (hd_algo h) (hd_mode h)
                                        (take (gcry_cipher_get_algo_keylen (cipher (t_ctx m)))
                                              (buf_data buffer))
                                        (hd_iv h)))
                               (keyId (t_ctx m)) 1 (ctxInitialized (t_ctx m))) m)
  \/ (r = (-1)%Z /\ ~ key_accepted P m key
      /\ exists e, m' = set_errors (e :: errors m) m).
Proof.
  intros H. exec_run H.
  all: unfold xmlSecTransformCheckSize in *; try congruence.
  all: destruct m as [id enc st ib ob ctx errs rd calls]; simpl in *; subst.
  all: try (right; split; [reflexivity|]; split; [|eexists; reflexivity];
            unfold key_accepted; simpl; intros (k & h & b & ? & ? & ? & ? & ? & ? & ? & ? & ? & ? & ?);
            tests; unfold xmlSecKeyCheckId, buf_capacity in *; tests; simplify_eq/=;
            first [done | lia | congruence]).
  all: try (left; split; [reflexivity|]; split;
            [ unfold key_accepted; simpl; do 3 eexists;
              tests; unfold xmlSecKeyCheckId, buf_capacity in *; tests; simplify_eq/=;
              repeat split; eauto; lia
            | do 3 eexists; repeat split; eauto;
              unfold set_ctx, set_keyInitialized, set_cipherCtx; simpl; congruence ]).
  exfalso. tests. destruct (cipher ctx); simpl in *; first [lia | congruence].
Qed.

(** ** Initialize *)

(** X1.  Initialize succeeds exactly for a transform of one of the four
    klasses whose cipher the provider can open.  For such a klass it leaves
    the context with the cipher and key data of the klass, CBC mode, the
    session [gcry_cipher_open] returned, and both flags zero, whatever the
    context held before; buffers and status are not touched, and a
    successful call files no report. *)
Theorem Initialize_selects_cipher (P : Provider) (m : Machine) :
  let id := t_id m in
  let result := run (xmlSecGnuTLSBlockCipherInitialize P) m in
  let m' := snd result in
  (fst result = 0%Z <->
     xmlSecGnuTLSBlockCipherCheckId id = true /\ cipher_available P (klass_cipher id) = true)
  /\ (fst result = 0%Z \/ fst result = (-1)%Z)
  /\ (xmlSecGnuTLSBlockCipherCheckId id = true ->
      t_ctx m' = mkCtx (klass_cipher id) GCRY_CIPHER_MODE_CBC
                       (gcry_cipher_open P (klass_cipher id) GCRY_CIPHER_MODE_CBC)
                       (klass_keyId id) 0 0)
  /\ (fst result = 0%Z ->
      errors m' = errors m
      /\ cipherCtx (t_ctx m') =
           Some (mkHandle (klass_cipher id) GCRY_CIPHER_MODE_CBC []
                          (replicate (gcry_cipher_get_algo_blklen (klass_cipher id)) x00))
      /\ keyInitialized (t_ctx m') = 0%Z /\ ctxInitialized (t_ctx m') = 0%Z)
  /\ t_status m' = t_status m /\ t_inBuf m' = t_inBuf m /\ t_outBuf m' = t_outBuf m
  /\ random_drawn m' = random_drawn m /\ gcry_calls m' = gcry_calls m.
Proof.
  cbv zeta.
  destruct (run (xmlSecGnuTLSBlockCipherInitialize P) m) as [r m'] eqn:H.
  apply Initialize_run in H. cbv zeta in H. simpl.
  unfold gcry_cipher_open in *.
  destruct (xmlSecGnuTLSBlockCipherCheckId (t_id m)) eqn:Hid;
    destruct (cipher_available P (klass_cipher (t_id m))) eqn:Hav;
    simpl in H; destruct H as [-> ->]; simpl.
  all: repeat split; intros; destruct_and?; try done; try congruence; auto.
Qed.

(** X2.  The ways Initialize fails: on a transform of another klass the
    entry assertion fails, and on a klass of this file the provider could not
    open the cipher.  Either way exactly one report is filed; the
    invalid-transform report of the last branch of the klass selection is
    never filed, since the entry assertion has refused every klass that would
    reach it. *)
Theorem Initialize_failure_reports (P : Provider) (m : Machine) :
  let id := t_id m in
  let result := run (xmlSecGnuTLSBlockCipherInitialize P) m in
  let m' := snd result in
  (fst result = (-1)%Z ->
   exists e,
     errors m' = e :: errors m
     /\ (xmlSecGnuTLSBlockCipherCheckId id = false
         /\ e = assertion_report "xmlSecGnuTLSBlockCipherCheckId(transform)"
         /\ t_ctx m' = t_ctx m
         \/ xmlSecGnuTLSBlockCipherCheckId id = true
            /\ cipher_available P (klass_cipher id) = false
            /\ e = mkReport (xmlSecTransformGetName id) (fn "gcry_cipher_open")
                            XMLSEC_ERRORS_R_CRYPTO_FAILED XMLSEC_ERRORS_NO_MESSAGE
            /\ cipherCtx (t_ctx m') = None /\ cipher (t_ctx m') = klass_cipher id))
  /\ Forall (fun e => errorReason e <> XMLSEC_ERRORS_R_INVALID_TRANSFORM)
            (take (length (errors m') - length (errors m)) (errors m')).
Proof.
  cbv zeta.
  destruct (run (xmlSecGnuTLSBlockCipherInitialize P) m) as [r m'] eqn:H.
  apply Initialize_run in H. cbv zeta in H. simpl.
  unfold gcry_cipher_open in *.
  destruct (xmlSecGnuTLSBlockCipherCheckId (t_id m)) eqn:Hid;
    destruct (cipher_available P (klass_cipher (t_id m))) eqn:Hav;
    simpl in H; destruct H as [-> ->]; simpl.
  all: rewrite ?Nat.sub_diag; simpl.
  all: try replace (S (length (errors m)) - length (errors m)) with 1 by lia; simpl.
  all: split; [intros; first [done | eexists; split; [reflexivity|]; auto 10]
              | rewrite ?take_0; repeat constructor; simpl; discriminate].
Qed.

(** Entry of Execute: the two assertions that come before anything else. *)
Lemma Execute_foreign_klass (P : Provider) (last : Z) (tctx : option xmlSecTransformCtx)
    (m : Machine) :
  xmlSecGnuTLSBlockCipherCheckId (t_id m) = false ->
  run (xmlSecGnuTLSBlockCipherExecute P last tctx) m
  = ((-1)%Z,
     set_errors (assertion_report "xmlSecGnuTLSBlockCipherCheckId(transform)" :: errors m) m).
Proof.
  intros Hid.
  destruct (run (xmlSecGnuTLSBlockCipherExecute P last tctx) m) as [r m'] eqn:H.
  exec_run H. reflexivity.
Qed.


(** X3.  A transform of another klass is refused by every method before
    anything is touched: each files the failed entry assertion and returns
    (-1 where it returns a value); context, buffers, status and the key
    request stay as they are. *)
Theorem foreign_transform_rejected (P : Provider) (m : Machine) (key : option xmlSecKey)
    (keyReq : option xmlSecKeyReq) (last : Z) (tctx : option xmlSecTransformCtx) :
  xmlSecGnuTLSBlockCipherCheckId (t_id m) = false ->
  let refused :=
    set_errors (assertion_report "xmlSecGnuTLSBlockCipherCheckId(transform)" :: errors m) m in
  run (xmlSecGnuTLSBlockCipherInitialize P) m = ((-1)%Z, refused)
  /\ snd (run xmlSecGnuTLSBlockCipherFinalize m) = refused
  /\ xmlSecGnuTLSBlockCipherSetKeyReq keyReq m = ((-1)%Z, keyReq, refused)
  /\ run (xmlSecGnuTLSBlockCipherSetKey P key) m = ((-1)%Z, refused)
  /\ run (xmlSecGnuTLSBlockCipherExecute P last tctx) m = ((-1)%Z, refused).
Proof.
  intros Hid; cbv zeta.
  split.
  { destruct (run (xmlSecGnuTLSBlockCipherInitialize P) m) as [r m'] eqn:H.
    apply Initialize_run in H. cbv zeta in H. rewrite Hid in H. destruct H as [-> ->].
    reflexivity. }
  split.
  { destruct (run xmlSecGnuTLSBlockCipherFinalize m) as [r m'] eqn:H.
    apply Finalize_run in H. rewrite Hid in H. destruct H as [-> ->]. reflexivity. }
  split.
  { destruct (xmlSecGnuTLSBlockCipherSetKeyReq keyReq m) as [[r req'] m'] eqn:H.
    unfold xmlSecGnuTLSBlockCipherSetKeyReq in H.
    destruct (SetKeyReq_body keyReq m) as [o m1] eqn:E.
    unfold SetKeyReq_body in E. hide_strings E. ev E.
    cbv beta iota in H. injection H as <- <- <-. reflexivity. }
  split.
  { destruct (run (xmlSecGnuTLSBlockCipherSetKey P key) m) as [r m'] eqn:H.
    exec_run H. reflexivity. }
  apply Execute_foreign_klass, Hid.
Qed.

(** ** SetKeyReq *)

(** X4.  SetKeyReq succeeds exactly for a transform of this file's klasses
    with a key data id in its context, called with a request to fill in.  It
    then asks for a symmetric key of the context's key data, for encryption
    when the transform encodes and for decryption otherwise, and leaves the
    transform alone.  Otherwise it returns -1, files the failed assertion and
    leaves the request as it was. *)
Theorem SetKeyReq_fills_request (keyReq : option xmlSecKeyReq) (m : Machine) :
  let result := xmlSecGnuTLSBlockCipherSetKeyReq keyReq m in
  let r := fst (fst result) in
  let req' := snd (fst result) in
  let m' := snd result in
  (r = 0%Z <->
     xmlSecGnuTLSBlockCipherCheckId (t_id m) = true
     /\ nonnull keyReq = true /\ nonnull (keyId (t_ctx m)) = true)
  /\ (r = 0%Z ->
      req' = Some (mkKeyReq (keyId (t_ctx m)) xmlSecKeyDataTypeSymmetric
                            (if truth (t_encode m) then xmlSecKeyUsageEncrypt
                             else xmlSecKeyUsageDecrypt))
      /\ m' = m)
  /\ (r <> 0%Z ->
      r = (-1)%Z /\ req' = keyReq
      /\ exists expr, m' = set_errors (assertion_report expr :: errors m) m).
Proof.
  cbv zeta.
  destruct (xmlSecGnuTLSBlockCipherSetKeyReq keyReq m) as [[r req'] m'] eqn:H.
  apply SetKeyReq_run in H. simpl.
  destruct H as [(-> & Hid & Hreq & Hk & -> & ->)|(-> & Hbad & -> & expr & ->)].
  - repeat split; auto; congruence.
  - split; [split; [discriminate|] | split; [discriminate|auto]].
    + intros (? & ? & ?). destruct Hbad as [?|[?|?]]; congruence.
    + intros _. repeat split. eauto.
Qed.

(** ** SetKey *)

(** X5.  SetKey loads a key exactly when all of this holds: the transform is
    of this file's klasses, has an open session and a cipher, has no key yet,
    the key is of the key data the context names, its value is a buffer of at
    least the key length of the cipher, and the provider takes its leading
    bytes.  A refused key costs one report and changes nothing else. *)
Theorem SetKey_accepts_exactly (P : Provider) (key : option xmlSecKey) (m : Machine) :
  let result := run (xmlSecGnuTLSBlockCipherSetKey P key) m in
  (fst result = 0%Z <-> key_accepted P m key)
  /\ (fst result = 0%Z \/ fst result = (-1)%Z)
  /\ (fst result <> 0%Z -> exists e, snd result = set_errors (e :: errors m) m).
Proof.
  cbv zeta.
  destruct (run (xmlSecGnuTLSBlockCipherSetKey P key) m) as [r m'] eqn:H.
  apply SetKey_run in H. simpl.
  destruct H as [(-> & Hok & _)|(-> & Hno & e & ->)].
  - repeat split; auto. congruence.
  - repeat split; auto; try done. eauto.
Qed.

(** X6.  A key that SetKey has loaded: the session holds the first
    [keySize] bytes of the key buffer, [keySize] being the key length of the
    cipher, and the key flag is 1; the chaining value of the session, the
    framing flag, the buffers and the status are as before.  Bytes of the key
    buffer behind [keySize] play no part: another key of the same key data
    that agrees on the first [keySize] bytes gives the very same transform. *)
Theorem SetKey_loads_key_prefix (P : Provider) (k : xmlSecKey) (buffer : xmlSecBuffer)
    (m m' : Machine) :
  key_value k = Some buffer ->
  run (xmlSecGnuTLSBlockCipherSetKey P (Some k)) m = (0%Z, m') ->
  let keySize := gcry_cipher_get_algo_keylen (cipher (t_ctx m)) in
  (exists h,
      cipherCtx (t_ctx m) = Some h
      /\ cipherCtx (t_ctx m') =
           Some (mkHandle (hd_algo h) (hd_mode h) (take keySize (buf_data buffer)) (hd_iv h)))
  /\ keyInitialized (t_ctx m') = 1%Z
  /\ keySize <= buf_size buffer
  /\ (buf_wf buffer -> length (take keySize (buf_data buffer)) = keySize
                       /\ take keySize (buf_data buffer) = take keySize (buf_bytes buffer))
  /\ (cipher (t_ctx m') = cipher (t_ctx m) /\ mode (t_ctx m') = mode (t_ctx m)
      /\ keyId (t_ctx m') = keyId (t_ctx m)
      /\ ctxInitialized (t_ctx m') = ctxInitialized (t_ctx m))
  /\ (t_status m' = t_status m /\ t_inBuf m' = t_inBuf m /\ t_outBuf m' = t_outBuf m
      /\ errors m' = errors m)
  /\ (forall k2 buffer2,
         key_id k2 = key_id k -> key_value k2 = Some buffer2 ->
         keySize <= buf_size buffer2 -> 0 < buf_capacity buffer2 ->
         take keySize (buf_data buffer2) = take keySize (buf_data buffer) ->
         run (xmlSecGnuTLSBlockCipherSetKey P (Some k2)) m = (0%Z, m')).
Proof.
  intros Hv H; cbv zeta.
  pose proof (SetKey_run P (Some k) m 0%Z m' H) as [(_ & Hok & k0 & h & b & Hk & Hh & Hb & ->)|(? & _)];
    [|discriminate].
  injection Hk as <-. rewrite Hv in Hb. injection Hb as <-.
  destruct Hok as (k1 & h1 & b1 & Hk1 & Hh1 & Hb1 & Hid & Hc & Hki & Hkid & Hsz & Hcap & Hlen & Href).
  injection Hk1 as <-. rewrite Hv in Hb1. injection Hb1 as <-.
  rewrite Hh in Hh1. injection Hh1 as <-.
  simpl. split; [eauto|]. split; [reflexivity|]. split; [exact Hsz|].
  split.
  { unfold buf_wf, buf_bytes. intros Hwf. split.
    - rewrite length_take. lia.
    - rewrite take_take. f_equal. lia. }
  split; [auto|]. split; [auto|].
  intros k2 b2 Hid2 Hv2 Hsz2 Hcap2 Hpre.
  destruct (run (xmlSecGnuTLSBlockCipherSetKey P (Some k2)) m) as [r2 m2] eqn:H2.
  pose proof (SetKey_run P (Some k2) m r2 m2 H2)
    as [(-> & _ & k0 & h0 & b0 & Hk0 & Hh0 & Hb0 & ->)|(_ & Hno & _)].
  - injection Hk0 as <-. rewrite Hv2 in Hb0. injection Hb0 as <-.
    rewrite Hh in Hh0. injection Hh0 as <-. rewrite Hpre. reflexivity.
  - destruct Hno. exists k2, h, b2. cbv zeta. rewrite Hpre, Hid2. auto 12.
Qed.

(** X7.  The key of a transform is set once: after a successful SetKey a
    second SetKey, with whatever key, returns -1 and leaves the context, the
    loaded key included, as it is. *)
Theorem SetKey_only_once (P : Provider) (key key2 : option xmlSecKey) (m m1 : Machine) :
  run (xmlSecGnuTLSBlockCipherSetKey P key) m = (0%Z, m1) ->
  let result := run (xmlSecGnuTLSBlockCipherSetKey P key2) m1 in
  fst result = (-1)%Z
  /\ t_ctx (snd result) = t_ctx m1
  /\ keyInitialized (t_ctx m1) = 1%Z
  /\ exists e, snd result = set_errors (e :: errors m1) m1.
Proof.
  intros H; cbv zeta.
  pose proof (SetKey_run P key m 0%Z m1 H) as [(_ & _ & k0 & h & b & _ & _ & _ & Hm1)|(? & _)];
    [|discriminate].
  assert (keyInitialized (t_ctx m1) = 1%Z) as Hone by (rewrite Hm1; reflexivity).
  destruct (run (xmlSecGnuTLSBlockCipherSetKey P key2) m1) as [r2 m2] eqn:H2.
  pose proof (SetKey_run P key2 m1 r2 m2 H2) as [(_ & Hok & _)|(-> & _ & e & ->)].
  - destruct Hok as (? & ? & ? & _ & _ & _ & _ & _ & Hz & _). rewrite Hone in Hz. discriminate.
  - simpl. repeat split; eauto.
Qed.

(** X8.  The set-up of a transform, Initialize, SetKeyReq, SetKey in this
    order.  After a successful Initialize, SetKeyReq asks for a symmetric key
    of the key data of the klass (DES for the 3DES klass, AES for the three
    AES klasses), and SetKey takes a key with a value exactly when the key is
    of the key data asked for, has at least the key length of the klass's
    cipher, and the provider does not refuse its leading bytes. *)
Theorem setup_protocol (P : Provider) (m : Machine) (req : xmlSecKeyReq) (k : xmlSecKey)
    (buffer : xmlSecBuffer) :
  let id := t_id m in
  let m1 := snd (run (xmlSecGnuTLSBlockCipherInitialize P) m) in
  let keySize := gcry_cipher_get_algo_keylen (klass_cipher id) in
  fst (run (xmlSecGnuTLSBlockCipherInitialize P) m) = 0%Z ->
  key_value k = Some buffer ->
  xmlSecGnuTLSBlockCipherSetKeyReq (Some req) m1
  = (0%Z,
     Some (mkKeyReq (klass_keyId id) xmlSecKeyDataTypeSymmetric
                    (if truth (t_encode m) then xmlSecKeyUsageEncrypt
                     else xmlSecKeyUsageDecrypt)),
     m1)
  /\ (fst (run (xmlSecGnuTLSBlockCipherSetKey P (Some k)) m1) = 0%Z <->
        Some (key_id k) = klass_keyId id
        /\ keySize <= buf_size buffer /\ 0 < buf_capacity buffer
        /\ key_refused P (klass_cipher id) (take keySize (buf_data buffer)) = false).
Proof.
  cbv zeta. intros H0 Hv.
  destruct (run (xmlSecGnuTLSBlockCipherInitialize P) m) as [r m1] eqn:H.
  simpl in H0. subst r. simpl.
  apply Initialize_run in H. cbv zeta in H.
  destruct (xmlSecGnuTLSBlockCipherCheckId (t_id m)) eqn:Hid; [|destruct H; discriminate].
  unfold gcry_cipher_open in H.
  destruct (cipher_available P (klass_cipher (t_id m))) eqn:Hav; simpl in H;
    [|destruct H; discriminate].
  destruct H as [-> _].
  assert (klass_keyId (t_id m) <> None /\ klass_cipher (t_id m) <> GCRY_CIPHER_NONE)
    as [Hkid Hc] by (destruct (t_id m); simpl in *; split; congruence).
  split.
  - destruct (xmlSecGnuTLSBlockCipherSetKeyReq (Some req) _) as [[r req'] m'] eqn:H.
    apply SetKeyReq_run in H. simpl in H.
    destruct H as [(-> & _ & _ & _ & -> & ->)|(_ & Hbad & _)]; [reflexivity|].
    destruct Hbad as [?|[?|?]]; try congruence.
    destruct (klass_keyId (t_id m)); simpl in *; congruence.
  - destruct (run (xmlSecGnuTLSBlockCipherSetKey P (Some k)) _) as [r2 m2] eqn:H2.
    apply SetKey_run in H2. simpl.
    destruct H2 as [(-> & Hok & _)|(-> & Hno & _)].
    + destruct Hok as (k1 & h1 & b1 & Hk1 & Hh1 & Hb1 & _ & _ & _ & Hkid1 & Hsz & Hcap & _ & Href).
      simpl in *. injection Hk1 as <-. rewrite Hv in Hb1. injection Hb1 as <-.
      injection Hh1 as <-. simpl in *. split; [|reflexivity]. intros _. auto.
    + split; [discriminate|]. intros (Hk & Hsz & Hcap & Href). destruct Hno.
      unfold key_accepted. simpl. do 3 eexists.
      split; [reflexivity|]. split; [reflexivity|]. split; [exact Hv|].
      simpl. auto 12.
Qed.

(** ** A transform that is not set up *)

(** Init with one of its entry assertions failing. *)
Lemma Init_asserts (P : Provider) (encrypt : Z) (name : option string)
    (tctx : option xmlSecTransformCtx) (m : Machine) (r : Z) (m' : Machine) :
  run (xmlSecGnuTLSBlockCipherCtxInit P encrypt name tctx) m = (r, m') ->
  cipher (t_ctx m) = GCRY_CIPHER_NONE \/ cipherCtx (t_ctx m) = None
  \/ keyInitialized (t_ctx m) = 0%Z \/ ctxInitialized (t_ctx m) <> 0%Z \/ tctx = None ->
  r = (-1)%Z /\ exists expr, m' = set_errors (assertion_report expr :: errors m) m.
Proof.
  intros H Hbad. exec_run H.
  all: try (split; [reflexivity | eexists; reflexivity]).
  all: exfalso; tests; destruct Hbad as [?|[?|[?|[?|?]]]]; subst; simpl in *; congruence.
Qed.

(** Execute on a transform that is short of a cipher, a session or a key. *)
Lemma Execute_not_set_up (P : Provider) (last : Z) (tctx : option xmlSecTransformCtx)
    (m : Machine) (r : Z) (m' : Machine) :
  run (xmlSecGnuTLSBlockCipherExecute P last tctx) m = (r, m') ->
  xmlSecGnuTLSBlockCipherCheckId (t_id m) = true ->
  nonnull tctx = true ->
  t_status m = xmlSecTransformStatusNone \/ t_status m = xmlSecTransformStatusWorking ->
  ctxInitialized (t_ctx m) = 0%Z ->
  cipher (t_ctx m) = GCRY_CIPHER_NONE \/ cipherCtx (t_ctx m) = None
  \/ keyInitialized (t_ctx m) = 0%Z ->
  r = (-1)%Z
  /\ exists expr,
       m' = set_errors (Init_failed_report (t_id m) :: assertion_report expr :: errors m)
                       (set_status xmlSecTransformStatusWorking m).
Proof.
  intros H Hid Htctx Hst Hz Hbad.
  assert ((ctxInitialized (t_ctx m) =? 0)%Z = true) as Hz' by (rewrite Hz; reflexivity).
  exec_run H.
  all: unfold xmlSecTransformCheckSize in *; try congruence.
  all: try (exfalso; destruct Hst; congruence).
  all: try match goal with
       | E : run (xmlSecGnuTLSBlockCipherCtxInit _ _ _ _) _ = _ |- _ =>
           apply Init_asserts in E; [|simpl; tauto]; destruct E as (-> & expr & ->)
       end.
  all: try (exfalso; simpl in *; tests; first [congruence | lia | destruct Hst; congruence]).
  all: split; [reflexivity|]; exists expr.
  all: destruct m as [id enc st ib ob ctx errs rd calls]; simpl in *.
  all: destruct Hst; subst; simpl in *;
       first [reflexivity | done | exfalso; tests; congruence].
Qed.

(** X9.  Execute before the transform is set up.  On a transform of this
    file's klasses whose context lacks a cipher, a session or a key (never
    initialized, finalized, or SetKey not yet called), every Execute call,
    final or not, returns -1: the Init phase fails on its entry assertion and
    Execute reports the failed Init.  The buffers and the context are left as
    they are; only the status has moved to Working. *)
Theorem Execute_needs_setup (P : Provider) (last : Z) (tctx : option xmlSecTransformCtx)
    (m : Machine) :
  xmlSecGnuTLSBlockCipherCheckId (t_id m) = true ->
  nonnull tctx = true ->
  t_status m = xmlSecTransformStatusNone \/ t_status m = xmlSecTransformStatusWorking ->
  ctxInitialized (t_ctx m) = 0%Z ->
  cipher (t_ctx m) = GCRY_CIPHER_NONE \/ cipherCtx (t_ctx m) = None
  \/ keyInitialized (t_ctx m) = 0%Z ->
  let result := run (xmlSecGnuTLSBlockCipherExecute P last tctx) m in
  let m' := snd result in
  fst result = (-1)%Z
  /\ (exists expr,
        errors m' = Init_failed_report (t_id m) :: assertion_report expr :: errors m)
  /\ t_inBuf m' = t_inBuf m /\ t_outBuf m' = t_outBuf m /\ t_ctx m' = t_ctx m
  /\ t_status m' = xmlSecTransformStatusWorking
  /\ random_drawn m' = random_drawn m /\ gcry_calls m' = gcry_calls m.
Proof.
  intros Hid Htctx Hst Hz Hbad; cbv zeta.
  destruct (run (xmlSecGnuTLSBlockCipherExecute P last tctx) m) as [r m'] eqn:H.
  destruct (Execute_not_set_up P last tctx m r m' H Hid Htctx Hst Hz Hbad) as (-> & expr & ->).
  simpl. repeat split. eauto.
Qed.

(** ** Finalize *)


(** * Further properties of the phases and of Execute *)

Lemma session_kept_refl (o : option gcry_cipher_handle) : session_kept o o.
Proof. destruct o; simpl; auto. Qed.

Lemma session_kept_trans (a b c : option gcry_cipher_handle) :
  session_kept a b -> session_kept b c -> session_kept a c.
Proof.
  destruct a, b, c; simpl; try tauto. intros (? & ? & ?) (? & ? & ?).
  repeat split; congruence.
Qed.

(** What no phase touches, and what each leaves of the traces. *)
Lemma Init_frame (P : Provider) encrypt name tctx m r m' :
  run (xmlSecGnuTLSBlockCipherCtxInit P encrypt name tctx) m = (r, m') ->
  (mode (t_ctx m') = mode (t_ctx m) /\ keyId (t_ctx m') = keyId (t_ctx m)
   /\ keyInitialized (t_ctx m') = keyInitialized (t_ctx m)
   /\ session_kept (cipherCtx (t_ctx m)) (cipherCtx (t_ctx m')))
  /\ (r = (-1)%Z -> exists e rest, errors m' = e :: rest ++ errors m)
  /\ (buf_size (t_inBuf m') <= buf_size (t_inBuf m)
      /\ buf_size (t_outBuf m) <= buf_size (t_outBuf m'))
  /\ (truth encrypt = false -> random_drawn m' = random_drawn m /\ t_outBuf m' = t_outBuf m)
  /\ (truth encrypt = true -> t_inBuf m' = t_inBuf m)
  /\ (r = 0%Z -> truth encrypt = true ->
      random_drawn m' =
        random_drawn m + gcry_cipher_get_algo_blklen (cipher (t_ctx m))).
Proof.
  intros H. exec_run H. all: tests; sizes.
  all: simpl; rewrite ?buf_remove_head_size.
  all: repeat match goal with H : cipherCtx _ = _ |- _ => rewrite H end; simpl.
  all: repeat split; intros; try done; try lia; auto.
  all: try (eexists; eexists []; reflexivity).
  all: try (eexists; eexists [_]; reflexivity).
  all: apply session_kept_refl.
Qed.

Lemma Update_frame (P : Provider) encrypt name tctx m r m' :
  run (xmlSecGnuTLSBlockCipherCtxUpdate P encrypt name tctx) m = (r, m') ->
  (mode (t_ctx m') = mode (t_ctx m) /\ keyId (t_ctx m') = keyId (t_ctx m)
   /\ keyInitialized (t_ctx m') = keyInitialized (t_ctx m)
   /\ session_kept (cipherCtx (t_ctx m)) (cipherCtx (t_ctx m')))
  /\ (r = 0%Z -> errors m' = errors m)
  /\ (r = (-1)%Z -> exists e rest, errors m' = e :: rest ++ errors m)
  /\ (buf_size (t_inBuf m') <= buf_size (t_inBuf m)
      /\ buf_size (t_outBuf m) <= buf_size (t_outBuf m'))
  /\ random_drawn m' = random_drawn m.
Proof.
  intros H. exec_run H. all: tests; sizes.
  all: simpl; rewrite ?buf_remove_head_size.
  all: repeat match goal with H : cipherCtx _ = _ |- _ => rewrite H end; simpl.
  all: repeat split; intros; try done; try lia; auto.
  all: try (eexists; eexists []; reflexivity).
  all: try (eexists; eexists [_]; reflexivity).
  all: try apply session_kept_refl.
Qed.

Lemma Final_frame (P : Provider) encrypt name tctx m r m' :
  run (xmlSecGnuTLSBlockCipherCtxFinal P encrypt name tctx) m = (r, m') ->
  (mode (t_ctx m') = mode (t_ctx m) /\ keyId (t_ctx m') = keyId (t_ctx m)
   /\ keyInitialized (t_ctx m') = keyInitialized (t_ctx m)
   /\ session_kept (cipherCtx (t_ctx m)) (cipherCtx (t_ctx m')))
  /\ (r = 0%Z -> errors m' = errors m)
  /\ (r = (-1)%Z -> exists e rest, errors m' = e :: rest ++ errors m)
  /\ (buf_size (t_inBuf m') <= buf_size (t_inBuf m)
      /\ buf_size (t_outBuf m) <= buf_size (t_outBuf m'))
  /\ (truth encrypt = false -> random_drawn m' = random_drawn m).
Proof.
  intros H. unfold Final_set_size_remove_head in H.
  exec_run H. all: tests; fits; sizes.
  all: simpl; rewrite ?buf_remove_head_size.
  all: repeat match goal with H : cipherCtx _ = _ |- _ => rewrite H end; simpl.
  all: repeat split; intros; try done; try lia; auto.
  all: try (eexists; eexists []; reflexivity).
  all: try (eexists; eexists [_]; reflexivity).
  all: try apply session_kept_refl.
Qed.

(** Bring in everything known about the phases a path has called. *)
Ltac phases_all :=
  repeat match goal with
  | E : run (xmlSecGnuTLSBlockCipherCtxInit _ _ _ _) _ = _ |- _ =>
      pose proof (Init_frame _ _ _ _ _ _ _ E);
      apply Init_effect in E; cbv zeta in E; simpl in E
  | E : run (xmlSecGnuTLSBlockCipherCtxUpdate _ _ _ _) _ = _ |- _ =>
      pose proof (Update_frame _ _ _ _ _ _ _ E);
      apply Update_effect in E; cbv zeta in E; simpl in E
  | E : run (xmlSecGnuTLSBlockCipherCtxFinal _ _ _ _) _ = _ |- _ =>
      pose proof (Final_frame _ _ _ _ _ _ _ E);
      apply Final_effect in E; cbv zeta in E; simpl in E
  end;
  simpl in *; destruct_and?.

(** A goal about the reports on top of the old ones. *)
Ltac reports :=
  repeat match goal with H : exists _, _ |- _ => destruct H end;
  repeat match goal with H : errors _ = _ |- _ => progress rewrite H end;
  first [ by eexists; eexists []
        | by eexists; eexists [_]
        | by eexists; eexists (_ :: _)
        | by eexists; eexists (_ :: _ :: _) ].

Lemma Execute_frame (P : Provider) last tctx m r m' :
  run (xmlSecGnuTLSBlockCipherExecute P last tctx) m = (r, m') ->
  (mode (t_ctx m') = mode (t_ctx m) /\ keyId (t_ctx m') = keyId (t_ctx m)
   /\ keyInitialized (t_ctx m') = keyInitialized (t_ctx m)
   /\ session_kept (cipherCtx (t_ctx m)) (cipherCtx (t_ctx m')))
  /\ (r = 0%Z -> errors m' = errors m)
  /\ (r = (-1)%Z -> exists e rest, errors m' = e :: rest ++ errors m)
  /\ (buf_size (t_inBuf m') <= buf_size (t_inBuf m)
      /\ buf_size (t_outBuf m) <= buf_size (t_outBuf m'))
  /\ (truth (t_encode m) = false -> random_drawn m' = random_drawn m).
Proof.
  intros H. exec_run H.
  all: phases_all.
  all: unfold xmlSecTransformCheckSize in *; try congruence.
  all: tests; retcodes.
  all: repeat split; intros; try done; try congruence; try lia;
       eauto using session_kept_refl, session_kept_trans.
  all: reports.
Qed.

(** ** Execute and the status of the transform *)

(** X11.  A transform entered with status None is run exactly as one entered
    with status Working: Execute moves None to Working before it looks at the
    status, so its later branch for status None, with the assertion that
    [last] be zero, is never taken. *)
Theorem Execute_None_is_Working (P : Provider) (last : Z) (tctx : option xmlSecTransformCtx)
    (m : Machine) :
  t_status m = xmlSecTransformStatusNone ->
  xmlSecGnuTLSBlockCipherCheckId (t_id m) = true ->
  nonnull tctx = true ->
  run (xmlSecGnuTLSBlockCipherExecute P last tctx) m
  = run (xmlSecGnuTLSBlockCipherExecute P last tctx)
        (set_status xmlSecTransformStatusWorking m).
Proof.
  intros Hst Hid Htctx.
  destruct m as [id enc st ib ob ctx errs rd calls]; simpl in *; subst.
  destruct tctx as [c|]; [|discriminate].
  destruct id; try discriminate; reflexivity.
Qed.

(** X12.  Execute on a transform that is past its work.  With status
    Finished it only checks that no input is left: it returns 0 and changes
    nothing when the input is empty, and fails the assertion otherwise.  With
    a status it does not know it reports the invalid status.  In neither case
    is a buffer, the context or the status touched. *)
Theorem Execute_outside_Working (P : Provider) (last : Z) (tctx : option xmlSecTransformCtx)
    (m : Machine) :
  xmlSecGnuTLSBlockCipherCheckId (t_id m) = true ->
  nonnull tctx = true ->
  (t_status m = xmlSecTransformStatusFinished ->
   run (xmlSecGnuTLSBlockCipherExecute P last tctx) m
   = if bool_decide (buf_size (t_inBuf m) = 0) then (0%Z, m)
     else ((-1)%Z,
           set_errors (assertion_report "xmlSecBufferGetSize(in) == 0" :: errors m) m))
  /\ (t_status m = xmlSecTransformStatusOther ->
      run (xmlSecGnuTLSBlockCipherExecute P last tctx) m
      = ((-1)%Z,
         set_errors (mkReport (xmlSecTransformGetName (t_id m)) None
                              XMLSEC_ERRORS_R_INVALID_STATUS "status=%d" :: errors m) m)).
Proof.
  intros Hid Htctx.
  destruct tctx as [c|]; [|discriminate].
  split; intros Hst.
  - destruct (run (xmlSecGnuTLSBlockCipherExecute P last (Some c)) m) as [r m'] eqn:H.
    exec_run H.
    all: unfold xmlSecTransformCheckSize in *; try congruence.
    all: tests; try congruence.
    all: reflexivity.
  - destruct m as [id enc st ib ob ctx errs rd calls]; simpl in *; subst.
    destruct id; try discriminate; reflexivity.
Qed.

(** ** What Execute never does *)

(** X13.  Execute never changes the key material of a transform: cipher,
    mode, key data id and key flag of the context are as before, a session
    stays a session for the same algorithm and mode under the same key (only
    its chaining value may move), and a missing session stays missing.  Klass
    and direction of the transform are not touched either. *)
Theorem Execute_keeps_key (P : Provider) (last : Z) (tctx : option xmlSecTransformCtx)
    (m : Machine) :
  let m' := snd (run (xmlSecGnuTLSBlockCipherExecute P last tctx) m) in
  t_id m' = t_id m /\ t_encode m' = t_encode m
  /\ cipher (t_ctx m') = cipher (t_ctx m) /\ mode (t_ctx m') = mode (t_ctx m)
  /\ keyId (t_ctx m') = keyId (t_ctx m)
  /\ keyInitialized (t_ctx m') = keyInitialized (t_ctx m)
  /\ session_kept (cipherCtx (t_ctx m)) (cipherCtx (t_ctx m')).
Proof.
  cbv zeta.
  destruct (run (xmlSecGnuTLSBlockCipherExecute P last tctx) m) as [r m'] eqn:H.
  pose proof (Execute_frame P last tctx m r m' H) as ((Hm & Hk & Hki & Hs) & _).
  apply Execute_effect in H. destruct H as ((Hid & Henc & Hc) & _). simpl.
  repeat split; auto.
Qed.

(** X14.  Execute reports every failure and nothing else: it returns 0 or
    -1; a call that returns 0 has filed no report; a call that returns -1 has
    put at least one report on top of those that were there. *)
Theorem Execute_reports_iff_fails (P : Provider) (last : Z)
    (tctx : option xmlSecTransformCtx) (m : Machine) :
  let result := run (xmlSecGnuTLSBlockCipherExecute P last tctx) m in
  (fst result = 0%Z \/ fst result = (-1)%Z)
  /\ (fst result = 0%Z <-> errors (snd result) = errors m)
  /\ (fst result = (-1)%Z <->
      exists e rest, errors (snd result) = e :: rest ++ errors m).
Proof.
  cbv zeta.
  destruct (run (xmlSecGnuTLSBlockCipherExecute P last tctx) m) as [r m'] eqn:H.
  pose proof (Execute_frame P last tctx m r m' H) as (_ & H0 & H1 & _).
  apply Execute_effect in H. destruct H as (_ & Hr & _). simpl.
  assert (forall (e : xmlSecErrorReport) rest l, l <> e :: rest ++ l) as Hne.
  { intros e rest l Heq. apply (f_equal length) in Heq.
    simpl in Heq. rewrite length_app in Heq. lia. }
  split; [exact Hr|]. split; split; auto.
  - intros He. destruct Hr as [->| ->]; [reflexivity|].
    destruct (H1 eq_refl) as (e & rest & He'). rewrite He in He'.
    destruct (Hne _ _ _ He').
  - intros (e & rest & He). destruct Hr as [->| ->]; [|reflexivity].
    rewrite (H0 eq_refl) in He. destruct (Hne _ _ _ He).
Qed.

(** X15.  Execute moves bytes one way only: whether it succeeds or fails, the
    input buffer is no longer and the output buffer no shorter after the
    call than before.  In decrypt direction it draws no random bytes. *)
Theorem Execute_buffers_monotone (P : Provider) (last : Z)
    (tctx : option xmlSecTransformCtx) (m : Machine) :
  let m' := snd (run (xmlSecGnuTLSBlockCipherExecute P last tctx) m) in
  buf_size (t_inBuf m') <= buf_size (t_inBuf m)
  /\ buf_size (t_outBuf m) <= buf_size (t_outBuf m')
  /\ (truth (t_encode m) = false -> random_drawn m' = random_drawn m).
Proof.
  cbv zeta.
  destruct (run (xmlSecGnuTLSBlockCipherExecute P last tctx) m) as [r m'] eqn:H.
  pose proof (Execute_frame P last tctx m r m' H) as (_ & _ & _ & (Hin & Hout) & Hrd).
  simpl. auto.
Qed.

(** * The bytes the phases move *)

(** ** Memory and buffers *)

Lemma mem_write_inside (off : nat) (bytes mem : list byte) :
  off + length bytes <= length mem ->
  mem_write off bytes mem = take off mem ++ bytes ++ drop (off + length bytes) mem.
Proof.
  intros Hlen. unfold mem_write. apply take_ge.
  rewrite !length_app, length_take, length_drop. lia.
Qed.

Lemma take_mem_write (off n : nat) (bytes mem : list byte) :
  length bytes = n -> off + n <= length mem ->
  take (off + n) (mem_write off bytes mem) = take off mem ++ bytes.
Proof.
  intros <- Hlen. rewrite mem_write_inside by exact Hlen.
  rewrite app_assoc. apply take_app_length'.
  rewrite length_app, length_take. lia.
Qed.

Lemma take_mem_write_before (k off : nat) (bytes mem : list byte) :
  k <= off -> off + length bytes <= length mem ->
  take k (mem_write off bytes mem) = take k mem.
Proof.
  intros Hk Hlen. rewrite mem_write_inside by exact Hlen.
  rewrite take_app_le by (rewrite length_take; lia).
  rewrite take_take. f_equal. lia.
Qed.

Lemma mem_read_mem_write (off n : nat) (bytes mem : list byte) :
  length bytes = n -> off + n <= length mem ->
  mem_read off n (mem_write off bytes mem) = bytes.
Proof.
  intros <- Hlen. unfold mem_read. rewrite mem_write_inside by exact Hlen.
  rewrite drop_app_length' by (rewrite length_take; lia).
  apply take_app_length.
Qed.

Lemma mem_read_0 (n : nat) (mem : list byte) : mem_read 0 n mem = take n mem.
Proof. reflexivity. Qed.

(** Growing a buffer keeps its storage as a prefix of the new one. *)
Lemma buf_reserve_data al n b b' :
  buf_reserve al n b = Some b' -> exists ext, buf_data b' = buf_data b ++ ext.
Proof.
  unfold buf_reserve. case_decide.
  - intros [= <-]. exists []. rewrite app_nil_r. reflexivity.
  - destruct (alloc_ok al _); [|discriminate]. intros [= <-]. simpl. eauto.
Qed.

Lemma buf_set_size_data al n b b' :
  buf_set_size al n b = Some b' ->
  buf_size b' = n /\ n <= length (buf_data b')
  /\ exists ext, buf_data b' = buf_data b ++ ext.
Proof.
  unfold buf_set_size. destruct (buf_reserve al n b) as [b1|] eqn:E; [|discriminate].
  intros [= <-]. simpl. split; [reflexivity|]. split.
  - eapply buf_reserve_capacity, E.
  - eapply buf_reserve_data, E.
Qed.

Lemma buf_remove_head_wf n b : buf_wf b -> buf_wf (buf_remove_head n b).
Proof.
  intros Hwf. unfold buf_wf. rewrite buf_remove_head_capacity by exact Hwf.
  rewrite buf_remove_head_size. unfold buf_wf in Hwf. lia.
Qed.

Lemma length_random (P : Provider) (from n : nat) :
  length (map (random_byte P) (seq from n)) = n.
Proof. rewrite length_map, length_seq. reflexivity. Qed.

(** ** Init *)

(** Init in encrypt direction: the IV. *)
Lemma Init_encrypt_bytes (P : Provider) encrypt name tctx m m' :
  run (xmlSecGnuTLSBlockCipherCtxInit P encrypt name tctx) m = (0%Z, m') ->
  truth encrypt = true ->
  buf_wf (t_outBuf m) ->
  let B := gcry_cipher_get_algo_blklen (cipher (t_ctx m)) in
  let iv := map (random_byte P) (seq (random_drawn m) B) in
  buf_bytes (t_outBuf m') = buf_bytes (t_outBuf m) ++ iv
  /\ buf_wf (t_outBuf m')
  /\ exists h,
       cipherCtx (t_ctx m) = Some h
       /\ t_ctx m' = mkCtx (cipher (t_ctx m)) (mode (t_ctx m))
                           (Some (mkHandle (hd_algo h) (hd_mode h) (hd_key h) iv))
                           (keyId (t_ctx m)) (keyInitialized (t_ctx m)) 0.
Proof.
  intros H Henc Hwf; cbv zeta.
  remember 0%Z as r eqn:Hr in H.
  exec_run H.
  all: try discriminate.
  all: tests; try congruence.
  all: match goal with
       | Hs : buf_set_size _ _ _ = Some _ |- _ =>
           apply buf_set_size_data in Hs; destruct Hs as (Hsz & Hcap & ext & Hdata)
       end.
  all: unfold buf_wf, buf_bytes in *; simpl in *.
  all: pose proof (length_random P (random_drawn m)
                     (gcry_cipher_get_algo_blklen (cipher (t_ctx m)))) as Hl.
  all: split; [|split].
  - rewrite Hsz, take_mem_write by (exact Hl || lia).
    rewrite Hdata, take_app_le by lia. reflexivity.
  - rewrite length_mem_write. lia.
  - exists g. split; [reflexivity|].
    unfold set_ctxInitialized, set_cipherCtx; simpl.
    rewrite mem_read_mem_write by (exact Hl || lia). reflexivity.
Qed.

(** Init in decrypt direction, with at least a block of input: the IV. *)
Lemma Init_decrypt_bytes (P : Provider) encrypt name tctx m m' :
  run (xmlSecGnuTLSBlockCipherCtxInit P encrypt name tctx) m = (0%Z, m') ->
  truth encrypt = false ->
  gcry_cipher_get_algo_blklen (cipher (t_ctx m)) <= buf_size (t_inBuf m) ->
  buf_wf (t_inBuf m) ->
  let B := gcry_cipher_get_algo_blklen (cipher (t_ctx m)) in
  buf_bytes (t_inBuf m') = drop B (buf_bytes (t_inBuf m))
  /\ buf_wf (t_inBuf m')
  /\ exists h,
       cipherCtx (t_ctx m) = Some h
       /\ t_ctx m' = mkCtx (cipher (t_ctx m)) (mode (t_ctx m))
                           (Some (mkHandle (hd_algo h) (hd_mode h) (hd_key h)
                                           (take B (buf_bytes (t_inBuf m)))))
                           (keyId (t_ctx m)) (keyInitialized (t_ctx m)) 0.
Proof.
  intros H Henc Hin Hwf; cbv zeta.
  remember 0%Z as r eqn:Hr in H.
  exec_run H.
  all: try discriminate.
  all: tests; try congruence; try lia.
  all: simpl.
  split; [apply buf_remove_head_bytes, Hwf|]. split; [apply buf_remove_head_wf, Hwf|].
  exists g. split; [reflexivity|].
  unfold set_ctxInitialized, set_cipherCtx, buf_bytes; simpl.
  rewrite mem_read_0, take_take. do 3 f_equal. f_equal. lia.
Qed.

(** ** The provider's CBC pass *)

Lemma length_xor_bytes (a b : list byte) :
  length (xor_bytes a b) = length a `min` length b.
Proof.
  revert b. induction a as [|x a IH]; intros [|y b]; simpl; auto.
Qed.

Lemma cbc_encrypt_S (E : list byte -> list byte) (B n : nat) (iv data : list byte) :
  cbc_encrypt E B (S n) iv data =
  let c := E (xor_bytes (take B data) iv) in
  (c ++ (cbc_encrypt E B n c (drop B data)).1, (cbc_encrypt E B n c (drop B data)).2).
Proof.
  change (cbc_encrypt E B (S n) iv data)
    with (let c := E (xor_bytes (take B data) iv) in
          let '(cs, iv') := cbc_encrypt E B n c (drop B data) in (c ++ cs, iv')).
  cbv zeta. destruct (cbc_encrypt E B n _ _); reflexivity.
Qed.

Lemma cbc_decrypt_S (D : list byte -> list byte) (B n : nat) (iv data : list byte) :
  cbc_decrypt D B (S n) iv data =
  let c := take B data in
  (xor_bytes (D c) iv ++ (cbc_decrypt D B n c (drop B data)).1,
   (cbc_decrypt D B n c (drop B data)).2).
Proof.
  change (cbc_decrypt D B (S n) iv data)
    with (let c := take B data in
          let p := xor_bytes (D c) iv in
          let '(ps, iv') := cbc_decrypt D B n c (drop B data) in (p ++ ps, iv')).
  cbv zeta. destruct (cbc_decrypt D B n _ _); reflexivity.
Qed.

Lemma cbc_encrypt_length (E : list byte -> list byte) (B n : nat) (iv data : list byte) :
  (forall blk, length blk = B -> length (E blk) = B) ->
  length iv = B -> n * B <= length data ->
  length (cbc_encrypt E B n iv data).1 = n * B
  /\ length (cbc_encrypt E B n iv data).2 = B.
Proof.
  intros HE. revert iv data. induction n as [|n IH]; intros iv data Hiv Hlen.
  - auto.
  - simpl in Hlen. rewrite cbc_encrypt_S. cbv zeta.
    assert (length (E (xor_bytes (take B data) iv)) = B) as Hc.
    { apply HE. rewrite length_xor_bytes, length_take. lia. }
    specialize (IH (E (xor_bytes (take B data) iv)) (drop B data) Hc).
    rewrite length_drop in IH. destruct IH as [IH1 IH2]; [lia|].
    simpl. rewrite length_app. split; lia.
Qed.

Lemma cbc_decrypt_length (D : list byte -> list byte) (B n : nat) (iv data : list byte) :
  (forall blk, length blk = B -> length (D blk) = B) ->
  length iv = B -> n * B <= length data ->
  length (cbc_decrypt D B n iv data).1 = n * B
  /\ length (cbc_decrypt D B n iv data).2 = B.
Proof.
  intros HD. revert iv data. induction n as [|n IH]; intros iv data Hiv Hlen.
  - auto.
  - simpl in Hlen. rewrite cbc_decrypt_S. cbv zeta.
    assert (length (take B data) = B) as Hc by (rewrite length_take; lia).
    specialize (IH (take B data) (drop B data) Hc).
    rewrite length_drop in IH. destruct IH as [IH1 IH2]; [lia|].
    simpl. rewrite length_app, length_xor_bytes, HD by exact Hc. split; lia.
Qed.

(** The pass reads the first [n] blocks of its input only. *)
Lemma cbc_encrypt_take (E : list byte -> list byte) (B n : nat) (iv data : list byte) :
  cbc_encrypt E B n iv (take (n * B) data) = cbc_encrypt E B n iv data.
Proof.
  revert iv data. induction n as [|n IH]; intros iv data; [reflexivity|].
  rewrite !cbc_encrypt_S. cbv zeta. change (S n * B) with (B + n * B).
  rewrite take_take. replace (B `min` (B + n * B)) with B by lia.
  rewrite skipn_firstn_comm. replace (B + n * B - B) with (n * B) by lia.
  rewrite IH. reflexivity.
Qed.

Lemma cbc_decrypt_take (D : list byte -> list byte) (B n : nat) (iv data : list byte) :
  cbc_decrypt D B n iv (take (n * B) data) = cbc_decrypt D B n iv data.
Proof.
  revert iv data. induction n as [|n IH]; intros iv data; [reflexivity|].
  rewrite !cbc_decrypt_S. cbv zeta. change (S n * B) with (B + n * B).
  rewrite take_take. replace (B `min` (B + n * B)) with B by lia.
  rewrite skipn_firstn_comm. replace (B + n * B - B) with (n * B) by lia.
  rewrite IH. reflexivity.
Qed.

Lemma session_cbc_length (P : Provider) (enc : bool) (h : gcry_cipher_handle) (n : nat)
    (data : list byte) :
  block_shape P (hd_algo h) (hd_key h) ->
  length (hd_iv h) = gcry_cipher_get_algo_blklen (hd_algo h) ->
  n * gcry_cipher_get_algo_blklen (hd_algo h) <= length data ->
  length (session_cbc P enc h n data).1 = n * gcry_cipher_get_algo_blklen (hd_algo h)
  /\ length (session_cbc P enc h n data).2 = gcry_cipher_get_algo_blklen (hd_algo h).
Proof.
  intros Hs Hiv Hlen. unfold session_cbc. destruct enc.
  - apply cbc_encrypt_length; auto. intros blk Hb. apply Hs, Hb.
  - apply cbc_decrypt_length; auto. intros blk Hb. apply Hs, Hb.
Qed.

Lemma session_cbc_take (P : Provider) (enc : bool) (h : gcry_cipher_handle) (n : nat)
    (data : list byte) :
  session_cbc P enc h n (take (n * gcry_cipher_get_algo_blklen (hd_algo h)) data)
  = session_cbc P enc h n data.
Proof.
  unfold session_cbc. destruct enc; [apply cbc_encrypt_take | apply cbc_decrypt_take].
Qed.

Lemma length_buf_bytes (b : xmlSecBuffer) : buf_wf b -> length (buf_bytes b) = buf_size b.
Proof. unfold buf_wf, buf_bytes. intros Hwf. rewrite length_take. lia. Qed.

Lemma session_cbc_read (P : Provider) (enc : bool) (h : gcry_cipher_handle) (k : nat)
    (b : xmlSecBuffer) :
  k * gcry_cipher_get_algo_blklen (hd_algo h) <= buf_size b ->
  session_cbc P enc h k
    (mem_read 0 (k * gcry_cipher_get_algo_blklen (hd_algo h)) (buf_data b))
  = session_cbc P enc h k (buf_bytes b).
Proof.
  intros Hk. rewrite mem_read_0.
  rewrite <- (session_cbc_take P enc h k (buf_bytes b)). unfold buf_bytes.
  rewrite take_take. f_equal. f_equal. lia.
Qed.

(** The output buffer after a provider call that stored [l] behind the old
    contents, once the size is set to cover the first [j] bytes of it. *)
Lemma stored_behind_prefix (al : Allocator) (out x0 x1 : xmlSecBuffer) (l : list byte)
    (j len room : nat) :
  buf_wf out ->
  buf_reserve al (buf_size out + room) out = Some x0 ->
  length l = len -> len <= room -> j <= len ->
  buf_set_size al (buf_size out + j)
    (mkBuffer (mem_write (buf_size out) l (buf_data x0)) (buf_size x0)) = Some x1 ->
  buf_bytes x1 = buf_bytes out ++ take j l /\ buf_wf x1.
Proof.
  unfold buf_wf, buf_bytes. intros Hwf Hres Hl Hroom Hj Hset.
  pose proof (buf_reserve_capacity _ _ _ _ Hres) as Hcap.
  destruct (buf_reserve_data _ _ _ _ Hres) as [ext Hdata].
  assert (buf_size out + j
          <= length (buf_data (mkBuffer (mem_write (buf_size out) l (buf_data x0))
                                        (buf_size x0)))) as Hfit.
  { simpl. rewrite length_mem_write. lia. }
  rewrite (buf_set_size_fits _ _ _ Hfit) in Hset.
  injection Hset as <-. simpl. rewrite length_mem_write.
  split; [|lia].
  rewrite mem_write_inside by lia.
  rewrite take_app_ge by (rewrite length_take; lia).
  rewrite length_take. replace (buf_size out + j - _) with j by lia.
  rewrite take_app_le by lia.
  rewrite Hdata, take_app_le by lia. reflexivity.
Qed.

Lemma stored_behind (al : Allocator) (out x0 x1 : xmlSecBuffer) (l : list byte)
    (len room : nat) :
  buf_wf out ->
  buf_reserve al (buf_size out + room) out = Some x0 ->
  length l = len -> len <= room ->
  buf_set_size al (buf_size out + len)
    (mkBuffer (mem_write (buf_size out) l (buf_data x0)) (buf_size x0)) = Some x1 ->
  buf_bytes x1 = buf_bytes out ++ l /\ buf_wf x1.
Proof.
  intros Hwf Hres Hl Hroom Hset.
  destruct (stored_behind_prefix al out x0 x1 l len len room Hwf Hres Hl Hroom (le_n _) Hset)
    as [Hb Hw].
  rewrite take_ge in Hb by lia. auto.
Qed.

Lemma lookup_mem_write (off i : nat) (bytes mem : list byte) :
  i < length bytes -> off + length bytes <= length mem ->
  mem_write off bytes mem !! (off + i) = bytes !! i.
Proof.
  intros Hi Hlen. rewrite mem_write_inside by exact Hlen.
  rewrite lookup_app_r by (rewrite length_take; lia).
  rewrite length_take. replace (off + i - _) with i by lia.
  apply lookup_app_l, Hi.
Qed.

(** ** Update *)

Lemma Update_bytes (P : Provider) encrypt name tctx m m' h :
  run (xmlSecGnuTLSBlockCipherCtxUpdate P encrypt name tctx) m = (0%Z, m') ->
  session_of (t_ctx m) h ->
  block_shape P (hd_algo h) (hd_key h) ->
  buf_wf (t_inBuf m) -> buf_wf (t_outBuf m) ->
  let B := gcry_cipher_get_algo_blklen (cipher (t_ctx m)) in
  let n := buf_size (t_inBuf m) in
  let k := if truth encrypt then n / B else (n - 1) / B in
  B <= n ->
  let pass := session_cbc P (truth encrypt) h k (buf_bytes (t_inBuf m)) in
  buf_bytes (t_outBuf m') = buf_bytes (t_outBuf m) ++ pass.1
  /\ buf_bytes (t_inBuf m') = drop (k * B) (buf_bytes (t_inBuf m))
  /\ t_ctx m' = mkCtx (cipher (t_ctx m)) (mode (t_ctx m))
                      (Some (mkHandle (hd_algo h) (hd_mode h) (hd_key h) pass.2))
                      (keyId (t_ctx m)) (keyInitialized (t_ctx m))
                      (ctxInitialized (t_ctx m))
  /\ buf_wf (t_inBuf m') /\ buf_wf (t_outBuf m').
Proof.
  intros H (Hh & Halgo & Hiv) Hshape Hwi Hwo; cbv zeta. intros Hn.
  remember 0%Z as r eqn:Hr in H.
  exec_run H.
  all: try discriminate.
  all: tests; try congruence; try lia.
  all: simplify_eq.
  all: rewrite <- Halgo in *.
  all: pose proof Heqb1 as Hpos.
  all: rewrite Nat.div_mul in Heqp by lia.
  all: match type of Heqp with
       | cbc_encrypt _ _ ?k _ ?d = _ =>
           change (session_cbc P true h k d = (l, l0)) in Heqp
       | cbc_decrypt _ _ ?k _ ?d = _ =>
           change (session_cbc P false h k d = (l, l0)) in Heqp
       end.
  all: rewrite session_cbc_read in Heqp
         by (rewrite Nat.mul_comm;
             first [apply Nat.Div0.mul_div_le
                   | etransitivity; [apply Nat.Div0.mul_div_le | lia]]).
  all: match type of Heqp with
       | session_cbc _ ?e _ ?k ?d = _ =>
           assert (k * gcry_cipher_get_algo_blklen (hd_algo h) <= buf_size (t_inBuf m))
             as Hk by (rewrite Nat.mul_comm;
                       first [apply Nat.Div0.mul_div_le
                             | etransitivity; [apply Nat.Div0.mul_div_le | lia]]);
           pose proof (session_cbc_length P e h k d Hshape Hiv) as [Hlen _];
             [rewrite length_buf_bytes by exact Hwi; exact Hk|]
       end.
  all: rewrite Heqp in *; simpl in Hlen; simpl.
  all: rewrite <- Nat.add_assoc in Heqo0.
  all: destruct (stored_behind _ _ _ _ _ _ _ Hwo Heqo0 Hlen ltac:(lia) Heqo2) as [Hout Hwf1].
  all: split; [exact Hout|].
  all: split; [apply buf_remove_head_bytes, Hwi|].
  all: split; [unfold set_cipherCtx; simpl; rewrite Halgo; reflexivity|].
  all: split; [apply buf_remove_head_wf, Hwi | exact Hwf1].
Qed.

(** ** Final *)

Lemma take_insert_last (l : list byte) (i : nat) (x : byte) :
  i < length l -> take (S i) (<[i:=x]> l) = take i l ++ [x].
Proof.
  intros Hi. rewrite (take_S_r _ _ x).
  - rewrite take_insert_ge by lia. reflexivity.
  - apply list_lookup_insert_eq, Hi.
Qed.

Lemma length_padded_block (P : Provider) (m : Machine) :
  buf_wf (t_inBuf m) ->
  buf_size (t_inBuf m) < gcry_cipher_get_algo_blklen (cipher (t_ctx m)) ->
  length (padded_block P m) = gcry_cipher_get_algo_blklen (cipher (t_ctx m)).
Proof.
  intros Hwf Hn. unfold padded_block.
  rewrite !length_app, length_buf_bytes, length_random by exact Hwf. simpl. lia.
Qed.

(** The block the provider reads after Final has padded the input. *)
Lemma padded_read_random (P : Provider) (m : Machine) (B : nat) (x0 : xmlSecBuffer) :
  B = gcry_cipher_get_algo_blklen (cipher (t_ctx m)) ->
  buf_wf (t_inBuf m) ->
  buf_size (t_inBuf m) + 1 < B ->
  buf_reserve (allocator P) B (t_inBuf m) = Some x0 ->
  mem_read 0 B
    (<[B - 1 := byte_of_nat (B - buf_size (t_inBuf m))]>
       (mem_write (buf_size (t_inBuf m))
          (map (random_byte P) (seq (random_drawn m) (B - buf_size (t_inBuf m) - 1)))
          (buf_data x0)))
  = padded_block P m.
Proof.
  intros HB Hwf Hn Hres. unfold buf_wf in Hwf.
  pose proof (buf_reserve_capacity _ _ _ _ Hres) as Hcap.
  destruct (buf_reserve_data _ _ _ _ Hres) as [ext Hdata].
  rewrite mem_read_0. unfold padded_block, buf_bytes. rewrite <- HB.
  replace B with (S (B - 1)) at 1 by lia.
  rewrite take_insert_last by (rewrite length_mem_write; lia).
  replace (B - 1) with (buf_size (t_inBuf m) + (B - buf_size (t_inBuf m) - 1)) at 1 by lia.
  rewrite take_mem_write by (rewrite ?length_random; lia).
  rewrite Hdata, take_app_le by lia. rewrite <- app_assoc. reflexivity.
Qed.

Lemma padded_read_plain (P : Provider) (m : Machine) (B : nat) (x0 : xmlSecBuffer) :
  B = gcry_cipher_get_algo_blklen (cipher (t_ctx m)) ->
  buf_wf (t_inBuf m) ->
  buf_size (t_inBuf m) < B -> ~ buf_size (t_inBuf m) + 1 < B ->
  buf_reserve (allocator P) B (t_inBuf m) = Some x0 ->
  mem_read 0 B (<[B - 1 := byte_of_nat (B - buf_size (t_inBuf m))]> (buf_data x0))
  = padded_block P m.
Proof.
  intros HB Hwf Hn Hn' Hres. unfold buf_wf in Hwf.
  pose proof (buf_reserve_capacity _ _ _ _ Hres) as Hcap.
  destruct (buf_reserve_data _ _ _ _ Hres) as [ext Hdata].
  rewrite mem_read_0. unfold padded_block, buf_bytes. rewrite <- HB.
  replace B with (S (B - 1)) at 1 by lia.
  rewrite take_insert_last by lia.
  replace (B - buf_size (t_inBuf m) - 1) with 0 by lia. simpl.
  replace (B - 1) with (buf_size (t_inBuf m)) by lia.
  rewrite Hdata, take_app_le by lia. reflexivity.
Qed.

Lemma Final_encrypt_bytes (P : Provider) encrypt name tctx m m' h :
  run (xmlSecGnuTLSBlockCipherCtxFinal P encrypt name tctx) m = (0%Z, m') ->
  truth encrypt = true ->
  session_of (t_ctx m) h ->
  block_shape P (hd_algo h) (hd_key h) ->
  buf_wf (t_inBuf m) -> buf_wf (t_outBuf m) ->
  let B := gcry_cipher_get_algo_blklen (cipher (t_ctx m)) in
  let n := buf_size (t_inBuf m) in
  let pass := session_cbc P true h 1 (padded_block P m) in
  n < B /\ length (padded_block P m) = B
  /\ buf_bytes (t_outBuf m') = buf_bytes (t_outBuf m) ++ pass.1
  /\ buf_size (t_inBuf m') = 0
  /\ t_ctx m' = mkCtx (cipher (t_ctx m)) (mode (t_ctx m))
                      (Some (mkHandle (hd_algo h) (hd_mode h) (hd_key h) pass.2))
                      (keyId (t_ctx m)) (keyInitialized (t_ctx m))
                      (ctxInitialized (t_ctx m))
  /\ random_drawn m' = random_drawn m + (B - n - 1)
  /\ buf_wf (t_outBuf m').
Proof.
  intros H Henc (Hh & Halgo & Hiv) Hshape Hwi Hwo; cbv zeta.
  unfold Final_set_size_remove_head in H.
  remember 0%Z as r eqn:Hr in H.
  exec_run H.
  all: repeat match goal with s := _ : string |- _ => clearbody s end.
  all: try discriminate.
  all: tests; try congruence; try lia.
  all: simplify_eq.
  all: rewrite <- Halgo in *.
  all: assert (gcry_cipher_get_algo_blklen (hd_algo h)
               = gcry_cipher_get_algo_blklen (cipher (t_ctx m))) as HB
         by (rewrite Halgo; reflexivity).
  all: rewrite Nat.div_same in Heqp by lia.
  all: first [ rewrite (padded_read_random P m _ x0 HB Hwi) in Heqp by assumption
             | rewrite (padded_read_plain P m _ x0 HB Hwi) in Heqp by assumption ].
  all: change (session_cbc P true h 1 (padded_block P m) = (l, l0)) in Heqp.
  all: pose proof (length_padded_block P m Hwi ltac:(lia)) as Hpad.
  all: pose proof (session_cbc_length P true h 1 (padded_block P m) Hshape Hiv ltac:(lia))
         as [Hlen _].
  all: rewrite Nat.mul_1_l in Hlen.
  all: rewrite Heqp in *; cbn [fst] in Hlen; simpl.
  all: destruct (stored_behind _ _ _ _ _ _ _ Hwo Heqo0 Hlen ltac:(lia) Heqo3)
         as [Hout Hwf2].
  all: pose proof (buf_set_size_size _ _ _ _ Heqo3) as Hsz2.
  all: rewrite <- Hsz2 in Heqo4; rewrite (buf_set_size_same _ _ Hwf2) in Heqo4;
       injection Heqo4 as <-.
  all: pose proof (buf_reserve_size _ _ _ _ Heqo2) as Hsz0.
  all: rewrite ?buf_remove_head_size; simpl.
  all: repeat split; try lia; try exact Hout; try exact Hwf2.
  all: unfold set_cipherCtx; simpl; rewrite ?Halgo; reflexivity.
Qed.

Lemma Final_decrypt_bytes (P : Provider) encrypt name tctx m m' h :
  run (xmlSecGnuTLSBlockCipherCtxFinal P encrypt name tctx) m = (0%Z, m') ->
  truth encrypt = false ->
  session_of (t_ctx m) h ->
  block_shape P (hd_algo h) (hd_key h) ->
  buf_wf (t_inBuf m) -> buf_wf (t_outBuf m) ->
  let B := gcry_cipher_get_algo_blklen (cipher (t_ctx m)) in
  let pass := session_cbc P false h 1 (buf_bytes (t_inBuf m)) in
  let p := Byte.to_nat (default x00 (pass.1 !! (B - 1))) in
  buf_size (t_inBuf m) = B /\ p <= B
  /\ buf_bytes (t_outBuf m') = buf_bytes (t_outBuf m) ++ take (B - p) pass.1
  /\ buf_size (t_inBuf m') = 0
  /\ t_ctx m' = mkCtx (cipher (t_ctx m)) (mode (t_ctx m))
                      (Some (mkHandle (hd_algo h) (hd_mode h) (hd_key h) pass.2))
                      (keyId (t_ctx m)) (keyInitialized (t_ctx m))
                      (ctxInitialized (t_ctx m))
  /\ random_drawn m' = random_drawn m
  /\ buf_wf (t_outBuf m').
Proof.
  intros H Henc (Hh & Halgo & Hiv) Hshape Hwi Hwo; cbv zeta.
  unfold Final_set_size_remove_head in H.
  remember 0%Z as r eqn:Hr in H.
  exec_run H.
  all: repeat match goal with s := _ : string |- _ => clearbody s end.
  all: try discriminate.
  all: tests; try congruence; try lia.
  all: simplify_eq.
  all: rewrite <- Halgo in *.
  all: match goal with
       | Hin : buf_size (t_inBuf _) = gcry_cipher_get_algo_blklen _ |- _ =>
           pose proof Hin as Hin'; rewrite Hin in *
       end.
  all: rewrite Nat.div_same in Heqp by lia.
  all: change (session_cbc P false h 1
                 (mem_read 0 (gcry_cipher_get_algo_blklen (hd_algo h))
                           (buf_data (t_inBuf m))) = (l, l0)) in Heqp.
  all: rewrite <- (Nat.mul_1_l (gcry_cipher_get_algo_blklen (hd_algo h))) in Heqp at 1.
  all: rewrite session_cbc_read in Heqp by lia.
  all: pose proof (session_cbc_length P false h 1 (buf_bytes (t_inBuf m)) Hshape Hiv)
         as [Hlen _]; [rewrite length_buf_bytes by exact Hwi; lia|].
  all: rewrite Nat.mul_1_l in Hlen.
  all: rewrite Heqp in *; cbn [fst] in Hlen.
  all: pose proof (buf_reserve_capacity _ _ _ _ Heqo0) as Hcap.
  all: rewrite lookup_mem_write in * by lia.
  all: pose proof (fun Hr Hj =>
                     stored_behind_prefix _ _ _ _ _ _ _ _ Hwo Heqo0 Hlen Hr Hj Heqo2) as Hsb.
  all: destruct Hsb as [Hout Hwf1]; [lia | lia |].
  all: pose proof (buf_set_size_size _ _ _ _ Heqo2) as Hsz1.
  all: rewrite <- Hsz1 in Heqo3; rewrite (buf_set_size_same _ _ Hwf1) in Heqo3;
       injection Heqo3 as <-.
  all: rewrite ?buf_remove_head_size; simpl.
  all: repeat split; try lia; try exact Hout; try exact Hwf1.
  all: unfold set_cipherCtx; simpl; rewrite ?Halgo; reflexivity.
Qed.

(** ** Bytes, XOR and the CBC round trip *)

Lemma to_nat_le_255 (b : byte) : Byte.to_nat b <= 255.
Proof.
  pose proof (Byte.to_of_nat_option_map (Byte.to_nat b)) as H.
  rewrite Byte.of_to_nat in H. simpl in H.
  destruct (Byte.to_nat b <=? 255) eqn:E; [|discriminate].
  apply Nat.leb_le, E.
Qed.

Lemma to_nat_byte_of_nat (n : nat) : n <= 255 -> Byte.to_nat (byte_of_nat n) = n.
Proof.
  intros Hn. unfold byte_of_nat. rewrite Nat.mod_small by lia.
  pose proof (Byte.to_of_nat_option_map n) as H.
  rewrite (proj2 (Nat.leb_le n 255) Hn) in H.
  destruct (Byte.of_nat n) as [y|]; simpl in H; [|discriminate].
  injection H as H. exact H.
Qed.

Lemma byte_of_to_nat (b : byte) : byte_of_nat (Byte.to_nat b) = b.
Proof.
  unfold byte_of_nat. pose proof (to_nat_le_255 b).
  rewrite Nat.mod_small by lia. rewrite Byte.of_to_nat. reflexivity.
Qed.

(** A property of all bytes, checked byte by byte. *)
Lemma byte_cases (Q : byte -> bool) :
  forallb Q (map byte_of_nat (seq 0 256)) = true -> forall b, Q b = true.
Proof.
  intros H b. rewrite forallb_forall in H. apply H.
  apply in_map_iff. exists (Byte.to_nat b). split; [apply byte_of_to_nat|].
  apply in_seq. pose proof (to_nat_le_255 b). lia.
Qed.

Lemma byte_xor_involutive (a b : byte) : byte_xor (byte_xor a b) b = a.
Proof.
  apply Byte.byte_dec_bl.
  assert (forallb (fun a => forallb (fun b => Byte.eqb (byte_xor (byte_xor a b) b) a)
                                    (map byte_of_nat (seq 0 256)))
                  (map byte_of_nat (seq 0 256)) = true) as Hall
    by (vm_compute; reflexivity).
  pose proof (byte_cases _ Hall a) as Ha. cbv beta in Ha.
  exact (byte_cases _ Ha b).
Qed.

Lemma xor_bytes_involutive (a b : list byte) :
  length a = length b -> xor_bytes (xor_bytes a b) b = a.
Proof.
  revert b. induction a as [|x a IH]; intros [|y b] Hlen; simpl in *; try lia; auto.
  rewrite byte_xor_involutive, IH by lia. reflexivity.
Qed.

(** Decrypting what was encrypted, block by block under the same chaining
    value: the plaintext comes back, and both passes leave the same chaining
    value behind. *)
Lemma cbc_round_trip (E D : list byte -> list byte) (B n : nat) (iv data : list byte) :
  (forall blk, length blk = B -> length (E blk) = B) ->
  (forall blk, length blk = B -> D (E blk) = blk) ->
  length iv = B -> length data = n * B ->
  (cbc_decrypt D B n iv (cbc_encrypt E B n iv data).1).1 = data
  /\ (cbc_decrypt D B n iv (cbc_encrypt E B n iv data).1).2
     = (cbc_encrypt E B n iv data).2.
Proof.
  intros HE HD. revert iv data.
  induction n as [|n IH]; intros iv data Hiv Hlen.
  - destruct data; [|discriminate]. auto.
  - simpl in Hlen. rewrite cbc_encrypt_S. cbv zeta. cbn [fst snd].
    set (c := E (xor_bytes (take B data) iv)).
    assert (length (xor_bytes (take B data) iv) = B) as Hx
      by (rewrite length_xor_bytes, length_take; lia).
    assert (length c = B) as Hc by (apply HE, Hx).
    rewrite cbc_decrypt_S. cbv zeta. cbn [fst snd].
    rewrite take_app_length' by (symmetry; exact Hc).
    rewrite drop_app_length' by (symmetry; exact Hc).
    unfold c at 1. rewrite HD by exact Hx.
    rewrite xor_bytes_involutive by (rewrite length_take; lia).
    destruct (IH c (drop B data) Hc) as [IH1 IH2]; [rewrite length_drop; lia|].
    rewrite IH1, IH2. split; [apply take_drop | reflexivity].
Qed.

(** ** When the phases succeed *)

Lemma buf_reserve_granted (al : Allocator) (n : nat) (b : xmlSecBuffer) :
  (forall k, alloc_ok al k = true) -> buf_reserve al n b <> None.
Proof.
  intros Hal. unfold buf_reserve. case_decide; [discriminate|].
  rewrite Hal. discriminate.
Qed.

Lemma buf_set_size_granted (al : Allocator) (n : nat) (b : xmlSecBuffer) :
  (forall k, alloc_ok al k = true) -> buf_set_size al n b <> None.
Proof.
  intros Hal. unfold buf_set_size.
  destruct (buf_reserve al n b) eqn:E; [discriminate|].
  destruct (buf_reserve_granted al n b Hal E).
Qed.

(** Close a path on which an allocation or a provider call is recorded as
    failed although the hypotheses rule that out. *)
Ltac cannot_fail Hal Halgo :=
  exfalso; tests; simplify_eq; unfold buf_wf, buf_capacity in *;
  first
    [ congruence
    | lia
    | rewrite ?Halgo in *; congruence
    | match goal with
      | Hn : ~ 0 < gcry_cipher_get_algo_blklen _ |- _ =>
          apply Hn, blklen_pos; rewrite ?Halgo; assumption
      end
    | match goal with
      | Hn : buf_reserve _ _ _ = None |- _ => exact (buf_reserve_granted _ _ _ Hal Hn)
      | Hn : buf_set_size _ _ _ = None |- _ => exact (buf_set_size_granted _ _ _ Hal Hn)
      end
    | match goal with
      | Hn : ~ (_ /\ _) |- _ =>
          rewrite <- ?Halgo in *; apply Hn; split;
          [ lia | first [ apply Nat.Div0.mod_mul | apply Nat.Div0.mod_same ] ]
      end ].

Lemma Init_succeeds (P : Provider) encrypt name tctx m h r m' :
  run (xmlSecGnuTLSBlockCipherCtxInit P encrypt name tctx) m = (r, m') ->
  session_of (t_ctx m) h ->
  cipher (t_ctx m) <> GCRY_CIPHER_NONE ->
  keyInitialized (t_ctx m) <> 0%Z -> ctxInitialized (t_ctx m) = 0%Z ->
  nonnull tctx = true ->
  (forall k, alloc_ok (allocator P) k = true) ->
  buf_wf (t_inBuf m) ->
  r = 0%Z.
Proof.
  intros H (Hh & Halgo & Hiv) Hc Hk Hz Htctx Hal Hwi.
  exec_run H.
  all: repeat match goal with s := _ : string |- _ => clearbody s end.
  all: try reflexivity.
  all: cannot_fail Hal Halgo.
Qed.

Lemma Update_succeeds (P : Provider) encrypt name tctx m h r m' :
  run (xmlSecGnuTLSBlockCipherCtxUpdate P encrypt name tctx) m = (r, m') ->
  session_of (t_ctx m) h ->
  cipher (t_ctx m) <> GCRY_CIPHER_NONE ->
  ctxInitialized (t_ctx m) <> 0%Z ->
  nonnull tctx = true ->
  (forall k, alloc_ok (allocator P) k = true) ->
  r = 0%Z.
Proof.
  intros H (Hh & Halgo & Hiv) Hc Hz Htctx Hal.
  exec_run H.
  all: repeat match goal with s := _ : string |- _ => clearbody s end.
  all: try reflexivity.
  all: cannot_fail Hal Halgo.
Qed.


Lemma Final_encrypt_succeeds (P : Provider) encrypt name tctx m h r m' :
  run (xmlSecGnuTLSBlockCipherCtxFinal P encrypt name tctx) m = (r, m') ->
  truth encrypt = true ->
  session_of (t_ctx m) h ->
  cipher (t_ctx m) <> GCRY_CIPHER_NONE ->
  ctxInitialized (t_ctx m) <> 0%Z ->
  nonnull tctx = true ->
  (forall k, alloc_ok (allocator P) k = true) ->
  buf_size (t_inBuf m) < gcry_cipher_get_algo_blklen (cipher (t_ctx m)) ->
  r = 0%Z.
Proof.
  intros H Henc (Hh & Halgo & Hiv) Hc Hz Htctx Hal Hn.
  unfold Final_set_size_remove_head in H.
  exec_run H.
  all: repeat match goal with s := _ : string |- _ => clearbody s end.
  all: try reflexivity.
  all: cannot_fail Hal Halgo.
Qed.

Lemma Final_decrypt_succeeds (P : Provider) encrypt name tctx m h r m' :
  run (xmlSecGnuTLSBlockCipherCtxFinal P encrypt name tctx) m = (r, m') ->
  truth encrypt = false ->
  session_of (t_ctx m) h ->
  block_shape P (hd_algo h) (hd_key h) ->
  cipher (t_ctx m) <> GCRY_CIPHER_NONE ->
  ctxInitialized (t_ctx m) <> 0%Z ->
  nonnull tctx = true ->
  (forall k, alloc_ok (allocator P) k = true) ->
  buf_wf (t_inBuf m) -> buf_wf (t_outBuf m) ->
  let B := gcry_cipher_get_algo_blklen (cipher (t_ctx m)) in
  buf_size (t_inBuf m) = B ->
  Byte.to_nat (default x00 ((session_cbc P false h 1 (buf_bytes (t_inBuf m))).1 !! (B - 1)))
    <= B ->
  r = 0%Z.
Proof.
  intros H Henc (Hh & Halgo & Hiv) Hshape Hc Hz Htctx Hal Hwi Hwo; cbv zeta. intros Hn Hp.
  unfold Final_set_size_remove_head in H.
  exec_run H.
  all: repeat match goal with s := _ : string |- _ => clearbody s end.
  all: try reflexivity.
  all: try (cannot_fail Hal Halgo).
  all: exfalso; tests; rewrite <- Halgo in *.
  all: pose proof Hn as Hn'; rewrite Hn in *.
  all: try (match goal with
            | Hm : ~ (_ /\ _) |- _ => apply Hm; split; [lia | apply Nat.Div0.mod_same]
            end).
  all: rewrite Nat.div_same in Heqp by lia.
  all: change (session_cbc P false h 1
                 (mem_read 0 (gcry_cipher_get_algo_blklen (hd_algo h))
                           (buf_data (t_inBuf m))) = (l, l0)) in Heqp.
  all: rewrite <- (Nat.mul_1_l (gcry_cipher_get_algo_blklen (hd_algo h))) in Heqp at 1.
  all: rewrite session_cbc_read in Heqp by lia.
  all: pose proof (session_cbc_length P false h 1 (buf_bytes (t_inBuf m)) Hshape Hiv)
         as [Hlen _]; [rewrite length_buf_bytes by exact Hwi; lia|].
  all: rewrite Nat.mul_1_l in Hlen.
  all: rewrite Heqp in *; cbn [fst] in Hlen, Hp.
  all: pose proof (buf_reserve_capacity _ _ _ _ Heqo0) as Hcap.
  all: rewrite lookup_mem_write in * by lia.
  all: lia.
Qed.

(** ** The phases in a row *)

Lemma session_cbc_0 (P : Provider) (enc : bool) (h : gcry_cipher_handle) (data : list byte) :
  session_cbc P enc h 0 data = ([], hd_iv h).
Proof. unfold session_cbc. destruct enc; reflexivity. Qed.

Lemma ctx_eta (ctx : xmlSecGnuTLSBlockCipherCtx) (h : gcry_cipher_handle) :
  cipherCtx ctx = Some h ->
  ctx = mkCtx (cipher ctx) (mode ctx)
              (Some (mkHandle (hd_algo h) (hd_mode h) (hd_key h) (hd_iv h)))
              (keyId ctx) (keyInitialized ctx) (ctxInitialized ctx).
Proof. destruct ctx, h; simpl. intros ->. reflexivity. Qed.

(** Update, with or without a whole block in the input. *)
Lemma Update_bytes_all (P : Provider) encrypt name tctx m m' h :
  run (xmlSecGnuTLSBlockCipherCtxUpdate P encrypt name tctx) m = (0%Z, m') ->
  session_of (t_ctx m) h ->
  block_shape P (hd_algo h) (hd_key h) ->
  buf_wf (t_inBuf m) -> buf_wf (t_outBuf m) ->
  let B := gcry_cipher_get_algo_blklen (cipher (t_ctx m)) in
  let n := buf_size (t_inBuf m) in
  let k := if truth encrypt then n / B else (n - 1) / B in
  let pass := session_cbc P (truth encrypt) h k (buf_bytes (t_inBuf m)) in
  buf_bytes (t_outBuf m') = buf_bytes (t_outBuf m) ++ pass.1
  /\ buf_bytes (t_inBuf m') = drop (k * B) (buf_bytes (t_inBuf m))
  /\ t_ctx m' = mkCtx (cipher (t_ctx m)) (mode (t_ctx m))
                      (Some (mkHandle (hd_algo h) (hd_mode h) (hd_key h) pass.2))
                      (keyId (t_ctx m)) (keyInitialized (t_ctx m))
                      (ctxInitialized (t_ctx m))
  /\ buf_wf (t_inBuf m') /\ buf_wf (t_outBuf m').
Proof.
  intros H Hs Hshape Hwi Hwo; cbv zeta.
  destruct (decide (gcry_cipher_get_algo_blklen (cipher (t_ctx m)) <= buf_size (t_inBuf m)))
    as [Hn|Hn].
  - exact (Update_bytes P encrypt name tctx m m' h H Hs Hshape Hwi Hwo Hn).
  - pose proof (Update_effect P encrypt name tctx m 0%Z m' H) as He. cbv zeta in He.
    destruct He as (_ & _ & _ & _ & Hsame & _).
    rewrite (Hsame eq_refl ltac:(lia)).
    assert ((if truth encrypt
             then buf_size (t_inBuf m) / gcry_cipher_get_algo_blklen (cipher (t_ctx m))
             else (buf_size (t_inBuf m) - 1)
                  / gcry_cipher_get_algo_blklen (cipher (t_ctx m))) = 0) as ->.
    { destruct (truth encrypt); apply Nat.div_small; lia. }
    rewrite session_cbc_0. simpl. rewrite app_nil_r.
    destruct Hs as (Hh & _). repeat split; auto. apply ctx_eta, Hh.
Qed.

(** The framed pipeline in encrypt direction: it goes through, and the
    ciphertext is the IV, the CBC encryption of the whole blocks of the
    plaintext, and the CBC encryption of the padded rest. *)
Lemma framed_encrypt (P : Provider) (m : Machine) (h : gcry_cipher_handle) :
  ready m h ->
  (forall k, alloc_ok (allocator P) k = true) ->
  block_shape P (hd_algo h) (hd_key h) ->
  let B := gcry_cipher_get_algo_blklen (cipher (t_ctx m)) in
  let x := buf_bytes (t_inBuf m) in
  let n := buf_size (t_inBuf m) in
  let k := n / B in
  let iv := map (random_byte P) (seq (random_drawn m) B) in
  let h1 := mkHandle (hd_algo h) (hd_mode h) (hd_key h) iv in
  let pass1 := session_cbc P true h1 k x in
  let h2 := mkHandle (hd_algo h) (hd_mode h) (hd_key h) pass1.2 in
  let block :=
    drop (k * B) x
    ++ map (random_byte P) (seq (random_drawn m + B) (B - (n - k * B) - 1))
    ++ [byte_of_nat (B - (n - k * B))] in
  let pass2 := session_cbc P true h2 1 block in
  exists m',
    framed_pipeline P 1 m = Some m'
    /\ buf_bytes (t_outBuf m') = buf_bytes (t_outBuf m) ++ iv ++ pass1.1 ++ pass2.1
    /\ buf_size (t_inBuf m') = 0.
Proof.
  intros ((Hh & Halgo & Hiv) & Hc & Hk & Hz & Hwi & Hwo) Hal Hshape; cbv zeta.
  set (B := gcry_cipher_get_algo_blklen (cipher (t_ctx m))) in *.
  assert (0 < B) as HB by (apply blklen_pos, Hc).
  unfold framed_pipeline.
  (* Init *)
  destruct (run (xmlSecGnuTLSBlockCipherCtxInit P 1 None (Some tt)) m) as [r1 e1] eqn:E1.
  assert (r1 = 0%Z) as ->.
  { eapply (Init_succeeds P 1 None (Some tt) m h); eauto. repeat split; auto. }
  destruct (Init_encrypt_bytes P 1 None (Some tt) m e1 E1 eq_refl Hwo)
    as (Hout1 & Hwo1 & h' & Hh' & Hctx1).
  rewrite Hh in Hh'. injection Hh' as <-. fold B in Hout1, Hctx1.
  pose proof (Init_frame P 1 None (Some tt) m 0%Z e1 E1) as (_ & _ & _ & _ & Hin1 & Hrd1).
  specialize (Hin1 eq_refl). specialize (Hrd1 eq_refl eq_refl). fold B in Hrd1.
  change (0 <? 0)%Z with false. cbv iota.
  set (iv := map (random_byte P) (seq (random_drawn m) B)) in *.
  set (h1 := mkHandle (hd_algo h) (hd_mode h) (hd_key h) iv) in *.
  (* Update *)
  set (e1' := mark_initialized e1).
  assert (t_ctx e1' = mkCtx (cipher (t_ctx m)) (mode (t_ctx m)) (Some h1) (keyId (t_ctx m))
                            (keyInitialized (t_ctx m)) 1) as Hctx1'
    by (unfold e1', mark_initialized; simpl; rewrite Hctx1; reflexivity).
  assert (session_of (t_ctx e1') h1) as Hs1.
  { rewrite Hctx1'. repeat split; simpl; [exact Halgo | apply length_random]. }
  assert (t_inBuf e1' = t_inBuf m) as Hin1' by exact Hin1.
  assert (t_outBuf e1' = t_outBuf e1) as Hout1' by reflexivity.
  destruct (run (xmlSecGnuTLSBlockCipherCtxUpdate P 1 None (Some tt)) e1') as [r2 e2] eqn:E2.
  assert (r2 = 0%Z) as ->.
  { eapply (Update_succeeds P 1 None (Some tt) e1' h1); eauto;
      rewrite Hctx1'; simpl; auto; lia. }
  destruct (Update_bytes_all P 1 None (Some tt) e1' e2 h1 E2 Hs1 Hshape)
    as (Hout2 & Hin2 & Hctx2 & Hwi2 & Hwo2);
    [rewrite Hin1'; exact Hwi | rewrite Hout1'; exact Hwo1 |].
  pose proof (Update_frame P 1 None (Some tt) e1' 0%Z e2 E2) as (_ & _ & _ & _ & Hrd2).
  rewrite Hctx1', Hin1', Hout1' in *. cbn [cipher mode keyId keyInitialized ctxInitialized] in *.
  change (truth 1) with true in *. cbv iota in Hout2, Hin2, Hctx2. fold B in Hout2, Hin2, Hctx2.
  change (0 <? 0)%Z with false. cbv iota.
  set (k := buf_size (t_inBuf m) / B) in *.
  set (pass1 := session_cbc P true h1 k (buf_bytes (t_inBuf m))) in *.
  set (h2 := mkHandle (hd_algo h) (hd_mode h) (hd_key h) pass1.2) in *.
  (* Final *)
  assert (buf_size (t_inBuf e2) = buf_size (t_inBuf m) - k * B) as Hn2.
  { rewrite <- (length_buf_bytes _ Hwi2), Hin2, length_drop, length_buf_bytes by exact Hwi.
    reflexivity. }
  assert (buf_size (t_inBuf m) - k * B < B) as Hrest.
  { unfold k. pose proof (Nat.div_mod_eq (buf_size (t_inBuf m)) B).
    pose proof (Nat.mod_upper_bound (buf_size (t_inBuf m)) B). nia. }
  assert (length pass1.2 = B) as Hiv2.
  { destruct (session_cbc_length P true h1 k (buf_bytes (t_inBuf m))) as [_ Hl]; auto.
    - unfold h1, iv. simpl. rewrite length_random, Halgo. reflexivity.
    - rewrite length_buf_bytes by exact Hwi. unfold h1. simpl. rewrite Halgo. fold B.
      unfold k. rewrite Nat.mul_comm. apply Nat.Div0.mul_div_le.
    - etransitivity; [exact Hl|]. unfold h1. simpl. rewrite Halgo. reflexivity. }
  assert (session_of (t_ctx e2) h2) as Hs2.
  { rewrite Hctx2. repeat split; simpl; [exact Halgo | exact Hiv2]. }
  destruct (run (xmlSecGnuTLSBlockCipherCtxFinal P 1 None (Some tt)) e2) as [r3 e3] eqn:E3.
  assert (r3 = 0%Z) as ->.
  { eapply (Final_encrypt_succeeds P 1 None (Some tt) e2 h2); eauto;
      rewrite ?Hctx2; simpl; auto; try lia; try (fold B; lia). }
  destruct (Final_encrypt_bytes P 1 None (Some tt) e2 e3 h2 E3 eq_refl Hs2 Hshape Hwi2 Hwo2)
    as (_ & _ & Hout3 & Hin3 & _).
  change (0 <? 0)%Z with false. cbv iota.
  exists e3. split; [reflexivity|]. split; [|exact Hin3].
  rewrite Hout3, Hout2, Hout1. rewrite <- !app_assoc.
  do 3 f_equal. unfold padded_block.
  rewrite Hctx2, Hin2, Hn2, Hrd2. unfold e1', mark_initialized. simpl. rewrite Hrd1.
  reflexivity.
Qed.

Lemma div_last_block (k B : nat) : 0 < B -> (k * B + B - 1) / B = k.
Proof.
  intros HB. symmetry. apply (Nat.div_unique _ _ _ (B - 1)); [lia|nia].
Qed.

(** The framed pipeline in decrypt direction on an IV, [k] blocks and a last
    block whose decryption ends in a padding length of at most a block: it
    goes through, and appends the decryption of the [k] blocks and the last
    block without its padding. *)
Lemma framed_decrypt (P : Provider) (m : Machine) (h : gcry_cipher_handle)
    (iv C1 C2 : list byte) (k : nat) :
  ready m h ->
  (forall j, alloc_ok (allocator P) j = true) ->
  block_shape P (hd_algo h) (hd_key h) ->
  let B := gcry_cipher_get_algo_blklen (cipher (t_ctx m)) in
  buf_bytes (t_inBuf m) = iv ++ C1 ++ C2 ->
  length iv = B -> length C1 = k * B -> length C2 = B ->
  let h1 := mkHandle (hd_algo h) (hd_mode h) (hd_key h) iv in
  let pass1 := session_cbc P false h1 k C1 in
  let h2 := mkHandle (hd_algo h) (hd_mode h) (hd_key h) pass1.2 in
  let pass2 := session_cbc P false h2 1 C2 in
  let p := Byte.to_nat (default x00 (pass2.1 !! (B - 1))) in
  p <= B ->
  exists m',
    framed_pipeline P 0 m = Some m'
    /\ buf_bytes (t_outBuf m') = buf_bytes (t_outBuf m) ++ pass1.1 ++ take (B - p) pass2.1
    /\ buf_size (t_inBuf m') = 0.
Proof.
  intros ((Hh & Halgo & Hiv) & Hc & Hk & Hz & Hwi & Hwo) Hal Hshape; cbv zeta.
  set (B := gcry_cipher_get_algo_blklen (cipher (t_ctx m))) in *.
  intros Hbytes Hliv HlC1 HlC2 Hp.
  assert (0 < B) as HB by (apply blklen_pos, Hc).
  assert (buf_size (t_inBuf m) = B + (k * B + B)) as Hn.
  { rewrite <- (length_buf_bytes _ Hwi), Hbytes, !length_app. lia. }
  unfold framed_pipeline.
  (* Init *)
  destruct (run (xmlSecGnuTLSBlockCipherCtxInit P 0 None (Some tt)) m) as [r1 e1] eqn:E1.
  assert (r1 = 0%Z) as ->.
  { eapply (Init_succeeds P 0 None (Some tt) m h); eauto. repeat split; auto. }
  destruct (Init_decrypt_bytes P 0 None (Some tt) m e1 E1 eq_refl ltac:(fold B; lia) Hwi)
    as (Hin1 & Hwi1 & h' & Hh' & Hctx1).
  rewrite Hh in Hh'. injection Hh' as <-. fold B in Hin1, Hctx1.
  pose proof (Init_frame P 0 None (Some tt) m 0%Z e1 E1) as (_ & _ & _ & Hout1 & _).
  destruct (Hout1 eq_refl) as [_ Hout1'].
  rewrite Hbytes in Hin1, Hctx1.
  rewrite drop_app_length' in Hin1 by (symmetry; exact Hliv).
  rewrite take_app_length' in Hctx1 by (symmetry; exact Hliv).
  change (0 <? 0)%Z with false. cbv iota.
  set (h1 := mkHandle (hd_algo h) (hd_mode h) (hd_key h) iv) in *.
  (* Update *)
  set (e1' := mark_initialized e1).
  assert (t_ctx e1' = mkCtx (cipher (t_ctx m)) (mode (t_ctx m)) (Some h1) (keyId (t_ctx m))
                            (keyInitialized (t_ctx m)) 1) as Hctx1'
    by (unfold e1', mark_initialized; simpl; rewrite Hctx1; reflexivity).
  assert (session_of (t_ctx e1') h1) as Hs1.
  { rewrite Hctx1'. repeat split; simpl; [exact Halgo | exact Hliv]. }
  assert (t_inBuf e1' = t_inBuf e1) as Hin1' by reflexivity.
  assert (t_outBuf e1' = t_outBuf m) as Hout1'' by exact Hout1'.
  assert (buf_size (t_inBuf e1) = k * B + B) as Hn1.
  { rewrite <- (length_buf_bytes _ Hwi1), Hin1, length_app. lia. }
  destruct (run (xmlSecGnuTLSBlockCipherCtxUpdate P 0 None (Some tt)) e1') as [r2 e2] eqn:E2.
  assert (r2 = 0%Z) as ->.
  { eapply (Update_succeeds P 0 None (Some tt) e1' h1); eauto;
      rewrite Hctx1'; simpl; auto; lia. }
  destruct (Update_bytes_all P 0 None (Some tt) e1' e2 h1 E2 Hs1 Hshape)
    as (Hout2 & Hin2 & Hctx2 & Hwi2 & Hwo2);
    [rewrite Hin1'; exact Hwi1 | rewrite Hout1''; exact Hwo |].
  rewrite Hctx1', Hin1', Hout1'', Hn1, Hin1 in *.
  cbn [cipher mode keyId keyInitialized ctxInitialized] in *.
  change (truth 0) with false in *. cbv iota in Hout2, Hin2, Hctx2. fold B in Hout2, Hin2, Hctx2.
  rewrite (div_last_block k B HB) in Hout2, Hin2, Hctx2.
  assert (session_cbc P false h1 k (C1 ++ C2) = session_cbc P false h1 k C1) as Hpass1.
  { rewrite <- (session_cbc_take P false h1 k (C1 ++ C2)).
    unfold h1 at 2. cbn [hd_algo]. rewrite Halgo. fold B.
    rewrite take_app_length' by (symmetry; exact HlC1). reflexivity. }
  rewrite Hpass1 in Hout2, Hctx2.
  rewrite drop_app_length' in Hin2 by (symmetry; exact HlC1).
  change (0 <? 0)%Z with false. cbv iota.
  set (pass1 := session_cbc P false h1 k C1) in *.
  set (h2 := mkHandle (hd_algo h) (hd_mode h) (hd_key h) pass1.2) in *.
  (* Final *)
  assert (buf_size (t_inBuf e2) = B) as Hn2.
  { rewrite <- (length_buf_bytes _ Hwi2), Hin2. exact HlC2. }
  assert (length pass1.2 = B) as Hiv2.
  { destruct (session_cbc_length P false h1 k C1) as [_ Hl]; auto.
    - unfold h1. simpl. rewrite Hliv, Halgo. reflexivity.
    - unfold h1. simpl. rewrite Halgo. fold B. lia.
    - etransitivity; [exact Hl|]. unfold h1. simpl. rewrite Halgo. reflexivity. }
  assert (session_of (t_ctx e2) h2) as Hs2.
  { rewrite Hctx2. repeat split; simpl; [exact Halgo | exact Hiv2]. }
  destruct (run (xmlSecGnuTLSBlockCipherCtxFinal P 0 None (Some tt)) e2) as [r3 e3] eqn:E3.
  assert (r3 = 0%Z) as ->.
  { eapply (Final_decrypt_succeeds P 0 None (Some tt) e2 h2); eauto;
      rewrite ?Hctx2, ?Hin2; simpl; auto; try lia; try (fold B; lia);
      try (fold B; exact Hp). }
  destruct (Final_decrypt_bytes P 0 None (Some tt) e2 e3 h2 E3 eq_refl Hs2 Hshape Hwi2 Hwo2)
    as (_ & _ & Hout3 & Hin3 & _).
  change (0 <? 0)%Z with false. cbv iota.
  exists e3. split; [reflexivity|]. split; [|exact Hin3].
  rewrite Hout3, Hout2. rewrite <- !app_assoc.
  do 2 f_equal. rewrite Hctx2, Hin2. reflexivity.
Qed.

Lemma blklen_le_16 (c : gcry_cipher_algos) : gcry_cipher_get_algo_blklen c <= 16.
Proof. destruct c; simpl; lia. Qed.

Lemma lookup_last_of_block (a b : list byte) (c : byte) (i : nat) :
  i = length a + length b -> (a ++ b ++ [c]) !! i = Some c.
Proof.
  intros ->. rewrite lookup_app_r by lia.
  replace (length a + length b - length a) with (length b) by lia.
  rewrite lookup_app_r by lia. rewrite Nat.sub_diag. reflexivity.
Qed.

(** ** Round trip of the framed pipeline *)

(** X21.  The three phases are each other's inverse once the framing flag is
    set.  Take an encrypting and a decrypting transform that Initialize and
    SetKey have set up for the same cipher under the same key, an allocator
    that grants every request, and a block primitive whose decryption undoes
    its encryption.  Then Init, Update and Final in encrypt direction, with
    the flag set by hand after Init, go through and append a ciphertext of
    [B + B * ceil((n + 1) / B)] bytes for the [n] bytes of input; and the
    same three phases in decrypt direction on that ciphertext go through and
    append exactly the plaintext. *)
Theorem framed_round_trip (P : Provider) (me md : Machine) (he hd : gcry_cipher_handle) :
  ready me he -> ready md hd ->
  cipher (t_ctx md) = cipher (t_ctx me) -> hd_key hd = hd_key he ->
  (forall j, alloc_ok (allocator P) j = true) ->
  block_shape P (hd_algo he) (hd_key he) ->
  block_inverse P (hd_algo he) (hd_key he) ->
  exists me' ciphertext,
    framed_pipeline P 1 me = Some me'
    /\ buf_bytes (t_outBuf me') = buf_bytes (t_outBuf me) ++ ciphertext
    /\ length ciphertext
       = ciphertext_len (gcry_cipher_get_algo_blklen (cipher (t_ctx me)))
                        (buf_size (t_inBuf me))
    /\ (buf_bytes (t_inBuf md) = ciphertext ->
        exists md',
          framed_pipeline P 0 md = Some md'
          /\ buf_bytes (t_outBuf md')
             = buf_bytes (t_outBuf md) ++ buf_bytes (t_inBuf me)).
Proof.
  intros Hre Hrd Hcipher Hkey Hal Hshape Hinv.
  destruct (framed_encrypt P me he Hre Hal Hshape) as (me' & Hpipe & Hout & _).
  cbv zeta in Hout.
  pose proof Hre as ((Hhe & Halgo & Hiv) & Hc & _ & _ & Hwi & _).
  pose proof Hrd as ((Hhd & Halgod & _) & _).
  set (B := gcry_cipher_get_algo_blklen (cipher (t_ctx me))) in *.
  set (n := buf_size (t_inBuf me)) in *.
  set (x := buf_bytes (t_inBuf me)) in *.
  set (k := n / B) in *.
  set (iv := map (random_byte P) (seq (random_drawn me) B)) in *.
  set (a := hd_algo he) in *. set (key := hd_key he) in *.
  assert (gcry_cipher_get_algo_blklen a = B) as Ha by (rewrite Halgo; reflexivity).
  assert (0 < B) as HB by (apply blklen_pos, Hc).
  assert (length x = n) as Hx by (apply length_buf_bytes, Hwi).
  assert (k * B <= n) as Hk by (unfold k; rewrite Nat.mul_comm; apply Nat.Div0.mul_div_le).
  assert (n - k * B < B) as Hrest.
  { unfold k. pose proof (Nat.div_mod_eq n B). pose proof (Nat.mod_upper_bound n B). nia. }
  set (E := blk_encrypt P a key). set (D := blk_decrypt P a key).
  assert (forall blk, length blk = B -> length (E blk) = B) as HE
    by (intros blk Hb; rewrite <- Ha in *; apply (Hshape blk Hb)).
  assert (forall blk, length blk = B -> length (D blk) = B) as HD
    by (intros blk Hb; rewrite <- Ha in *; apply (Hshape blk Hb)).
  assert (forall blk, length blk = B -> D (E blk) = blk) as HDE
    by (intros blk Hb; apply Hinv; rewrite Ha; exact Hb).
  assert (length iv = B) as Hliv by apply length_random.
  (* the two encryption passes, as CBC over the block primitive *)
  set (rest := drop (k * B) x) in *.
  set (block := rest ++ map (random_byte P) (seq (random_drawn me + B) (B - (n - k * B) - 1))
                ++ [byte_of_nat (B - (n - k * B))]) in *.
  assert (length rest = n - k * B) as Hlrest by (unfold rest; rewrite length_drop; lia).
  assert (length block = B) as Hlblock.
  { unfold block. rewrite !length_app, length_random, Hlrest. simpl. lia. }
  set (enc1 := cbc_encrypt E B k iv (take (k * B) x)).
  assert (session_cbc P true (mkHandle a (hd_mode he) key iv) k x = enc1) as Hp1.
  { unfold session_cbc, enc1. cbn [hd_algo hd_key hd_iv]. rewrite Ha.
    symmetry. apply cbc_encrypt_take. }
  rewrite Hp1 in Hout.
  assert (length (take (k * B) x) = k * B) as Hltake by (rewrite length_take; lia).
  destruct (cbc_encrypt_length E B k iv (take (k * B) x) HE Hliv ltac:(lia)) as [Hl1 Hl1'].
  fold enc1 in Hl1, Hl1'.
  set (enc2 := cbc_encrypt E B 1 enc1.2 block).
  assert (session_cbc P true (mkHandle a (hd_mode he) key enc1.2) 1 block = enc2) as Hp2.
  { unfold session_cbc, enc2. cbn [hd_algo hd_key hd_iv]. rewrite Ha. reflexivity. }
  rewrite Hp2 in Hout.
  destruct (cbc_encrypt_length E B 1 enc1.2 block HE Hl1' ltac:(lia)) as [Hl2 _].
  fold enc2 in Hl2. rewrite Nat.mul_1_l in Hl2.
  exists me', (iv ++ enc1.1 ++ enc2.1).
  split; [exact Hpipe|]. split; [exact Hout|]. split.
  { rewrite !length_app, Hliv, Hl1, Hl2. rewrite ciphertext_len_blocks by exact HB.
    fold k. lia. }
  (* decryption *)
  intros Hct.
  assert (gcry_cipher_get_algo_blklen (cipher (t_ctx md)) = B) as HBd
    by (rewrite Hcipher; reflexivity).
  assert (hd_algo hd = a) as Had by (rewrite Halgod, Hcipher; symmetry; exact Halgo).
  destruct (cbc_round_trip E D B k iv (take (k * B) x) HE HDE Hliv Hltake) as [Hrt1 Hrt1'].
  fold enc1 in Hrt1, Hrt1'.
  destruct (cbc_round_trip E D B 1 enc1.2 block HE HDE Hl1' ltac:(lia)) as [Hrt2 _].
  fold enc2 in Hrt2.
  assert (session_cbc P false (mkHandle (hd_algo hd) (hd_mode hd) (hd_key hd) iv) k enc1.1
          = cbc_decrypt D B k iv enc1.1) as Hd1.
  { unfold session_cbc. cbn [hd_algo hd_key hd_iv]. rewrite Had, Hkey, Ha. reflexivity. }
  assert (session_cbc P false
            (mkHandle (hd_algo hd) (hd_mode hd) (hd_key hd) (cbc_decrypt D B k iv enc1.1).2)
            1 enc2.1
          = cbc_decrypt D B 1 enc1.2 enc2.1) as Hd2.
  { unfold session_cbc. cbn [hd_algo hd_key hd_iv]. rewrite Had, Hkey, Ha, Hrt1'. reflexivity. }
  assert ((cbc_decrypt D B 1 enc1.2 enc2.1).1 !! (B - 1)
          = Some (byte_of_nat (B - (n - k * B)))) as Hlast.
  { rewrite Hrt2. unfold block. apply lookup_last_of_block.
    rewrite length_random, Hlrest. lia. }
  pose proof (blklen_le_16 (cipher (t_ctx me))) as H16. fold B in H16.
  assert (Byte.to_nat (byte_of_nat (B - (n - k * B))) = B - (n - k * B)) as Hpad
    by (apply to_nat_byte_of_nat; lia).
  destruct (framed_decrypt P md hd iv enc1.1 enc2.1 k Hrd Hal) as (md' & Hpd & Houtd & _).
  - rewrite Had, Hkey. exact Hshape.
  - rewrite Hct. reflexivity.
  - rewrite HBd. exact Hliv.
  - rewrite HBd. exact Hl1.
  - rewrite HBd. exact Hl2.
  - cbv zeta. rewrite Hd1, Hd2, HBd, Hlast. simpl. rewrite Hpad. lia.
  - exists md'. split; [exact Hpd|].
    rewrite Houtd. cbv zeta. rewrite Hd1, Hd2, HBd, Hlast, Hrt1, Hrt2. simpl.
    rewrite Hpad. f_equal.
    replace (B - (B - (n - k * B))) with (n - k * B) by lia.
    unfold block. rewrite take_app_length' by (symmetry; exact Hlrest).
    unfold rest. apply take_drop.
Qed.

(** ** Calls of Execute before the last one *)

(** A call of Execute with [last] zero on a transform whose framing flag is
    clear is the Init phase and nothing more: Init leaves the flag clear, so
    Update is not reached. *)
Lemma Execute_nonfinal_run (P : Provider) (tctx : option xmlSecTransformCtx) (m : Machine) :
  xmlSecGnuTLSBlockCipherCheckId (t_id m) = true ->
  nonnull tctx = true ->
  t_status m = xmlSecTransformStatusNone \/ t_status m = xmlSecTransformStatusWorking ->
  ctxInitialized (t_ctx m) = 0%Z ->
  let working := set_status xmlSecTransformStatusWorking m in
  let init := run (xmlSecGnuTLSBlockCipherCtxInit P (t_encode m)
                     (xmlSecTransformGetName (t_id m)) tctx) working in
  run (xmlSecGnuTLSBlockCipherExecute P 0 tctx) m
  = if (fst init <? 0)%Z
    then ((-1)%Z, set_errors (Init_failed_report (t_id m) :: errors (snd init)) (snd init))
    else (0%Z, snd init).
Proof.
  intros Hid Htctx Hst Hz working init.
  destruct init as [r0 m0] eqn:Hinit. unfold init in Hinit. clear init.
  pose proof (Init_effect P _ _ _ _ _ _ Hinit) as (_ & Hr & _ & Hflag & _).
  specialize (Hflag Hz).
  destruct (run (xmlSecGnuTLSBlockCipherExecute P 0 tctx) m) as [r m'] eqn:H.
  assert (t_status m = xmlSecTransformStatusWorking -> working = m) as Hsame.
  { intros Hw. unfold working. destruct m; simpl in *; subst; reflexivity. }
  cbn [fst snd].
  assert ((ctxInitialized (t_ctx m) =? 0)%Z = true) as Hzb by (rewrite Hz; reflexivity).
  destruct tctx as [u|]; [clear Htctx | discriminate Htctx].
  unfold Init_failed_report.
  destruct Hst as [Hst|Hst].
  - unfold working in Hinit. exec_run H.
    all: unfold xmlSecTransformCheckSize in *; try (simpl in *; tests; congruence).
    all: try (match goal with
              | E : run (xmlSecGnuTLSBlockCipherCtxInit _ _ _ _) _ = _ |- _ =>
                  rewrite Hinit in E; injection E as <- <-
              end).
    all: tests; simpl in *.
    all: try (exfalso; congruence).
    all: destruct Hr as [-> | ->]; try (exfalso; lia); try reflexivity.
  - rewrite (Hsame Hst) in Hinit. exec_run H.
    all: unfold xmlSecTransformCheckSize in *; try (simpl in *; tests; congruence).
    all: try (match goal with
              | E : run (xmlSecGnuTLSBlockCipherCtxInit _ _ _ _) _ = _ |- _ =>
                  rewrite Hinit in E; injection E as <- <-
              end).
    all: tests; simpl in *.
    all: try (exfalso; congruence).
    all: destruct Hr as [-> | ->]; try (exfalso; lia); try reflexivity.
Qed.

(** X16.  A call of Execute before the last one, in encrypt direction, on a
    transform that is set up: whatever the input holds, the call returns 0,
    appends one block of fresh random bytes to the output as a new IV, makes
    them the chaining value of the session and leaves the input where it is.
    The transform is afterwards as ready as before, with the framing flag
    still clear, so the next such call does the same again. *)
Theorem Execute_nonfinal_encrypt_emits_iv (P : Provider) (tctx : option xmlSecTransformCtx)
    (m : Machine) (h : gcry_cipher_handle) :
  ready m h ->
  xmlSecGnuTLSBlockCipherCheckId (t_id m) = true ->
  nonnull tctx = true ->
  t_status m = xmlSecTransformStatusNone \/ t_status m = xmlSecTransformStatusWorking ->
  truth (t_encode m) = true ->
  (forall k, alloc_ok (allocator P) k = true) ->
  let B := gcry_cipher_get_algo_blklen (cipher (t_ctx m)) in
  let iv := map (random_byte P) (seq (random_drawn m) B) in
  let result := run (xmlSecGnuTLSBlockCipherExecute P 0 tctx) m in
  let m' := snd result in
  fst result = 0%Z
  /\ buf_bytes (t_outBuf m') = buf_bytes (t_outBuf m) ++ iv
  /\ t_inBuf m' = t_inBuf m
  /\ ready m' (mkHandle (hd_algo h) (hd_mode h) (hd_key h) iv)
  /\ t_status m' = xmlSecTransformStatusWorking
  /\ random_drawn m' = random_drawn m + B
  /\ errors m' = errors m /\ gcry_calls m' = gcry_calls m.
Proof.
  intros Hready Hid Htctx Hst Henc Hal B iv result m'.
  destruct Hready as ((Hh & Halgo & Hiv) & Hc & Hk & Hz & Hwi & Hwo).
  unfold m', result. clear m' result.
  rewrite (Execute_nonfinal_run P tctx m Hid Htctx Hst Hz). cbv zeta.
  destruct (run (xmlSecGnuTLSBlockCipherCtxInit P (t_encode m)
                   (xmlSecTransformGetName (t_id m)) tctx)
                (set_status xmlSecTransformStatusWorking m)) as [r0 m0] eqn:HI.
  assert (r0 = 0%Z) as ->.
  { eapply (Init_succeeds P _ _ _ _ h); [exact HI|..]; simpl; try done;
      try (repeat split; assumption). }
  cbn [fst snd]. change (0 <? 0)%Z with false. cbv iota. cbn [fst snd].
  pose proof (Init_encrypt_bytes P _ _ _ _ _ HI Henc Hwo) as (Hout & Hwo' & h' & Hh' & Hctx).
  pose proof (Init_frame P _ _ _ _ _ _ HI) as (_ & _ & _ & _ & Hin & Hrnd).
  pose proof (Init_effect P _ _ _ _ _ _ HI) as ((_ & _ & Hst' & Hcalls & _) & _ & Herr & _).
  simpl in Hout, Hh', Hctx, Hin, Hrnd, Hst', Hcalls, Herr, Hwo'.
  rewrite Hh in Hh'. injection Hh' as <-.
  specialize (Hin Henc). specialize (Hrnd eq_refl Henc). destruct (Herr eq_refl) as [_ Herr'].
  repeat split; try assumption; try (rewrite Hctx; simpl; try done).
  - apply length_random.
  - rewrite Hin. exact Hwi.
Qed.

(** X17.  A call of Execute before the last one, in decrypt direction, on a
    transform that is set up.  With less than a block of input the call
    returns 0 and waits: nothing but the status changes.  With a block or
    more it returns 0, takes the first block of the input as the IV of the
    session and removes it; nothing is written to the output and the framing
    flag stays clear, so the next such call takes the next block of the
    ciphertext for an IV as well. *)
Theorem Execute_nonfinal_decrypt_takes_block (P : Provider)
    (tctx : option xmlSecTransformCtx) (m : Machine) (h : gcry_cipher_handle) :
  ready m h ->
  xmlSecGnuTLSBlockCipherCheckId (t_id m) = true ->
  nonnull tctx = true ->
  t_status m = xmlSecTransformStatusNone \/ t_status m = xmlSecTransformStatusWorking ->
  truth (t_encode m) = false ->
  (forall k, alloc_ok (allocator P) k = true) ->
  let B := gcry_cipher_get_algo_blklen (cipher (t_ctx m)) in
  let result := run (xmlSecGnuTLSBlockCipherExecute P 0 tctx) m in
  let m' := snd result in
  fst result = 0%Z
  /\ t_outBuf m' = t_outBuf m
  /\ t_status m' = xmlSecTransformStatusWorking
  /\ errors m' = errors m /\ gcry_calls m' = gcry_calls m
  /\ (buf_size (t_inBuf m) < B -> m' = set_status xmlSecTransformStatusWorking m)
  /\ (B <= buf_size (t_inBuf m) ->
      buf_bytes (t_inBuf m') = drop B (buf_bytes (t_inBuf m))
      /\ ready m' (mkHandle (hd_algo h) (hd_mode h) (hd_key h)
                            (take B (buf_bytes (t_inBuf m))))).
Proof.
  intros Hready Hid Htctx Hst Henc Hal B result m'.
  destruct Hready as ((Hh & Halgo & Hiv) & Hc & Hk & Hz & Hwi & Hwo).
  unfold m', result. clear m' result.
  rewrite (Execute_nonfinal_run P tctx m Hid Htctx Hst Hz). cbv zeta.
  destruct (run (xmlSecGnuTLSBlockCipherCtxInit P (t_encode m)
                   (xmlSecTransformGetName (t_id m)) tctx)
                (set_status xmlSecTransformStatusWorking m)) as [r0 m0] eqn:HI.
  assert (r0 = 0%Z) as ->.
  { eapply (Init_succeeds P _ _ _ _ h); [exact HI|..]; simpl; try done;
      try (repeat split; assumption). }
  cbn [fst snd]. change (0 <? 0)%Z with false. cbv iota. cbn [fst snd].
  pose proof (Init_frame P _ _ _ _ _ _ HI) as (_ & _ & _ & Hdec & _).
  pose proof (Init_effect P _ _ _ _ _ _ HI)
    as ((_ & _ & Hst' & Hcalls & _) & _ & Herr & _ & _ & _ & _ & Hshort).
  simpl in Hdec, Hst', Hcalls, Herr, Hshort.
  destruct (Hdec Henc) as [_ Hout]. destruct (Herr eq_refl) as [_ Herr'].
  repeat split; try assumption.
  - intros Hlt. apply Hshort; try done. rewrite Hh. reflexivity.
  - apply (Init_decrypt_bytes P _ _ _ _ _ HI Henc); simpl; assumption.
  - pose proof (Init_decrypt_bytes P _ _ _ _ _ HI Henc) as Hb. simpl in Hb.
    destruct (Hb H Hwi) as (_ & _ & h' & Hh' & Hctx).
    rewrite Hh in Hh'. injection Hh' as <-. rewrite Hctx. reflexivity.
  - pose proof (Init_decrypt_bytes P _ _ _ _ _ HI Henc) as Hb. simpl in Hb.
    destruct (Hb H Hwi) as (_ & _ & h' & Hh' & Hctx).
    rewrite Hh in Hh'. injection Hh' as <-. rewrite Hctx. simpl. exact Halgo.
  - pose proof (Init_decrypt_bytes P _ _ _ _ _ HI Henc) as Hb. simpl in Hb.
    destruct (Hb H Hwi) as (_ & _ & h' & Hh' & Hctx).
    rewrite Hctx. simpl. rewrite length_take, (length_buf_bytes _ Hwi). fold B. lia.
  - pose proof (Init_decrypt_bytes P _ _ _ _ _ HI Henc) as Hb. simpl in Hb.
    destruct (Hb H Hwi) as (_ & _ & h' & Hh' & Hctx). rewrite Hctx. simpl. exact Hc.
  - pose proof (Init_decrypt_bytes P _ _ _ _ _ HI Henc) as Hb. simpl in Hb.
    destruct (Hb H Hwi) as (_ & _ & h' & Hh' & Hctx). rewrite Hctx. simpl. exact Hk.
  - pose proof (Init_decrypt_bytes P _ _ _ _ _ HI Henc) as Hb. simpl in Hb.
    destruct (Hb H Hwi) as (_ & _ & h' & Hh' & Hctx). rewrite Hctx. reflexivity.
  - pose proof (Init_decrypt_bytes P _ _ _ _ _ HI Henc) as Hb. simpl in Hb.
    destruct (Hb H Hwi) as (_ & Hw & _). exact Hw.
  - rewrite Hout. exact Hwo.
Qed.

(** ** The phases on the bytes, flag set *)

(** X18.  Update on a transform whose framing flag is set cannot fail while the
    allocator grants what the output needs, and what it does is one CBC pass:
    the whole blocks of the input (all but the last block's worth in decrypt
    direction) go through the provider under the key and chaining value of
    the session and are appended to the output, they are removed from the
    input, and the session is left with the chaining value the pass ends on. *)
Theorem Update_appends_cbc_pass (P : Provider) (encrypt : Z) (name : option string)
    (tctx : option xmlSecTransformCtx) (m : Machine) (h : gcry_cipher_handle) :
  session_of (t_ctx m) h ->
  block_shape P (hd_algo h) (hd_key h) ->
  cipher (t_ctx m) <> GCRY_CIPHER_NONE ->
  ctxInitialized (t_ctx m) <> 0%Z ->
  nonnull tctx = true ->
  (forall k, alloc_ok (allocator P) k = true) ->
  buf_wf (t_inBuf m) -> buf_wf (t_outBuf m) ->
  let B := gcry_cipher_get_algo_blklen (cipher (t_ctx m)) in
  let n := buf_size (t_inBuf m) in
  let k := if truth encrypt then n / B else (n - 1) / B in
  let pass := session_cbc P (truth encrypt) h k (buf_bytes (t_inBuf m)) in
  let result := run (xmlSecGnuTLSBlockCipherCtxUpdate P encrypt name tctx) m in
  let m' := snd result in
  fst result = 0%Z
  /\ buf_bytes (t_outBuf m') = buf_bytes (t_outBuf m) ++ pass.1
  /\ buf_bytes (t_inBuf m') = drop (k * B) (buf_bytes (t_inBuf m))
  /\ cipherCtx (t_ctx m') = Some (mkHandle (hd_algo h) (hd_mode h) (hd_key h) pass.2)
  /\ length pass.1 = k * B
  /\ errors m' = errors m.
Proof.
  intros Hs Hshape Hc Hflag Htctx Hal Hwi Hwo B n k pass result m'.
  unfold m', result. clear m' result.
  destruct (run (xmlSecGnuTLSBlockCipherCtxUpdate P encrypt name tctx) m) as [r m1] eqn:HU.
  assert (r = 0%Z) as -> by exact (Update_succeeds P _ _ _ _ h _ _ HU Hs Hc Hflag Htctx Hal).
  cbn [fst snd].
  pose proof (Update_bytes_all P _ _ _ _ _ h HU Hs Hshape Hwi Hwo)
    as (Hout & Hin & Hctx & _).
  pose proof (Update_frame P _ _ _ _ _ _ HU) as Hfr.
  split; [reflexivity|]. split; [exact Hout|]. split; [exact Hin|].
  split; [rewrite Hctx; reflexivity|]. split.
  - destruct Hs as (_ & Halgo & Hiv).
    assert (gcry_cipher_get_algo_blklen (hd_algo h) = B) as HB by (rewrite Halgo; reflexivity).
    assert (k * B <= n) as Hk.
    { unfold k. destruct (truth encrypt).
      - rewrite Nat.mul_comm. apply Nat.Div0.mul_div_le.
      - etransitivity; [rewrite Nat.mul_comm; apply Nat.Div0.mul_div_le|lia]. }
    destruct (session_cbc_length P (truth encrypt) h k (buf_bytes (t_inBuf m))) as [Hl _].
    + exact Hshape.
    + rewrite HB. exact Hiv.
    + rewrite HB, (length_buf_bytes _ Hwi). exact Hk.
    + rewrite HB in Hl. exact Hl.
  - destruct Hfr as (_ & Herr & _). apply Herr. reflexivity.
Qed.

(** X19.  Final in encrypt direction on a transform whose framing flag is set,
    the allocator granting: it succeeds exactly when less than a block of
    input is left.  It then makes one block of that input, [B - n - 1] fresh
    random bytes and a last byte that counts the bytes added, sends the block
    through the provider and appends the result to the output; the input is
    empty afterwards. *)
Theorem Final_encrypt_pads (P : Provider) (encrypt : Z) (name : option string)
    (tctx : option xmlSecTransformCtx) (m : Machine) (h : gcry_cipher_handle) :
  truth encrypt = true ->
  session_of (t_ctx m) h ->
  block_shape P (hd_algo h) (hd_key h) ->
  cipher (t_ctx m) <> GCRY_CIPHER_NONE ->
  ctxInitialized (t_ctx m) <> 0%Z ->
  nonnull tctx = true ->
  (forall k, alloc_ok (allocator P) k = true) ->
  buf_wf (t_inBuf m) -> buf_wf (t_outBuf m) ->
  let B := gcry_cipher_get_algo_blklen (cipher (t_ctx m)) in
  let n := buf_size (t_inBuf m) in
  let pass := session_cbc P true h 1 (padded_block P m) in
  let result := run (xmlSecGnuTLSBlockCipherCtxFinal P encrypt name tctx) m in
  let m' := snd result in
  (fst result = 0%Z <-> n < B)
  /\ (n < B ->
      padded_block P m
      = buf_bytes (t_inBuf m)
        ++ map (random_byte P) (seq (random_drawn m) (B - n - 1))
        ++ [byte_of_nat (B - n)]
      /\ length (padded_block P m) = B
      /\ buf_bytes (t_outBuf m') = buf_bytes (t_outBuf m) ++ pass.1
      /\ buf_size (t_inBuf m') = 0
      /\ random_drawn m' = random_drawn m + (B - n - 1)
      /\ errors m' = errors m).
Proof.
  intros Henc Hs Hshape Hc Hflag Htctx Hal Hwi Hwo B n pass result m'.
  unfold m', result. clear m' result.
  destruct (run (xmlSecGnuTLSBlockCipherCtxFinal P encrypt name tctx) m) as [r m1] eqn:HF.
  cbn [fst snd].
  assert (n < B -> r = 0%Z) as Hok
    by exact (Final_encrypt_succeeds P _ _ _ _ h _ _ HF Henc Hs Hc Hflag Htctx Hal).
  split.
  - split; [|exact Hok]. intros ->.
    apply (Final_encrypt_bytes P _ _ _ _ _ h HF Henc Hs Hshape Hwi Hwo).
  - intros Hn. rewrite (Hok Hn) in HF.
    pose proof (Final_encrypt_bytes P _ _ _ _ _ h HF Henc Hs Hshape Hwi Hwo)
      as (_ & Hlen & Hout & Hin & _ & Hrnd & _).
    pose proof (Final_frame P _ _ _ _ _ _ HF) as (_ & Herr & _).
    repeat split; try assumption. apply Herr. reflexivity.
Qed.

(** X20.  Final in decrypt direction on a transform whose framing flag is set,
    the allocator granting: it succeeds exactly when one block of input is
    left and the last byte of that block, decrypted, is no more than the
    block length.  It then appends the decrypted block without its last
    [p] bytes, [p] being that last byte, and empties the input.  The [p - 1]
    bytes before the last one are not looked at, and [p] may be zero. *)
Theorem Final_decrypt_unpads (P : Provider) (encrypt : Z) (name : option string)
    (tctx : option xmlSecTransformCtx) (m : Machine) (h : gcry_cipher_handle) :
  truth encrypt = false ->
  session_of (t_ctx m) h ->
  block_shape P (hd_algo h) (hd_key h) ->
  cipher (t_ctx m) <> GCRY_CIPHER_NONE ->
  ctxInitialized (t_ctx m) <> 0%Z ->
  nonnull tctx = true ->
  (forall k, alloc_ok (allocator P) k = true) ->
  buf_wf (t_inBuf m) -> buf_wf (t_outBuf m) ->
  let B := gcry_cipher_get_algo_blklen (cipher (t_ctx m)) in
  let pass := session_cbc P false h 1 (buf_bytes (t_inBuf m)) in
  let p := Byte.to_nat (default x00 (pass.1 !! (B - 1))) in
  let result := run (xmlSecGnuTLSBlockCipherCtxFinal P encrypt name tctx) m in
  let m' := snd result in
  (fst result = 0%Z <-> buf_size (t_inBuf m) = B /\ p <= B)
  /\ (fst result = 0%Z ->
      buf_bytes (t_outBuf m') = buf_bytes (t_outBuf m) ++ take (B - p) pass.1
      /\ buf_size (t_inBuf m') = 0
      /\ random_drawn m' = random_drawn m
      /\ errors m' = errors m).
Proof.
  intros Henc Hs Hshape Hc Hflag Htctx Hal Hwi Hwo B pass p result m'.
  unfold m', result. clear m' result.
  destruct (run (xmlSecGnuTLSBlockCipherCtxFinal P encrypt name tctx) m) as [r m1] eqn:HF.
  cbn [fst snd].
  split.
  - split.
    + intros ->.
      pose proof (Final_decrypt_bytes P _ _ _ _ _ h HF Henc Hs Hshape Hwi Hwo)
        as (Hn & Hp & _).
      split; assumption.
    + intros [Hn Hp].
      exact (Final_decrypt_succeeds P _ _ _ _ h _ _ HF Henc Hs Hshape Hc Hflag Htctx Hal
               Hwi Hwo Hn Hp).
  - intros ->.
    pose proof (Final_decrypt_bytes P _ _ _ _ _ h HF Henc Hs Hshape Hwi Hwo)
      as (_ & _ & Hout & Hin & _ & Hrnd & _).
    pose proof (Final_frame P _ _ _ _ _ _ HF) as (_ & Herr & _).
    repeat split; try assumption. apply Herr. reflexivity.
Qed.

(** * The further properties on concrete inputs *)

(** The XOR provider is a block cipher in the sense the proofs need, under
    any key of one block. *)
Lemma xor_provider_shape (algo : gcry_cipher_algos) (key : list byte) :
  length key = gcry_cipher_get_algo_blklen algo -> block_shape xor_provider algo key.
Proof.
  intros Hk blk Hb. simpl. rewrite length_xor_bytes. lia.
Qed.

Lemma xor_provider_inverse (algo : gcry_cipher_algos) (key : list byte) :
  length key = gcry_cipher_get_algo_blklen algo -> block_inverse xor_provider algo key.
Proof.
  intros Hk blk Hb. simpl. apply xor_bytes_involutive. lia.
Qed.

Ltac by_eval :=
  first [ reflexivity
        | left; reflexivity
        | vm_compute; first [reflexivity | discriminate | lia] ].

Ltac ready_by_eval := repeat split; by_eval.

(** A transform of a klass that is not of this file. *)
Lemma foreign_transform_rejected_witness :
  let m := new_transform xmlSecTransformIdOther 1 in
  xmlSecGnuTLSBlockCipherCheckId (t_id m) = false
  /\ fst (run (xmlSecGnuTLSBlockCipherInitialize xor_provider) m) = (-1)%Z
  /\ fst (run (xmlSecGnuTLSBlockCipherExecute xor_provider 1 (Some tt)) m) = (-1)%Z.
Proof.
  cbv zeta. split; [reflexivity|].
  destruct (foreign_transform_rejected xor_provider
              (new_transform xmlSecTransformIdOther 1) None None 1 (Some tt) eq_refl)
    as (HI & _ & _ & _ & HE).
  rewrite HI, HE. split; reflexivity.
Defined.

(** The all-zero key on a fresh AES-128 transform: sixteen bytes go into the
    session. *)
Lemma SetKey_loads_key_prefix_witness :
  let m := snd (run (xmlSecGnuTLSBlockCipherInitialize xor_provider)
                    (new_transform xmlSecGnuTLSTransformAes128CbcId 1)) in
  let m' := snd (run (xmlSecGnuTLSBlockCipherSetKey xor_provider (Some aes128_zero_key)) m) in
  run (xmlSecGnuTLSBlockCipherSetKey xor_provider (Some aes128_zero_key)) m = (0%Z, m')
  /\ keyInitialized (t_ctx m') = 1%Z
  /\ gcry_cipher_get_algo_keylen (cipher (t_ctx m)) <= 16.
Proof.
  cbv zeta. split; [vm_compute; reflexivity|].
  destruct (SetKey_loads_key_prefix xor_provider aes128_zero_key
              (buffer_of (replicate 16 x00))
              (snd (run (xmlSecGnuTLSBlockCipherInitialize xor_provider)
                        (new_transform xmlSecGnuTLSTransformAes128CbcId 1)))
              (snd (run (xmlSecGnuTLSBlockCipherSetKey xor_provider (Some aes128_zero_key))
                        (snd (run (xmlSecGnuTLSBlockCipherInitialize xor_provider)
                                  (new_transform xmlSecGnuTLSTransformAes128CbcId 1))))))
    as (_ & Hk & Hlen & _).
  - reflexivity.
  - vm_compute; reflexivity.
  - split; [exact Hk | exact Hlen].
Defined.

(** A second key on the same transform. *)
Lemma SetKey_only_once_witness :
  let m := snd (run (xmlSecGnuTLSBlockCipherInitialize xor_provider)
                    (new_transform xmlSecGnuTLSTransformAes128CbcId 1)) in
  let m1 := snd (run (xmlSecGnuTLSBlockCipherSetKey xor_provider (Some aes128_zero_key)) m) in
  fst (run (xmlSecGnuTLSBlockCipherSetKey xor_provider (Some aes128_zero_key)) m1) = (-1)%Z
  /\ t_ctx (snd (run (xmlSecGnuTLSBlockCipherSetKey xor_provider (Some aes128_zero_key)) m1))
     = t_ctx m1.
Proof.
  cbv zeta.
  destruct (SetKey_only_once xor_provider (Some aes128_zero_key) (Some aes128_zero_key)
              (snd (run (xmlSecGnuTLSBlockCipherInitialize xor_provider)
                        (new_transform xmlSecGnuTLSTransformAes128CbcId 1)))
              (snd (run (xmlSecGnuTLSBlockCipherSetKey xor_provider (Some aes128_zero_key))
                        (snd (run (xmlSecGnuTLSBlockCipherInitialize xor_provider)
                                  (new_transform xmlSecGnuTLSTransformAes128CbcId 1))))))
    as (Hr & Hctx & _).
  - vm_compute; reflexivity.
  - split; [exact Hr | exact Hctx].
Defined.

(** The set-up of an AES-128 encryption. *)
Lemma setup_protocol_witness :
  let m := new_transform xmlSecGnuTLSTransformAes128CbcId 1 in
  let m1 := snd (run (xmlSecGnuTLSBlockCipherInitialize xor_provider) m) in
  let req := mkKeyReq None xmlSecKeyDataTypeOther xmlSecKeyUsageOther in
  xmlSecGnuTLSBlockCipherSetKeyReq (Some req) m1
  = (0%Z,
     Some (mkKeyReq (Some xmlSecGnuTLSKeyDataAesId) xmlSecKeyDataTypeSymmetric
                    xmlSecKeyUsageEncrypt),
     m1)
  /\ fst (run (xmlSecGnuTLSBlockCipherSetKey xor_provider (Some aes128_zero_key)) m1) = 0%Z.
Proof.
  cbv zeta.
  destruct (setup_protocol xor_provider (new_transform xmlSecGnuTLSTransformAes128CbcId 1)
              (mkKeyReq None xmlSecKeyDataTypeOther xmlSecKeyUsageOther)
              aes128_zero_key (buffer_of (replicate 16 x00)))
    as (Hreq & Hkey).
  - vm_compute; reflexivity.
  - reflexivity.
  - split; [exact Hreq|]. apply Hkey. vm_compute. repeat split; lia.
Defined.

(** Execute on a transform as created. *)
Lemma Execute_needs_setup_witness :
  let m := new_transform xmlSecGnuTLSTransformAes128CbcId 1 in
  let result := run (xmlSecGnuTLSBlockCipherExecute xor_provider 0 (Some tt)) m in
  fst result = (-1)%Z /\ t_status (snd result) = xmlSecTransformStatusWorking.
Proof.
  cbv zeta.
  destruct (Execute_needs_setup xor_provider 0 (Some tt)
              (new_transform xmlSecGnuTLSTransformAes128CbcId 1))
    as (Hr & _ & _ & _ & _ & Hst & _).
  - reflexivity.
  - reflexivity.
  - left; reflexivity.
  - reflexivity.
  - left; reflexivity.
  - split; [exact Hr | exact Hst].
Defined.


(** A first call of Execute, status None. *)
Lemma Execute_None_is_Working_witness :
  let m := aes128_machine 1 xmlSecTransformStatusNone 0 [x01] in
  run (xmlSecGnuTLSBlockCipherExecute xor_provider 0 (Some tt)) m
  = run (xmlSecGnuTLSBlockCipherExecute xor_provider 0 (Some tt))
        (set_status xmlSecTransformStatusWorking m).
Proof.
  cbv zeta.
  apply (Execute_None_is_Working xor_provider 0 (Some tt)
           (aes128_machine 1 xmlSecTransformStatusNone 0 [x01])); reflexivity.
Defined.

(** Execute on a finished transform with no input left. *)
Lemma Execute_outside_Working_witness :
  let m := aes128_machine 1 xmlSecTransformStatusFinished 0 [] in
  run (xmlSecGnuTLSBlockCipherExecute xor_provider 1 (Some tt)) m = (0%Z, m).
Proof.
  cbv zeta.
  destruct (Execute_outside_Working xor_provider 1 (Some tt)
              (aes128_machine 1 xmlSecTransformStatusFinished 0 []))
    as (Hfin & _).
  - reflexivity.
  - reflexivity.
  - rewrite (Hfin eq_refl). reflexivity.
Defined.

(** Twenty bytes of plaintext and a call that is not the last: sixteen random
    bytes come out, the plaintext stays. *)
Lemma Execute_nonfinal_encrypt_emits_iv_witness :
  let m := aes128_machine 1 xmlSecTransformStatusWorking 0 (replicate 20 x41) in
  let m' := snd (run (xmlSecGnuTLSBlockCipherExecute xor_provider 0 (Some tt)) m) in
  buf_bytes (t_outBuf m') = map (random_byte xor_provider) (seq 0 16)
  /\ t_inBuf m' = t_inBuf m
  /\ ctxInitialized (t_ctx m') = 0%Z.
Proof.
  cbv zeta.
  destruct (Execute_nonfinal_encrypt_emits_iv xor_provider (Some tt)
              (aes128_machine 1 xmlSecTransformStatusWorking 0 (replicate 20 x41))
              aes128_session)
    as (_ & Hout & Hin & Hready & _).
  - ready_by_eval.
  - reflexivity.
  - reflexivity.
  - right; reflexivity.
  - reflexivity.
  - reflexivity.
  - split; [exact Hout|]. split; [exact Hin|]. apply Hready.
Defined.

(** Two blocks of ciphertext and a call that is not the last: the first
    block is gone and nothing has come out. *)
Lemma Execute_nonfinal_decrypt_takes_block_witness :
  let m := aes128_machine 0 xmlSecTransformStatusWorking 0 (replicate 32 x01) in
  let m' := snd (run (xmlSecGnuTLSBlockCipherExecute xor_provider 0 (Some tt)) m) in
  t_outBuf m' = t_outBuf m
  /\ buf_bytes (t_inBuf m') = replicate 16 x01.
Proof.
  cbv zeta.
  destruct (Execute_nonfinal_decrypt_takes_block xor_provider (Some tt)
              (aes128_machine 0 xmlSecTransformStatusWorking 0 (replicate 32 x01))
              aes128_session)
    as (_ & Hout & _ & _ & _ & _ & Hblock).
  - ready_by_eval.
  - reflexivity.
  - reflexivity.
  - right; reflexivity.
  - reflexivity.
  - reflexivity.
  - split; [exact Hout|]. apply Hblock. vm_compute. lia.
Defined.

(** Twenty bytes in Update, encrypt direction: one block goes out. *)
Lemma Update_appends_cbc_pass_witness :
  let m := aes128_machine 1 xmlSecTransformStatusWorking 1 (replicate 20 x41) in
  let result := run (xmlSecGnuTLSBlockCipherCtxUpdate xor_provider 1 None (Some tt)) m in
  fst result = 0%Z
  /\ buf_bytes (t_outBuf (snd result))
     = (session_cbc xor_provider true aes128_session 1 (replicate 20 x41)).1
  /\ buf_bytes (t_inBuf (snd result)) = replicate 4 x41.
Proof.
  cbv zeta.
  destruct (Update_appends_cbc_pass xor_provider 1 None (Some tt)
              (aes128_machine 1 xmlSecTransformStatusWorking 1 (replicate 20 x41))
              aes128_session)
    as (Hr & Hout & Hin & _).
  - ready_by_eval.
  - apply xor_provider_shape. reflexivity.
  - by_eval.
  - by_eval.
  - reflexivity.
  - reflexivity.
  - by_eval.
  - by_eval.
  - split; [exact Hr|]. split; [exact Hout | exact Hin].
Defined.

(** Four bytes in Final, encrypt direction: eleven random bytes and the
    count 12 fill the block. *)
Lemma Final_encrypt_pads_witness :
  let m := aes128_machine 1 xmlSecTransformStatusWorking 1 (replicate 4 x41) in
  let result := run (xmlSecGnuTLSBlockCipherCtxFinal xor_provider 1 None (Some tt)) m in
  fst result = 0%Z
  /\ padded_block xor_provider m
     = replicate 4 x41 ++ map (random_byte xor_provider) (seq 0 11) ++ [x0c]
  /\ buf_size (t_inBuf (snd result)) = 0.
Proof.
  cbv zeta.
  destruct (Final_encrypt_pads xor_provider 1 None (Some tt)
              (aes128_machine 1 xmlSecTransformStatusWorking 1 (replicate 4 x41))
              aes128_session)
    as (Hr & Hbytes).
  - reflexivity.
  - ready_by_eval.
  - apply xor_provider_shape. reflexivity.
  - by_eval.
  - by_eval.
  - reflexivity.
  - reflexivity.
  - by_eval.
  - by_eval.
  - assert (buf_size (t_inBuf (aes128_machine 1 xmlSecTransformStatusWorking 1
                                 (replicate 4 x41)))
            < gcry_cipher_get_algo_blklen
                (cipher (t_ctx (aes128_machine 1 xmlSecTransformStatusWorking 1
                                  (replicate 4 x41))))) as Hn by (vm_compute; lia).
    destruct (Hbytes Hn) as (Hblock & _ & _ & Hin & _).
    split; [apply Hr, Hn|]. split; [exact Hblock | exact Hin].
Defined.

(** A last block that ends on the count 4, in Final, decrypt direction:
    twelve bytes come out. *)
Lemma Final_decrypt_unpads_witness :
  let m := aes128_machine 0 xmlSecTransformStatusWorking 1 (replicate 15 x41 ++ [x04]) in
  let result := run (xmlSecGnuTLSBlockCipherCtxFinal xor_provider 0 None (Some tt)) m in
  fst result = 0%Z
  /\ buf_bytes (t_outBuf (snd result)) = replicate 12 x41
  /\ buf_size (t_inBuf (snd result)) = 0.
Proof.
  cbv zeta.
  destruct (Final_decrypt_unpads xor_provider 0 None (Some tt)
              (aes128_machine 0 xmlSecTransformStatusWorking 1 (replicate 15 x41 ++ [x04]))
              aes128_session)
    as (Hr & Hbytes).
  - reflexivity.
  - ready_by_eval.
  - apply xor_provider_shape. reflexivity.
  - by_eval.
  - by_eval.
  - reflexivity.
  - reflexivity.
  - by_eval.
  - by_eval.
  - assert (fst (run (xmlSecGnuTLSBlockCipherCtxFinal xor_provider 0 None (Some tt))
                     (aes128_machine 0 xmlSecTransformStatusWorking 1
                        (replicate 15 x41 ++ [x04]))) = 0%Z) as H0.
    { apply Hr. vm_compute. split; [reflexivity | lia]. }
    destruct (Hbytes H0) as (Hout & Hin & _).
    split; [exact H0|]. split; [exact Hout | exact Hin].
Defined.

(** Twenty bytes through the framed pipeline and back. *)
Lemma framed_round_trip_witness :
  let plaintext := replicate 20 x41 in
  let me := aes128_machine 1 xmlSecTransformStatusWorking 0 plaintext in
  let md := aes128_machine 0 xmlSecTransformStatusWorking 0 framed_example_ciphertext in
  length framed_example_ciphertext = 48
  /\ (exists me',
        framed_pipeline xor_provider 1 me = Some me'
        /\ buf_bytes (t_outBuf me') = framed_example_ciphertext)
  /\ (exists md',
        framed_pipeline xor_provider 0 md = Some md'
        /\ buf_bytes (t_outBuf md') = plaintext).
Proof.
  cbv zeta. split; [reflexivity|].
  destruct (framed_round_trip xor_provider
              (aes128_machine 1 xmlSecTransformStatusWorking 0 (replicate 20 x41))
              (aes128_machine 0 xmlSecTransformStatusWorking 0 framed_example_ciphertext)
              aes128_session aes128_session)
    as (me' & ciphertext & Hpipe & Hout & _ & Hback).
  - ready_by_eval.
  - ready_by_eval.
  - reflexivity.
  - reflexivity.
  - reflexivity.
  - apply xor_provider_shape. reflexivity.
  - apply xor_provider_inverse. reflexivity.
  - vm_compute in Hpipe. injection Hpipe as <-.
    vm_compute in Hout. subst ciphertext.
    split.
    + eexists. split; vm_compute; reflexivity.
    + destruct Hback as (md' & Hpd & Houtd); [vm_compute; reflexivity|].
      exists md'. split; [exact Hpd | exact Houtd].
Defined.
